(** * sd-webui-roop: the HTTP face-swap endpoint ([scripts/roop_api.py])

    A shallow embedding of the request handler of [scripts/roop_api.py] and of
    its helpers: the image-source resolver, the option mapper, the private
    path builder and the response encoder.  Effects (filesystem, network,
    clock, uuid source, logger) are threaded through an explicit state and
    error monad that also records the sequence of effects performed. *)

From Stdlib Require Import ZArith NArith Bool List Lia.
From Stdlib Require Import Strings.Ascii Strings.String Strings.Byte.
From stdpp Require Import base option list gmap strings.

Local Open Scope string_scope.
Local Open Scope Z_scope.

(** ** Python values *)

(** [bytes]. *)
Abbreviation bytes := (list byte).

(** Truth value of a Python [str]: the empty string is falsy. *)
Definition str_truthy (s : string) : bool :=
  match s with
  | EmptyString => false
  | String _ _ => true
  end.

(** The value of an [Optional[str]] that passes an [if] test, if it does. *)
Definition truthy (o : option string) : option string :=
  match o with
  | Some s => if str_truthy s then Some s else None
  | None => None
  end.

(** [o is None]. *)
Definition is_none {A} (o : option A) : bool :=
  match o with
  | None => true
  | Some _ => false
  end.

Fixpoint bytes_eqb (a b : bytes) : bool :=
  match a, b with
  | [], [] => true
  | x :: a', y :: b' => Byte.eqb x y && bytes_eqb a' b'
  | _, _ => false
  end.

(** [h.startswith(prefix)] on bytes. *)
Fixpoint bytes_startswith (h pre : bytes) : bool :=
  match pre, h with
  | [], _ => true
  | y :: pre', x :: h' => Byte.eqb x y && bytes_startswith h' pre'
  | _ :: _, [] => false
  end.

(** The slice [h[i:j]]. *)
Definition bytes_slice (h : bytes) (i j : nat) : bytes :=
  firstn (j - i) (skipn i h).

(** [x in b] for a byte [x] and a bytes literal [b]. *)
Definition byte_in (x : byte) (b : bytes) : bool :=
  existsb (Byte.eqb x) b.

(** ** Strings: the few [str] operations the module relies on *)

(** [s.startswith(c)] and [s.endswith(c)] for a one-character [c]. *)
Definition str_startswith_char (s : string) (c : ascii) : bool :=
  match s with
  | String a _ => Ascii.eqb a c
  | EmptyString => false
  end.

Fixpoint str_endswith_char (s : string) (c : ascii) : bool :=
  match s with
  | EmptyString => false
  | String a EmptyString => Ascii.eqb a c
  | String _ s' => str_endswith_char s' c
  end.

(** [s.isascii()]. *)
Fixpoint str_isascii (s : string) : bool :=
  match s with
  | EmptyString => true
  | String c s' => (N_of_ascii c <? 128)%N && str_isascii s'
  end.

(** [c in s]. *)
Fixpoint str_contains (c : ascii) (s : string) : bool :=
  match s with
  | EmptyString => false
  | String a s' => Ascii.eqb a c || str_contains c s'
  end.

(** [s.rfind(c)]: the highest index of [c] in [s], or [-1]. *)
Fixpoint rfind_from (c : ascii) (s : string) (i acc : Z) : Z :=
  match s with
  | EmptyString => acc
  | String a s' => rfind_from c s' (i + 1) (if Ascii.eqb a c then i else acc)
  end.

Definition rfind (c : ascii) (s : string) : Z := rfind_from c s 0 (-1).

(** The slices [s[:i]] and [s[i:]] for [0 <= i]. *)
Definition str_take (i : Z) (s : string) : string :=
  String.substring 0 (Z.to_nat i) s.

Definition str_drop (i : Z) (s : string) : string :=
  String.substring (Z.to_nat i) (String.length s - Z.to_nat i) s.

(** [s.split(c)]: never empty, the pieces between the occurrences of [c]. *)
Fixpoint str_split (c : ascii) (s : string) : list string :=
  match s with
  | EmptyString => [EmptyString]
  | String a s' =>
      if Ascii.eqb a c then EmptyString :: str_split c s'
      else match str_split c s' with
           | x :: xs => String a x :: xs
           | [] => [String a EmptyString]
           end
  end.

(** [sep.join(parts)]. *)
Fixpoint str_join (sep : string) (parts : list string) : string :=
  match parts with
  | [] => EmptyString
  | [x] => x
  | x :: rest => x +:+ sep +:+ str_join sep rest
  end.

(** ** [os.path] *)

(** [os.path.join(a, b)] (posixpath). *)
Definition os_path_join (a b : string) : string :=
  if str_startswith_char b "/" then b
  else if negb (str_truthy a) || str_endswith_char a "/" then a +:+ b
  else a +:+ "/" +:+ b.

(** The loop of [genericpath._splitext] that skips the leading dots of the
    file name: [true] when some character in [p[filenameIndex:dotIndex]] is
    not a dot. *)
Fixpoint splitext_scan (n : nat) (p : string) (filenameIndex : Z) : bool :=
  match n with
  | O => false
  | S n' =>
      match String.get (Z.to_nat filenameIndex) p with
      | Some a =>
          if negb (Ascii.eqb a ".") then true
          else splitext_scan n' p (filenameIndex + 1)
      | None => true
      end
  end.

(** [os.path.splitext(p)]. *)
Definition splitext (p : string) : string * string :=
  let sepIndex := rfind "/" p in
  let dotIndex := rfind "." p in
  if (sepIndex <? dotIndex)
     && splitext_scan (Z.to_nat (dotIndex - (sepIndex + 1))) p (sepIndex + 1)
  then (str_take dotIndex p, str_drop dotIndex p)
  else (p, EmptyString).

(** [ext[1:]]. *)
Definition str_tail (s : string) : string :=
  match s with
  | EmptyString => EmptyString
  | String _ s' => s'
  end.

(** [os.path.dirname(p)] (posixpath). *)
Fixpoint str_rstrip_char (c : ascii) (s : string) : string :=
  match s with
  | EmptyString => EmptyString
  | String a s' =>
      match str_rstrip_char c s' with
      | EmptyString => if Ascii.eqb a c then EmptyString else String a EmptyString
      | r => String a r
      end
  end.

Definition os_path_dirname (p : string) : string :=
  let head := str_take (rfind "/" p + 1) p in
  match str_rstrip_char "/" head with
  | EmptyString => head
  | stripped => stripped
  end.

(** ** [pathlib]: pure POSIX paths *)

(** A [PurePosixPath]: its root ([""], ["/"] or ["//"]) and its components. *)
Record PurePath := mkPath { path_root : string; path_parts : list string }.

Fixpoint leading_slashes (s : string) : nat :=
  match s with
  | String a s' => if Ascii.eqb a "/" then S (leading_slashes s') else O
  | EmptyString => O
  end.

(** [splitroot]: exactly two leading slashes are kept, any other positive
    number collapses to one. *)
Definition splitroot (s : string) : string :=
  match leading_slashes s with
  | O => EmptyString
  | 2%nat => "//"
  | _ => "/"
  end.

Definition is_component (x : string) : bool :=
  negb (String.eqb x EmptyString) && negb (String.eqb x ".").

(** [PurePosixPath(s)]: empty and ["."] components are dropped. *)
Definition parse_path (s : string) : PurePath :=
  mkPath (splitroot s) (List.filter is_component (str_split "/" s)).

(** [p / s]: an absolute [s] replaces [p]. *)
Definition joinpath (p : PurePath) (s : string) : PurePath :=
  let q := parse_path s in
  if str_truthy (path_root q) then q
  else mkPath (path_root p) (path_parts p ++ path_parts q)%list.

(** [str(p)]. *)
Definition path_str (p : PurePath) : string :=
  match path_root p, path_parts p with
  | EmptyString, [] => "."
  | r, ps => r +:+ str_join "/" ps
  end.

(** The ancestors of [p] and [p] itself, outermost first (the directories
    [mkdir(parents=True)] makes sure exist). *)
Fixpoint path_prefixes (r : string) (done : list string) (todo : list string)
  : list string :=
  match todo with
  | [] => []
  | x :: rest =>
      path_str (mkPath r (done ++ [x])%list)
      :: path_prefixes r (done ++ [x])%list rest
  end.

Definition path_and_parents (p : PurePath) : list string :=
  path_prefixes (path_root p) [] (path_parts p).


(** ** [imghdr] *)

(** The header tests of [imghdr], each on the header bytes [h]. *)
Definition test_jpeg (h : bytes) : option string :=
  if bytes_eqb (bytes_slice h 6 10) (list_byte_of_string "JFIF")
     || bytes_eqb (bytes_slice h 6 10) (list_byte_of_string "Exif")
  then Some "jpeg"
  else if bytes_eqb (bytes_slice h 0 4) [xff; xd8; xff; xdb] then Some "jpeg"
  else None.

Definition test_png (h : bytes) : option string :=
  if bytes_startswith h [x89; x50; x4e; x47; x0d; x0a; x1a; x0a]
  then Some "png" else None.

Definition test_gif (h : bytes) : option string :=
  if bytes_eqb (bytes_slice h 0 6) (list_byte_of_string "GIF87a")
     || bytes_eqb (bytes_slice h 0 6) (list_byte_of_string "GIF89a")
  then Some "gif" else None.

Definition test_tiff (h : bytes) : option string :=
  if bytes_eqb (bytes_slice h 0 2) (list_byte_of_string "MM")
     || bytes_eqb (bytes_slice h 0 2) (list_byte_of_string "II")
  then Some "tiff" else None.

Definition test_rgb (h : bytes) : option string :=
  if bytes_startswith h [x01; xda] then Some "rgb" else None.

(** The shared shape of the three netpbm tests: ['P'], a digit among
    [kinds], then white space. *)
Definition test_pnm (kinds : string) (name : string) (h : bytes)
  : option string :=
  match h with
  | h0 :: h1 :: h2 :: _ =>
      if Byte.eqb h0 x50
         && byte_in h1 (list_byte_of_string kinds)
         && byte_in h2 [x20; x09; x0a; x0d]
      then Some name else None
  | _ => None
  end.

Definition test_pbm := test_pnm "14" "pbm".
Definition test_pgm := test_pnm "25" "pgm".
Definition test_ppm := test_pnm "36" "ppm".

Definition test_rast (h : bytes) : option string :=
  if bytes_startswith h [x59; xa6; x6a; x95] then Some "rast" else None.

Definition test_xbm (h : bytes) : option string :=
  if bytes_startswith h (list_byte_of_string "#define ")
  then Some "xbm" else None.

Definition test_bmp (h : bytes) : option string :=
  if bytes_startswith h (list_byte_of_string "BM") then Some "bmp" else None.

Definition test_webp (h : bytes) : option string :=
  if bytes_startswith h (list_byte_of_string "RIFF")
     && bytes_eqb (bytes_slice h 8 12) (list_byte_of_string "WEBP")
  then Some "webp" else None.

Definition test_exr (h : bytes) : option string :=
  if bytes_startswith h [x76; x2f; x31; x01] then Some "exr" else None.

Definition imghdr_tests : list (bytes -> option string) :=
  [test_jpeg; test_png; test_gif; test_tiff; test_rgb; test_pbm; test_pgm;
   test_ppm; test_rast; test_xbm; test_bmp; test_webp; test_exr].

(** The loop of [imghdr.what] over [tests]: the first result wins. *)
Fixpoint first_test (tests : list (bytes -> option string)) (h : bytes)
  : option string :=
  match tests with
  | [] => None
  | tf :: rest =>
      match tf h with
      | Some res => Some res
      | None => first_test rest h
      end
  end.

(** [imghdr.what(None, h)]. *)
Definition imghdr_what (h : bytes) : option string :=
  first_test imghdr_tests h.

(** ** [datetime] *)

Record datetime := mkDatetime {
  dt_year : Z; dt_month : Z; dt_day : Z;
  dt_hour : Z; dt_minute : Z; dt_second : Z;
  dt_microsecond : Z
}.

(** The ranges a [datetime] object keeps ([MINYEAR] to [MAXYEAR], and so on). *)
Definition valid_datetime (d : datetime) : Prop :=
  1 <= dt_year d <= 9999 /\ 1 <= dt_month d <= 12 /\ 1 <= dt_day d <= 31
  /\ 0 <= dt_hour d < 24 /\ 0 <= dt_minute d < 60 /\ 0 <= dt_second d < 60
  /\ 0 <= dt_microsecond d < 1000000.

(** The order of aware datetimes of one time zone: field by field. *)
Fixpoint lex_leb (a b : list Z) : bool :=
  match a, b with
  | x :: a', y :: b' => (x <? y) || ((x =? y) && lex_leb a' b')
  | [], _ => true
  | _ :: _, [] => false
  end.

Definition dt_fields (d : datetime) : list Z :=
  [dt_year d; dt_month d; dt_day d; dt_hour d; dt_minute d; dt_second d;
   dt_microsecond d].

Definition dt_leb (a b : datetime) : bool := lex_leb (dt_fields a) (dt_fields b).

(** The decimal digit of [n] at the units place, as a character. *)
Definition digit_char (n : Z) : ascii :=
  ascii_of_nat (Z.to_nat (48 + n mod 10)).

(** [%02d]-style fields ([%m], [%d], [%H], [%M], [%S]) and the four-digit
    [%Y], on the ranges of [valid_datetime]. *)
Definition pad2 (n : Z) : string :=
  String (digit_char (n / 10)) (String (digit_char n) EmptyString).

Definition pad4 (n : Z) : string :=
  String (digit_char (n / 1000)) (String (digit_char (n / 100))
    (String (digit_char (n / 10)) (String (digit_char n) EmptyString))).

(** [d.strftime("%Y-%m-%d")]. *)
Definition strftime_date (d : datetime) : string :=
  pad4 (dt_year d) +:+ "-" +:+ pad2 (dt_month d) +:+ "-" +:+ pad2 (dt_day d).

(** [d.strftime("%Y-%m-%dT%H:%M:%SZ")]. *)
Definition strftime_iso (d : datetime) : string :=
  strftime_date d +:+ "T" +:+ pad2 (dt_hour d) +:+ ":" +:+ pad2 (dt_minute d)
  +:+ ":" +:+ pad2 (dt_second d) +:+ "Z".

(** ** The request and response models *)

Record ImageSource := mkImageSource {
  image_url : option string;
  encoded_image : option string;
  image_filepath : option string
}.

Section Models.
Context {float : Type}.

Record RequestUpscaleOptions := mkRequestUpscaleOptions {
  scale : Z;
  upscaler_name : string;
  upscale_visibility : float;
  face_restorer_name : string;
  restorer_visibility : float
}.

Record RoopOptions := mkRoopOptions {
  task_id : string;
  source_image : ImageSource;
  swap_image : ImageSource;
  face_index : Z;
  model : string;
  req_upscale_options : RequestUpscaleOptions
}.

(** [scripts.swapper.UpscaleOptions], over the host's upscaler and face
    restorer types. *)
Record UpscaleOptions {UpscalerData FaceRestoration : Type} := mkUpscaleOptions {
  uo_scale : Z;
  uo_upscaler : option UpscalerData;
  uo_face_restorer : option FaceRestoration;
  uo_upscale_visibility : float;
  uo_restorer_visibility : float
}.
End Models.

Arguments RequestUpscaleOptions : clear implicits.
Arguments RoopOptions : clear implicits.
Arguments UpscaleOptions : clear implicits.
Arguments mkRequestUpscaleOptions {float}.
Arguments mkRoopOptions {float}.
Arguments mkUpscaleOptions {float UpscalerData FaceRestoration}.

Record RoopResponse := mkRoopResponse {
  resp_task_id : string;
  resp_encoded_image : string;
  start_time : string;
  finish_time : string
}.

(** ** Exceptions, effects and the world *)

Inductive exn :=
| HTTPException (status_code : Z) (detail : string)
| RequestException        (* [requests]: connection failure, or [raise_for_status] *)
| OSError                 (* filesystem failure *)
| BinasciiError           (* [binascii.Error]: the base64 decoder refuses *)
| UnidentifiedImageError  (* [Image.open] on bytes that are no image *)
| ValueError (msg : string).

Inductive Res (A : Type) :=
| Ok (a : A)
| Raise (e : exn).
Arguments Ok {A} a.
Arguments Raise {A} e.

(** What the code does to its surroundings, in the order it does it. *)
Inductive event :=
| EvNow (d : datetime)                  (* [datetime.now(timezone.utc)] *)
| EvUuid4 (s : string)                  (* [uuid.uuid4()] *)
| EvMkdir (dir : string)                (* [mkdir(parents=True, exist_ok=True)] *)
| EvWrite (path : string) (data : bytes) (* [open(path, 'wb')] and [write] *)
| EvB64Decode (payload : string)        (* [base64.b64decode] *)
| EvHttpGet (url : string)              (* [requests.get] *)
| EvRename (src dst : string)           (* [os.rename] *)
| EvWarning (msg : string)              (* [logger.warning] *)
| EvSwapFace                            (* [swap_face] *)
| EvImageSave (path : string).          (* [Image.save] to a file *)

Inductive HttpReply :=
| ConnectionFailed
| Response (status_code : Z) (content : bytes).

(** The filesystem (regular files with their contents, and directories), and
    how many times the clock and the uuid source were read. *)
Record World := mkWorld {
  files : gmap string bytes;
  dirs : gset string;
  clock_reads : nat;
  uuid_draws : nat
}.

Definition set_files (w : World) (f : gmap string bytes) : World :=
  mkWorld f (dirs w) (clock_reads w) (uuid_draws w).

Definition set_dirs (w : World) (d : gset string) : World :=
  mkWorld (files w) d (clock_reads w) (uuid_draws w).

(** A computation: from a world to a result or an exception, the world it
    leaves, and the effects it performed. *)
Definition M (A : Type) : Type := World -> Res A * World * list event.

Definition ret {A} (a : A) : M A := fun w => (Ok a, w, []).

Definition raise {A} (e : exn) : M A := fun w => (Raise e, w, []).

Definition bind {A B} (m : M A) (k : A -> M B) : M B := fun w =>
  match m w with
  | (Ok a, w1, ev1) =>
      match k a w1 with
      | (r, w2, ev2) => (r, w2, (ev1 ++ ev2)%list)
      end
  | (Raise e, w1, ev1) => (Raise e, w1, ev1)
  end.

Definition emit (e : event) : M unit := fun w => (Ok tt, w, [e]).

Declare Scope py_scope.
Delimit Scope py_scope with py.
Notation "x <- m ;; k" := (bind m (fun x => k))
  (at level 100, m at next level, right associativity) : py_scope.
Notation "m ;; k" := (bind m (fun _ => k))
  (at level 100, right associativity) : py_scope.
Local Open Scope py_scope.

(** The result, the final world and the effects of a run. *)
Definition result_of {A} (o : Res A * World * list event) : Res A := o.1.1.
Definition world_of {A} (o : Res A * World * list event) : World := o.1.2.
Definition events_of {A} (o : Res A * World * list event) : list event := o.2.

(** ** Filesystem primitives *)

Definition is_file (w : World) (p : string) : bool :=
  match files w !! p with
  | Some _ => true
  | None => false
  end.

Definition is_dir (w : World) (p : string) : bool := bool_decide (p ∈ dirs w).

(** [os.path.exists(p)] and [Path.exists()]: the empty path names nothing. *)
Definition os_path_exists (w : World) (p : string) : bool :=
  str_truthy p && (is_file w p || is_dir w p).

(** [mkdir(parents=True, exist_ok=True)]: fails when a regular file is in
    the way. *)
Definition mkdir_parents (p : PurePath) : M unit := fun w =>
  let ds := path_and_parents p in
  if existsb (is_file w) ds then (Raise OSError, w, [])
  else (Ok tt, set_dirs w (dirs w ∪ list_to_set ds), [EvMkdir (path_str p)]).

(** Whether [open(p, 'wb')] can create or truncate [p]: [p] is no directory
    and its parent directory exists (a parent that is the root or the
    current directory always does). *)
Definition parent_exists (w : World) (p : string) : bool :=
  let d := os_path_dirname p in
  negb (str_truthy (str_rstrip_char "/" d)) || is_dir w d.

Definition can_write (w : World) (p : string) : bool :=
  str_truthy p && negb (is_dir w p) && parent_exists w p.

(** [with open(p, 'wb') as f: f.write(data)]. *)
Definition write_file (p : string) (data : bytes) : M unit := fun w =>
  if can_write w p
  then (Ok tt, set_files w (<[p := data]> (files w)), [EvWrite p data])
  else (Raise OSError, w, []).

(** [os.rename(src, dst)] of a regular file: an existing file at [dst] is
    replaced. *)
Definition os_rename (src dst : string) : M unit := fun w =>
  match files w !! src with
  | Some data =>
      if can_write w dst
      then (Ok tt, set_files w (<[dst := data]> (delete src (files w))),
            [EvRename src dst])
      else (Raise OSError, w, [])
  | None => (Raise OSError, w, [])
  end.

(** [os.path.exists(p)] as a step of a computation. *)
Definition path_exists (p : string) : M bool := fun w =>
  (Ok (os_path_exists w p), w, []).

(** [open(p, 'rb').read()]. *)
Definition read_file (p : string) : M bytes := fun w =>
  match files w !! p with
  | Some data => (Ok data, w, [])
  | None => (Raise OSError, w, [])
  end.

(** [imghdr.what(path)]: the tests see the first 32 bytes of the file. *)
Definition imghdr_what_file (p : string) : M (option string) :=
  data <- read_file p ;;
  ret (imghdr_what (firstn 32 data)).

Definition logger_warning (msg : string) : M unit := emit (EvWarning msg).

(** ** The host application and the libraries behind the module

    What [roop_api.py] imports and does not define: the host's private
    directory resolver ([modules.paths]) and registries ([modules.shared]),
    the swap library ([scripts.swapper]), PIL images, the base64 codec, the
    network, the clock and the uuid source. *)
Class Host := {
  (** [fastapi.Request], and [Paths(gr.Request(request)).private_outdir()]. *)
  Request : Type;
  private_outdir : Request -> PurePath;
  (** [requests.get(url, stream=True)]. *)
  requests_get : string -> HttpReply;
  (** [base64.b64decode] ([None]: it raises) and [base64.b64encode]. *)
  b64decode : string -> option bytes;
  b64encode : bytes -> string;
  (** [PIL.Image]: decoding the bytes of a file, and the PNG encoder. *)
  Image : Type;
  image_decode : bytes -> option Image;
  png_encode : Image -> bytes;
  (** Python [float]. *)
  float : Type;
  (** [shared.sd_upscalers] and [shared.face_restorers]. *)
  UpscalerData : Type;
  upscaler_data_name : UpscalerData -> string;
  FaceRestoration : Type;
  face_restoration_name : FaceRestoration -> string;
  sd_upscalers : list UpscalerData;
  face_restorers : list FaceRestoration;
  (** [scripts.swapper]: [swap_face] and [ImageResult.image()]. *)
  ImageResult : Type;
  result_image : ImageResult -> option Image;
  swap_face : Image -> Image -> string -> gset Z
              -> UpscaleOptions float UpscalerData FaceRestoration
              -> ImageResult;
  (** The successive readings of the wall clock, in UTC. *)
  wall_clock : nat -> datetime;
  wall_clock_valid : forall n, valid_datetime (wall_clock n);
  (** The successive values of [str(uuid.uuid4())]. *)
  uuid4 : nat -> string
}.

Section Api.
Context `{H : Host}.

(** [datetime.now(timezone.utc)]. *)
Definition datetime_now : M datetime := fun w =>
  let d := wall_clock (clock_reads w) in
  (Ok d, mkWorld (files w) (dirs w) (S (clock_reads w)) (uuid_draws w),
   [EvNow d]).

(** [str(uuid.uuid4())]. *)
Definition uuid4_str : M string := fun w =>
  let s := uuid4 (uuid_draws w) in
  (Ok s, mkWorld (files w) (dirs w) (clock_reads w) (S (uuid_draws w)),
   [EvUuid4 s]).

(** [requests.get(url, stream=True)], [raise_for_status()], [.content]. *)
Definition http_get_content (url : string) : M bytes :=
  emit (EvHttpGet url) ;;
  match requests_get url with
  | ConnectionFailed => raise RequestException
  | Response status_code content =>
      if (400 <=? status_code) && (status_code <? 600)
      then raise RequestException
      else ret content
  end.

(** [base64.b64decode(payload)].  What the library refuses it refuses with
    one of two errors: a [str] that is not ASCII with a plain [ValueError],
    raised before the decoder runs, anything else with [binascii.Error]. *)
Definition base64_b64decode (payload : string) : M bytes :=
  emit (EvB64Decode payload) ;;
  match b64decode payload with
  | Some data => ret data
  | None =>
      if str_isascii payload then raise BinasciiError
      else raise (ValueError
                    "string argument should contain only ASCII characters")
  end.

(** [Image.open(path)]. *)
Definition image_open (path : string) : M Image :=
  data <- read_file path ;;
  match image_decode data with
  | Some img => ret img
  | None => raise UnidentifiedImageError
  end.

(** [image.save(path)]: PIL picks the format from the extension of the
    file name and refuses a name without a known one; the only name the
    module saves to ends in [.png]. *)
Definition image_save (img : Image) (path : PurePath) : M unit :=
  let filename := path_str path in
  if String.eqb (splitext filename).2 ".png"
  then fun w =>
    if can_write w filename
    then (Ok tt, set_files w (<[filename := png_encode img]> (files w)),
          [EvImageSave filename])
    else (Raise OSError, w, [])
  else raise (ValueError "unknown file extension").

(** *** [download_image] *)

Definition download_image (url output_path : string) : M string :=
  content <- http_get_content url ;;
  (* Open the output file in binary mode, write the response content into it *)
  write_file output_path content ;;
  (* Determine the image type *)
  image_type <- imghdr_what_file output_path ;;
  (* If the image type is None, we couldn't determine the image type *)
  (match image_type with
   | None => logger_warning "Could not determine the image type."
   | Some _ => ret tt
   end) ;;
  (* Check the current extension *)
  let '(base, ext) := splitext output_path in
  match image_type with
  | Some image_type =>
      if str_truthy image_type && negb (String.eqb (str_tail ext) image_type)
      then
        (* If the extension is not correct, rename the file to include the
           correct extension *)
        let correct_output_path := base +:+ "." +:+ image_type in
        os_rename output_path correct_output_path ;;
        ret correct_output_path
      else ret output_path
  | None => ret output_path
  end.

(** *** [upscaler], [face_restorer], [upscale_options] *)

Fixpoint find_upscaler (items : list UpscalerData) (upscaler_name : string)
  : option UpscalerData :=
  match items with
  | [] => None
  | upscaler_item :: rest =>
      if String.eqb (upscaler_data_name upscaler_item) upscaler_name
      then Some upscaler_item
      else find_upscaler rest upscaler_name
  end.

Definition upscaler (upscaler_name : string) : option UpscalerData :=
  find_upscaler sd_upscalers upscaler_name.

Fixpoint find_face_restorer (items : list FaceRestoration)
  (face_restorer_name : string) : option FaceRestoration :=
  match items with
  | [] => None
  | face_restorer :: rest =>
      if String.eqb (face_restoration_name face_restorer) face_restorer_name
      then Some face_restorer
      else find_face_restorer rest face_restorer_name
  end.

Definition face_restorer (face_restorer_name : string)
  : option FaceRestoration :=
  find_face_restorer face_restorers face_restorer_name.

Definition upscale_options (roop_options : RoopOptions float)
  : UpscaleOptions float UpscalerData FaceRestoration :=
  let roop_upscaler :=
    upscaler (upscaler_name (req_upscale_options roop_options)) in
  let roop_face_restorer :=
    face_restorer (face_restorer_name (req_upscale_options roop_options)) in
  mkUpscaleOptions
    (scale (req_upscale_options roop_options))
    roop_upscaler
    roop_face_restorer
    (upscale_visibility (req_upscale_options roop_options))
    (restorer_visibility (req_upscale_options roop_options)).

(** *** [get_private_path] *)

Definition private_dir_of (request : Request) (folder : string) : PurePath :=
  joinpath (joinpath (private_outdir request) "roop") folder.

Definition get_private_path (request : Request) (folder filename : string)
  : M PurePath :=
  let private_dir := private_dir_of request folder in
  present <- path_exists (path_str private_dir) ;;
  (if negb present then mkdir_parents private_dir else ret tt) ;;
  ret (joinpath private_dir filename).

(** *** [download_image_if_needed] *)

Definition download_image_if_needed (request : Request)
  (image_source : ImageSource) (folder : string) (filename : option string)
  : M string :=
  if is_none (image_url image_source)
     && is_none (encoded_image image_source)
     && is_none (image_filepath image_source)
  then
    raise (HTTPException 400
      "image_url, encoded_image, image_filepath at least one is required")
  else
    local <-
      match truthy (image_filepath image_source) with
      | Some filepath =>
          present <- path_exists filepath ;;
          ret (if present then Some filepath else None)
      | None => ret None
      end ;;
    match local with
    | Some filepath => ret filepath
    | None =>
        image_name <-
          match truthy filename with
          | Some name => ret name
          | None => uuid4_str
          end ;;
        source_image_path <-
          get_private_path request (os_path_join "source" folder) image_name ;;
        match truthy (encoded_image image_source) with
        | Some payload =>
            decoded_image <- base64_b64decode payload ;;
            (* Guess the extension from base64 encoded image string *)
            let file_type := imghdr_what decoded_image in
            let source_image_path :=
              match file_type with
              | Some file_type =>
                  path_str source_image_path +:+ "." +:+ file_type
              | None => path_str source_image_path
              end in
            write_file source_image_path decoded_image ;;
            ret source_image_path
        | None =>
            match truthy (image_url image_source) with
            | Some url =>
                output_path <-
                  download_image url (path_str source_image_path) ;;
                ret output_path
            | None => raise (HTTPException 400 "Process image failed")
            end
        end
    end.

(** *** [pil_image_to_base64] *)

Definition pil_image_to_base64 (image : Image) : string :=
  let buffered := png_encode image in
  let img_str := b64encode buffered in
  "data:image/png;base64," +:+ img_str.

(** *** [run_roop_on_single_image] *)

Definition run_roop_on_single_image (request : Request)
  (roop_options : RoopOptions float) : M RoopResponse :=
  start_time <- datetime_now ;;
  let utc_date_str := strftime_date start_time in
  let task_id := task_id roop_options in
  face_image <-
    download_image_if_needed request (source_image roop_options)
      ("face/" +:+ utc_date_str) (Some task_id) ;;
  swap_image <-
    download_image_if_needed request (swap_image roop_options)
      ("swap/" +:+ utc_date_str) (Some task_id) ;;
  face <- image_open face_image ;;
  swap <- image_open swap_image ;;
  emit EvSwapFace ;;
  let result :=
    swap_face face swap (model roop_options) {[ face_index roop_options ]}
              (upscale_options roop_options) in
  match result_image result with
  | None => raise (HTTPException 400 "Roop process image failed")
  | Some result_image =>
      output_filepath <-
        get_private_path request ("output/" +:+ utc_date_str)
                         (task_id +:+ ".png") ;;
      image_save result_image output_filepath ;;
      finish_time <- datetime_now ;;
      ret (mkRoopResponse
             task_id
             (pil_image_to_base64 result_image)
             (strftime_iso start_time)
             (strftime_iso finish_time))
  end.
End Api.

(** ** A concrete host

    A small installation to run the code on: the standard base64 codec, a
    handful of URLs, two registries, and a swap library that knows one
    model and returns the swap image with the face pasted in. *)
Module Demo.

(** [binascii.a2b_base64] as [base64.b64decode] calls it (not strict):
    characters outside the alphabet are skipped, a complete run of
    padding ends the input, and a dangling group is an error. *)
Definition b64_value (c : ascii) : option N :=
  let n := N_of_ascii c in
  (if (65 <=? n) && (n <=? 90) then Some (n - 65)
   else if (97 <=? n) && (n <=? 122) then Some (n - 71)
   else if (48 <=? n) && (n <=? 57) then Some (n + 4)
   else if n =? 43 then Some 62
   else if n =? 47 then Some 63
   else None)%N.

Definition byte_of_N (n : N) : byte :=
  default x00 (Byte.of_N (n mod 256)).

Fixpoint a2b_base64 (s : string) (quad_pos leftchar pads : N) (acc : bytes)
  : option bytes :=
  match s with
  | EmptyString => if (quad_pos =? 0)%N then Some (rev acc) else None
  | String c s' =>
      if Ascii.eqb c "=" then
        if (2 <=? quad_pos)%N && (4 <=? quad_pos + (pads + 1))%N
        then Some (rev acc)
        else a2b_base64 s' quad_pos leftchar
               (if (2 <=? quad_pos)%N then pads + 1 else pads)%N acc
      else
        match b64_value c with
        | None => a2b_base64 s' quad_pos leftchar pads acc
        | Some v =>
            match quad_pos with
            | 0%N => a2b_base64 s' 1%N v 0%N acc
            | 1%N =>
                a2b_base64 s' 2%N (N.land v 15) 0%N
                  (byte_of_N (N.lor (N.shiftl leftchar 2) (N.shiftr v 4)) :: acc)
            | 2%N =>
                a2b_base64 s' 3%N (N.land v 3) 0%N
                  (byte_of_N (N.lor (N.shiftl leftchar 4) (N.shiftr v 2)) :: acc)
            | _ =>
                a2b_base64 s' 0%N 0%N 0%N
                  (byte_of_N (N.lor (N.shiftl leftchar 6) v) :: acc)
            end
        end
  end.

Fixpoint is_ascii_str (s : string) : bool :=
  match s with
  | EmptyString => true
  | String c s' => (N_of_ascii c <? 128)%N && is_ascii_str s'
  end.

Definition b64decode (s : string) : option bytes :=
  if is_ascii_str s then a2b_base64 s 0%N 0%N 0%N [] else None.

Definition b64_char (v : N) : ascii :=
  ascii_of_N
    (if v <? 26 then v + 65
     else if v <? 52 then v + 71
     else if v <? 62 then v - 4
     else if v =? 62 then 43 else 47)%N.

Fixpoint b64encode (data : bytes) : string :=
  match data with
  | [] => EmptyString
  | [a] =>
      let x := Byte.to_N a in
      String (b64_char (N.shiftr x 2))
        (String (b64_char (N.shiftl (N.land x 3) 4)) "==")
  | [a; b] =>
      let x := Byte.to_N a in
      let y := Byte.to_N b in
      String (b64_char (N.shiftr x 2))
        (String (b64_char (N.lor (N.shiftl (N.land x 3) 4) (N.shiftr y 4)))
           (String (b64_char (N.shiftl (N.land y 15) 2)) "="))
  | a :: b :: c :: rest =>
      let x := Byte.to_N a in
      let y := Byte.to_N b in
      let z := Byte.to_N c in
      String (b64_char (N.shiftr x 2))
        (String (b64_char (N.lor (N.shiftl (N.land x 3) 4) (N.shiftr y 4)))
           (String (b64_char (N.lor (N.shiftl (N.land y 15) 2) (N.shiftr z 6)))
              (String (b64_char (N.land z 63)) (b64encode rest))))
  end.

(** The eight-byte PNG signature, and two tiny stand-ins for image files. *)
Definition png_signature : bytes := [x89; x50; x4e; x47; x0d; x0a; x1a; x0a].
Definition red_png : bytes := (png_signature ++ list_byte_of_string "red")%list.
Definition blue_png : bytes := (png_signature ++ list_byte_of_string "blue")%list.
Definition a_gif : bytes := list_byte_of_string "GIF89a-cat".

Definition requests_get (url : string) : HttpReply :=
  if String.eqb url "http://img.test/cat" then Response 200 a_gif
  else if String.eqb url "http://img.test/red" then Response 200 red_png
  else if String.eqb url "http://img.test/text" then
    Response 200 (list_byte_of_string "hello")
  else if String.eqb url "http://img.test/missing" then Response 404 []
  else ConnectionFailed.

(** An image is stood for by the bytes after the PNG signature. *)
Definition image_decode (data : bytes) : option bytes :=
  if bytes_startswith data png_signature then Some (skipn 8 data) else None.

Definition png_encode (img : bytes) : bytes := (png_signature ++ img)%list.

Definition swap_face (face swap : bytes) (model : string) (faces : gset Z)
  (options : UpscaleOptions Z string string) : option bytes :=
  if String.eqb model "roop/inswapper_128.onnx"
  then Some (swap ++ list_byte_of_string "+" ++ face)%list
  else None.

Definition wall_clock (n : nat) : datetime :=
  mkDatetime 2024 1 15 10 30 (Z.min (Z.of_nat n) 59) 0.

Definition uuid4 (n : nat) : string :=
  "3f2b8c1e-5d7a-4e9b-8a6c-0123456789" +:+ pad2 (Z.of_nat n).

Definition private_outdir (caller : string) : PurePath :=
  joinpath (parse_path "/data/private") caller.

Lemma wall_clock_valid n : valid_datetime (wall_clock n).
Proof. unfold valid_datetime, wall_clock; simpl; lia. Qed.

Definition host : Host :=
  Build_Host
    string private_outdir requests_get b64decode b64encode
    bytes image_decode png_encode
    Z
    string (fun u => u) string (fun r => r)
    ["None"; "Lanczos"; "ESRGAN_4x"] ["CodeFormer"; "GFPGAN"]
    (option bytes) (fun r => r) swap_face
    wall_clock wall_clock_valid uuid4.

(** The same installation on a machine whose clock is set back by a second
    right after its first reading, as a correction of the system time
    does. *)
Definition wall_clock_set_back (n : nat) : datetime :=
  mkDatetime 2024 1 15 10 30 (match n with O => 30 | S _ => 29 end) 0.

Lemma wall_clock_set_back_valid n : valid_datetime (wall_clock_set_back n).
Proof. unfold valid_datetime, wall_clock_set_back. destruct n; simpl; lia. Qed.

Definition host_set_back : Host :=
  Build_Host
    string private_outdir requests_get b64decode b64encode
    bytes image_decode png_encode
    Z
    string (fun u => u) string (fun r => r)
    ["None"; "Lanczos"; "ESRGAN_4x"] ["CodeFormer"; "GFPGAN"]
    (option bytes) (fun r => r) swap_face
    wall_clock_set_back wall_clock_set_back_valid uuid4.

(** A fresh machine: only the caller's private directory exists. *)
Definition world0 : World :=
  mkWorld ∅ {[ "/data"; "/data/private"; "/data/private/alice" ]} 0 0.

(** The same machine with an image of the caller's own on it. *)
Definition world_local : World :=
  mkWorld {[ "/data/local/face.png" := red_png ]}
          {[ "/data"; "/data/local"; "/data/private"; "/data/private/alice" ]}
          0 0.

(** The machine once a face folder was made. *)
Definition face_dir : string :=
  "/data/private/alice/roop/source/face/2024-01-15".

Definition world_faces : World :=
  mkWorld ∅ {[ "/data"; "/data/private"; "/data/private/alice"; face_dir ]}
          0 0.

Definition options (task : string) (face swap : ImageSource)
  : RoopOptions Z :=
  mkRoopOptions task face swap 0 "roop/inswapper_128.onnx"
    (mkRequestUpscaleOptions 1 "" 100 "CodeFormer" 100).

Definition encoded (payload : string) : ImageSource :=
  mkImageSource None (Some payload) None.

Definition from_url (url : string) : ImageSource :=
  mkImageSource (Some url) None None.

(** The machine after a first request, [t0], was served. *)
Definition world_later : World :=
  world_of (@run_roop_on_single_image host "alice"
              (options "t0" (encoded "iVBORw0KGgpyZWQ=")
                 (encoded "iVBORw0KGgpibHVl"))
              world0).
End Demo.

(** ** Vocabulary of the properties *)

(** The local file of an image source in a world: [image_filepath], when it
    is set and names something that exists. *)
Definition local_file (w : World) (image_source : ImageSource)
  : option string :=
  match image_filepath image_source with
  | Some filepath => if os_path_exists w filepath then Some filepath else None
  | None => None
  end.

(** An outcome, with the effects [ev] performed before it. *)
Definition after_events {A} (ev : list event) (o : Res A * World * list event)
  : Res A * World * list event :=
  (o.1.1, o.1.2, (ev ++ o.2)%list).

(** In every world, the effects of [m] satisfy [P] and the value it returns,
    when it returns one, satisfies [Q]. *)
Definition satisfies {A} (m : M A) (Q : A -> Prop) (P : event -> Prop)
  : Prop :=
  forall w, (forall e, In e (events_of (m w)) -> P e)
            /\ (forall a, result_of (m w) = Ok a -> Q a).

(** [m] does not read the clock. *)
Definition keeps_clock {A} (m : M A) : Prop :=
  forall w, clock_reads (world_of (m w)) = clock_reads w.

(** A decimal digit. *)
Definition is_digit (c : ascii) : bool :=
  let n := N_of_ascii c in ((48 <=? n) && (n <=? 57))%N.

(** [s] has the shape [shape]: a [d] of the shape stands for any digit,
    every other character for itself. *)
Fixpoint matches_shape (shape s : string) : bool :=
  match shape, s with
  | EmptyString, EmptyString => true
  | String p shape', String c s' =>
      (if Ascii.eqb p "d" then is_digit c else Ascii.eqb p c)
      && matches_shape shape' s'
  | _, _ => false
  end.

(** A plain file name: not empty, and free of [/] and of [.]. *)
Definition plain_name (t : string) : Prop :=
  t <> EmptyString /\ str_contains "/" t = false /\ str_contains "." t = false.

(** A single path component: not empty, not [.], and free of [/]. *)
Definition path_component (t : string) : Prop :=
  t <> EmptyString /\ t <> "." /\ str_contains "/" t = false.

(** The stem of a file name: what stands before its first dot. *)
Definition stem (name : string) : string :=
  List.hd EmptyString (str_split "." name).

(** The last component of a path written with [/]. *)
Definition basename (p : string) : string :=
  List.last (str_split "/" p) EmptyString.

(** The paths whose file an effect creates, replaces or removes. *)
Definition touched_paths (e : event) : list string :=
  match e with
  | EvWrite path _ => [path]
  | EvRename src dst => [src; dst]
  | EvImageSave path => [path]
  | _ => []
  end.

(** [m] changes no file but those its effects touch. *)
Definition frames_files {A} (m : M A) : Prop :=
  forall w p,
    (forall e, In e (events_of (m w)) -> ~ In p (touched_paths e)) ->
    files (world_of (m w)) !! p = files w !! p.

(** The world once the clock was read. *)
Definition tick (w : World) : World :=
  mkWorld (files w) (dirs w) (S (clock_reads w)) (uuid_draws w).

(** [get_private_path] cannot prepare the directory [d]: it does not exist
    and a regular file stands where it or one of its ancestors should. *)
Definition mkdir_blocked (w : World) (d : PurePath) : bool :=
  negb (os_path_exists w (path_str d))
  && existsb (is_file w) (path_and_parents d).

(** The world [get_private_path] leaves when it can prepare [d]. *)
Definition prepared (w : World) (d : PurePath) : World :=
  if os_path_exists w (path_str d) then w
  else set_dirs w (dirs w ∪ list_to_set (path_and_parents d)).

Section Footprints.
Context `{H : Host}.

(** The name the resolver stores a source under: [filename] when it passes
    the [if], a fresh uuid otherwise. *)
Definition stored_name (filename : option string) (name : string) : Prop :=
  match truthy filename with
  | Some given => name = given
  | None => exists k, name = uuid4 k
  end.

(** The name chosen in world [w]. *)
Definition chosen_name (filename : option string) (w : World) : string :=
  match truthy filename with
  | Some given => given
  | None => uuid4 (uuid_draws w)
  end.

(** The folder a source is stored in. *)
Definition source_dir (request : Request) (folder : string) : PurePath :=
  private_dir_of request (os_path_join "source" folder).

(** The effects [download_image url output_path] can have. *)
Inductive download_image_event (url output_path : string) : event -> Prop :=
| die_get : download_image_event url output_path (EvHttpGet url)
| die_write data :
    download_image_event url output_path (EvWrite output_path data)
| die_warning :
    download_image_event url output_path
      (EvWarning "Could not determine the image type.")
| die_rename h image_type :
    imghdr_what h = Some image_type ->
    download_image_event url output_path
      (EvRename output_path ((splitext output_path).1 +:+ "." +:+ image_type)).

(** The effects [download_image_if_needed] can have. *)
Inductive resolver_event (request : Request) (image_source : ImageSource)
  (folder : string) (filename : option string) : event -> Prop :=
| rse_uuid s :
    truthy filename = None ->
    resolver_event request image_source folder filename (EvUuid4 s)
| rse_mkdir :
    resolver_event request image_source folder filename
      (EvMkdir (path_str (private_dir_of request (os_path_join "source" folder))))
| rse_decode payload :
    truthy (encoded_image image_source) = Some payload ->
    resolver_event request image_source folder filename (EvB64Decode payload)
| rse_write payload name data :
    truthy (encoded_image image_source) = Some payload ->
    stored_name filename name ->
    let dest :=
      path_str (joinpath (private_dir_of request (os_path_join "source" folder))
                         name) in
    resolver_event request image_source folder filename
      (EvWrite (match imghdr_what data with
                | Some file_type => dest +:+ "." +:+ file_type
                | None => dest
                end) data)
| rse_download url name e :
    truthy (encoded_image image_source) = None ->
    truthy (image_url image_source) = Some url ->
    stored_name filename name ->
    download_image_event url
      (path_str (joinpath (private_dir_of request (os_path_join "source" folder))
                          name)) e ->
    resolver_event request image_source folder filename e.

(** The paths at which an effect leaves a file. *)
Definition written_path (e : event) : option string :=
  match e with
  | EvWrite path _ => Some path
  | EvRename _ dst => Some dst
  | EvImageSave path => Some path
  | _ => None
  end.

Definition written_paths (events : list event) : list string :=
  omap written_path events.

(** The three folders of a request made on [date]. *)
Definition face_folder (request : Request) (date : string) : string :=
  path_str (source_dir request ("face/" +:+ date)).

Definition swap_folder (request : Request) (date : string) : string :=
  path_str (source_dir request ("swap/" +:+ date)).

Definition output_folder (request : Request) (date : string) : string :=
  path_str (private_dir_of request ("output/" +:+ date)).

(** The resolver once the name is chosen and the folder prepared: the
    encoded image, else the URL, else the last line. *)
Definition resolver_branch (image_source : ImageSource)
  (source_image_path : PurePath) : M string :=
  match truthy (encoded_image image_source) with
  | Some payload =>
      decoded_image <- base64_b64decode payload ;;
      let file_type := imghdr_what decoded_image in
      let source_image_path :=
        match file_type with
        | Some file_type => path_str source_image_path +:+ "." +:+ file_type
        | None => path_str source_image_path
        end in
      write_file source_image_path decoded_image ;;
      ret source_image_path
  | None =>
      match truthy (image_url image_source) with
      | Some url =>
          output_path <- download_image url (path_str source_image_path) ;;
          ret output_path
      | None => raise (HTTPException 400 "Process image failed")
      end
  end.

(** The choice of the name and the preparation of the folder, followed by
    [k]. *)
Definition resolver_prefix (request : Request) (folder : string)
  (filename : option string) (k : PurePath -> M string) : M string :=
  image_name <-
    match truthy filename with
    | Some name => ret name
    | None => uuid4_str
    end ;;
  bind (get_private_path request (os_path_join "source" folder) image_name) k.

(** A reply that [raise_for_status] refuses, or no reply at all. *)
Definition reply_failed (r : HttpReply) : bool :=
  match r with
  | ConnectionFailed => true
  | Response status_code _ => (400 <=? status_code) && (status_code <? 600)
  end.

(** A path of the task [task] of a request made on [date]: a file of one of
    the three folders whose name has [task] as its stem. *)
Definition task_path (request : Request) (task date p : string) : Prop :=
  exists folder name,
    p = folder +:+ "/" +:+ name
    /\ stem name = task
    /\ str_contains "/" name = false
    /\ In folder [face_folder request date; swap_folder request date;
                  output_folder request date].
End Footprints.

(** * Properties *)

(** ** Running computations step by step *)

Lemma bind_ok {A B} (m : M A) (k : A -> M B) w a w1 ev1 :
  m w = (Ok a, w1, ev1) ->
  bind m k w = ((k a w1).1.1, (k a w1).1.2, (ev1 ++ (k a w1).2)%list).
Proof. intros E. unfold bind. rewrite E. by destruct (k a w1) as [[r w2] ev2]. Qed.

Lemma bind_raise {A B} (m : M A) (k : A -> M B) w e w1 ev1 :
  m w = (Raise e, w1, ev1) -> bind m k w = (Raise e, w1, ev1).
Proof. intros E. unfold bind. by rewrite E. Qed.

Lemma bind_ret {A B} (a : A) (k : A -> M B) w : bind (ret a) k w = k a w.
Proof. unfold bind, ret. by destruct (k a w) as [[r w2] ev2]. Qed.

Lemma truthy_Some o s : truthy o = Some s <-> o = Some s /\ s <> EmptyString.
Proof.
  unfold truthy. destruct o as [[|c t]|]; simpl; split; intros E;
    try discriminate; try (destruct E; congruence).
  injection E as <-. split; [done | discriminate].
Qed.

Lemma truthy_None o : truthy o = None <-> o = None \/ o = Some EmptyString.
Proof.
  unfold truthy. destruct o as [[|c t]|]; simpl; split; intros E;
    try discriminate; auto; destruct E; congruence.
Qed.

Section Properties.
Context `{H : Host}.

(** *** A source with no field at all *)

(** C3. A source with none of its three fields is rejected at once with
    the HTTP 400 "image_url, encoded_image, image_filepath at least one is
    required": the resolver leaves the world as it was and has no effect (no
    request, no write), and a handler whose face source is such a source
    fails with that error having only read the clock: nothing is requested
    or written and the swap is not called. *)
Theorem missing_source_rejected_first request folder filename w
    task sw fi m uo :
  download_image_if_needed request (mkImageSource None None None)
    folder filename w
  = (Raise (HTTPException 400
       "image_url, encoded_image, image_filepath at least one is required"),
     w, [])
  /\ let o := run_roop_on_single_image request
                (mkRoopOptions task (mkImageSource None None None) sw fi m uo) w in
     result_of o = Raise (HTTPException 400
       "image_url, encoded_image, image_filepath at least one is required")
     /\ events_of o = [EvNow (wall_clock (clock_reads w))]
     /\ files (world_of o) = files w /\ dirs (world_of o) = dirs w.
Proof.
  split; [reflexivity|]. simpl. repeat split.
Qed.

(** *** The option mapper *)

Lemma find_upscaler_none items name :
  (forall u, In u items -> upscaler_data_name u <> name) ->
  find_upscaler items name = None.
Proof.
  induction items as [|u items IH]; intros Hno; simpl; [done|].
  destruct (String.eqb_spec (upscaler_data_name u) name) as [E|_].
  - exfalso. apply (Hno u); [by left | done].
  - apply IH. intros v Hv. apply Hno. by right.
Qed.

Lemma find_upscaler_first items name :
  (exists u, In u items /\ upscaler_data_name u = name) ->
  exists u before after,
    items = (before ++ u :: after)%list
    /\ upscaler_data_name u = name
    /\ (forall v, In v before -> upscaler_data_name v <> name)
    /\ find_upscaler items name = Some u.
Proof.
  induction items as [|x items IH]; intros (u & Hin & Hname); [done|].
  simpl. destruct (String.eqb_spec (upscaler_data_name x) name) as [E|NE].
  - exists x, [], items. repeat split; auto; intros v [] .
  - destruct Hin as [->|Hin]; [done|].
    destruct IH as (y & before & after & -> & Hy & Hbefore & Hfind);
      [by exists u|].
    exists y, (x :: before), after. repeat split; auto.
    intros v [<-|Hv]; auto.
Qed.

Lemma find_face_restorer_none items name :
  (forall r, In r items -> face_restoration_name r <> name) ->
  find_face_restorer items name = None.
Proof.
  induction items as [|r items IH]; intros Hno; simpl; [done|].
  destruct (String.eqb_spec (face_restoration_name r) name) as [E|_].
  - exfalso. apply (Hno r); [by left | done].
  - apply IH. intros v Hv. apply Hno. by right.
Qed.

Lemma find_face_restorer_first items name :
  (exists r, In r items /\ face_restoration_name r = name) ->
  exists r before after,
    items = (before ++ r :: after)%list
    /\ face_restoration_name r = name
    /\ (forall v, In v before -> face_restoration_name v <> name)
    /\ find_face_restorer items name = Some r.
Proof.
  induction items as [|x items IH]; intros (r & Hin & Hname); [done|].
  simpl. destruct (String.eqb_spec (face_restoration_name x) name) as [E|NE].
  - exists x, [], items. repeat split; auto; intros v [] .
  - destruct Hin as [->|Hin]; [done|].
    destruct IH as (y & before & after & -> & Hy & Hbefore & Hfind);
      [by exists r|].
    exists y, (x :: before), after. repeat split; auto.
    intros v [<-|Hv]; auto.
Qed.

(** C7. A name that no entry of the host registry carries gives [None] in
    its slot of the [UpscaleOptions] the mapper returns (the mapper is a
    total function: it raises nothing); a name that some entry carries
    selects the first entry of the registry with exactly that name. *)
Theorem upscale_options_lookup (roop_options : RoopOptions float) :
  let names := req_upscale_options roop_options in
  let mapped := upscale_options roop_options in
  ((forall u, In u sd_upscalers ->
      upscaler_data_name u <> upscaler_name names) ->
   uo_upscaler mapped = None)
  /\ ((forall r, In r face_restorers ->
         face_restoration_name r <> face_restorer_name names) ->
      uo_face_restorer mapped = None)
  /\ ((exists u, In u sd_upscalers
                 /\ upscaler_data_name u = upscaler_name names) ->
      exists u before after,
        sd_upscalers = (before ++ u :: after)%list
        /\ upscaler_data_name u = upscaler_name names
        /\ (forall v, In v before ->
              upscaler_data_name v <> upscaler_name names)
        /\ uo_upscaler mapped = Some u)
  /\ ((exists r, In r face_restorers
                 /\ face_restoration_name r = face_restorer_name names) ->
      exists r before after,
        face_restorers = (before ++ r :: after)%list
        /\ face_restoration_name r = face_restorer_name names
        /\ (forall v, In v before ->
              face_restoration_name v <> face_restorer_name names)
        /\ uo_face_restorer mapped = Some r)
  /\ uo_scale mapped = scale names
  /\ uo_upscale_visibility mapped = upscale_visibility names
  /\ uo_restorer_visibility mapped = restorer_visibility names.
Proof.
  intros names mapped. subst mapped. unfold upscale_options. simpl.
  fold names. unfold upscaler, face_restorer.
  split; [apply find_upscaler_none|].
  split; [apply find_face_restorer_none|].
  split; [apply find_upscaler_first|].
  split; [apply find_face_restorer_first|].
  done.
Qed.

(** *** The private path builder *)

Lemma get_private_path_run request folder filename w :
  get_private_path request folder filename w =
    let d := private_dir_of request folder in
    if os_path_exists w (path_str d) then (Ok (joinpath d filename), w, [])
    else if existsb (is_file w) (path_and_parents d)
    then (Raise OSError, w, [])
    else (Ok (joinpath d filename),
          set_dirs w (dirs w ∪ list_to_set (path_and_parents d)),
          [EvMkdir (path_str d)]).
Proof.
  unfold get_private_path, bind, path_exists, mkdir_parents, ret. simpl.
  destruct (os_path_exists w _); simpl; [done|].
  destruct (existsb _ _); done.
Qed.

Lemma get_private_path_events request folder filename w e :
  In e (events_of (get_private_path request folder filename w)) ->
  e = EvMkdir (path_str (private_dir_of request folder)).
Proof.
  rewrite get_private_path_run. simpl.
  destruct (os_path_exists w _); simpl; [done|].
  destruct (existsb _ _); simpl; [done|]. by intros [<-|[]].
Qed.


Lemma bind_events_ok {A B} (m : M A) (k : A -> M B) w a w1 ev1 :
  m w = (Ok a, w1, ev1) ->
  events_of (bind m k w) = (ev1 ++ events_of (k a w1))%list.
Proof. intros E. by rewrite (bind_ok _ _ _ _ _ _ E). Qed.

(** The first step of the resolver after the all-[None] test: the local
    file, when [image_filepath] passes the [if] and the file exists. *)
Lemma local_step_run image_source w :
  (match truthy (image_filepath image_source) with
   | Some filepath =>
       present <- path_exists filepath ;;
       ret (if present then Some filepath else None)
   | None => ret None
   end) w
  = (Ok (local_file w image_source), w, []).
Proof.
  unfold local_file.
  by destruct (image_filepath image_source) as [[|c fp]|].
Qed.

(** *** The image-source resolver *)

Lemma resolver_local request image_source folder filename w filepath :
  local_file w image_source = Some filepath ->
  download_image_if_needed request image_source folder filename w
  = (Ok filepath, w, []).
Proof.
  intros Hlocal. unfold download_image_if_needed.
  assert (is_none (image_filepath image_source) = false) as ->.
  { unfold local_file in Hlocal. by destruct (image_filepath image_source). }
  rewrite andb_false_r.
  rewrite (bind_ok _ _ _ _ _ _ (local_step_run image_source w)).
  by rewrite Hlocal.
Qed.

Lemma resolver_encoded_ignores_url request image_source folder filename w
    payload :
  encoded_image image_source = Some payload ->
  payload <> EmptyString ->
  download_image_if_needed request image_source folder filename w
  = download_image_if_needed request
      (mkImageSource None (Some payload) (image_filepath image_source))
      folder filename w.
Proof.
  intros Henc Hne. unfold download_image_if_needed. simpl. rewrite Henc.
  simpl. rewrite andb_false_r. simpl.
  destruct payload as [|c payload]; [done|]. reflexivity.
Qed.

(** *** What a computation returns and which effects it has, in any world *)

Lemma satisfies_weaken {A} (m : M A) (Q Q' : A -> Prop) (P P' : event -> Prop) :
  satisfies m Q P ->
  (forall a, Q a -> Q' a) -> (forall e, P e -> P' e) ->
  satisfies m Q' P'.
Proof. intros Hm HQ HP w. destruct (Hm w). split; eauto. Qed.

Lemma satisfies_ret {A} (a : A) (Q : A -> Prop) P :
  Q a -> satisfies (ret a) Q P.
Proof. intros Ha w. split; simpl; [done|]. by intros b [= <-]. Qed.

Lemma satisfies_raise {A} x (Q : A -> Prop) P : satisfies (raise x) Q P.
Proof. intros w. split; simpl; [done|]. by intros b. Qed.

Lemma satisfies_emit e (Q : unit -> Prop) (P : event -> Prop) :
  P e -> Q tt -> satisfies (emit e) Q P.
Proof.
  intros He Hq w. split; simpl; [by intros ? [<-|[]]|]. by intros [] _.
Qed.

Lemma satisfies_bind {A B} (m : M A) (k : A -> M B) Q Q' P :
  satisfies m Q P ->
  (forall a, Q a -> satisfies (k a) Q' P) ->
  satisfies (bind m k) Q' P.
Proof.
  intros Hm Hk w. destruct (Hm w) as [Hev Hres].
  destruct (m w) as [[[a|x] w1] ev1] eqn:E.
  - rewrite (bind_ok _ _ _ _ _ _ E).
    destruct (Hk a (Hres a eq_refl) w1) as [Hev' Hres'].
    split; simpl.
    + intros e Hin. apply in_app_or in Hin as [Hin|Hin]; auto.
    + done.
  - rewrite (bind_raise _ _ _ _ _ _ E). split; [done|]. by intros b.
Qed.

Lemma satisfies_path_exists p P :
  satisfies (path_exists p) (fun _ => True) P.
Proof. intros w. split; simpl; [done|]. done. Qed.

Lemma satisfies_mkdir_parents d (P : event -> Prop) :
  P (EvMkdir (path_str d)) ->
  satisfies (mkdir_parents d) (fun _ => True) P.
Proof.
  intros Hp w. unfold mkdir_parents. destruct (existsb _ _); simpl.
  - split; [done|]. done.
  - split; [by intros ? [<-|[]]|]. done.
Qed.

Lemma satisfies_write_file p data (P : event -> Prop) :
  P (EvWrite p data) -> satisfies (write_file p data) (fun _ => True) P.
Proof.
  intros Hp w. unfold write_file. destruct (can_write w p); simpl.
  - split; [by intros ? [<-|[]]|]. done.
  - split; [done|]. done.
Qed.

Lemma satisfies_os_rename src dst (P : event -> Prop) :
  P (EvRename src dst) -> satisfies (os_rename src dst) (fun _ => True) P.
Proof.
  intros Hp w. unfold os_rename.
  destruct (files w !! src); [destruct (can_write w dst)|]; simpl.
  - split; [by intros ? [<-|[]]|]. done.
  - split; [done|]. done.
  - split; [done|]. done.
Qed.

Lemma satisfies_read_file p P :
  satisfies (read_file p) (fun _ => True) P.
Proof.
  intros w. unfold read_file. destruct (files w !! p); simpl; split; done.
Qed.

Lemma satisfies_imghdr_what_file p P :
  satisfies (imghdr_what_file p)
    (fun t => exists h, t = imghdr_what h) P.
Proof.
  unfold imghdr_what_file.
  eapply satisfies_bind; [apply satisfies_read_file|].
  intros data _. apply satisfies_ret. eauto.
Qed.

Lemma satisfies_http_get_content url (P : event -> Prop) :
  P (EvHttpGet url) -> satisfies (http_get_content url) (fun _ => True) P.
Proof.
  intros Hp. unfold http_get_content.
  eapply satisfies_bind; [by apply satisfies_emit with (Q := fun _ => True)|].
  intros _ _. destruct (requests_get url); [apply satisfies_raise|].
  destruct (_ && _); [apply satisfies_raise | by apply satisfies_ret].
Qed.

Lemma satisfies_base64_b64decode payload (P : event -> Prop) :
  P (EvB64Decode payload) ->
  satisfies (base64_b64decode payload) (fun _ => True) P.
Proof.
  intros Hp. unfold base64_b64decode.
  eapply satisfies_bind; [by apply satisfies_emit with (Q := fun _ => True)|].
  intros _ _. destruct (b64decode payload); [by apply satisfies_ret|].
  destruct (str_isascii payload); apply satisfies_raise.
Qed.


Lemma satisfies_datetime_now (P : event -> Prop) :
  (forall d, P (EvNow d)) -> satisfies datetime_now (fun _ => True) P.
Proof. intros Hp w. split; simpl; [by intros ? [<-|[]]|]. done. Qed.

Lemma satisfies_get_private_path request folder filename
    (P : event -> Prop) :
  P (EvMkdir (path_str (private_dir_of request folder))) ->
  satisfies (get_private_path request folder filename)
    (fun p => p = joinpath (private_dir_of request folder) filename) P.
Proof.
  intros Hp. unfold get_private_path.
  eapply satisfies_bind; [apply satisfies_path_exists|]. intros present _.
  eapply satisfies_bind with (Q := fun _ => True).
  - destruct present; simpl;
      [by apply satisfies_ret | by apply satisfies_mkdir_parents].
  - intros _ _. by apply satisfies_ret.
Qed.

(** *** The effects of [download_image] and of the resolver *)

Lemma download_image_footprint url output_path :
  satisfies (download_image url output_path)
    (fun r => r = output_path
              \/ exists h t, imghdr_what h = Some t
                             /\ r = (splitext output_path).1 +:+ "." +:+ t)
    (download_image_event url output_path).
Proof.
  unfold download_image.
  eapply satisfies_bind; [apply satisfies_http_get_content; constructor|].
  intros content _.
  eapply satisfies_bind; [apply satisfies_write_file; constructor|].
  intros _ _.
  eapply satisfies_bind; [apply satisfies_imghdr_what_file|].
  intros image_type [h ->].
  eapply satisfies_bind with (Q := fun _ => True).
  { destruct (imghdr_what h); [by apply satisfies_ret|].
    apply satisfies_emit; [constructor | done]. }
  intros _ _. destruct (splitext output_path) as [base ext] eqn:Esplit.
  destruct (imghdr_what h) as [t|] eqn:Et; [|apply satisfies_ret; by left].
  destruct (_ && _); [|apply satisfies_ret; by left].
  eapply satisfies_bind with (Q := fun _ => True).
  - apply satisfies_os_rename.
    pose proof (die_rename url output_path h t Et) as Hrename.
    by rewrite Esplit in Hrename.
  - intros _ _. apply satisfies_ret. right. by exists h, t.
Qed.

Lemma resolver_footprint request image_source folder filename :
  satisfies (download_image_if_needed request image_source folder filename)
    (fun _ => True)
    (resolver_event request image_source folder filename).
Proof.
  unfold download_image_if_needed.
  destruct (_ && _); [apply satisfies_raise|].
  eapply satisfies_bind with (Q := fun _ => True).
  { destruct (truthy (image_filepath image_source)); [|by apply satisfies_ret].
    eapply satisfies_bind; [apply satisfies_path_exists|].
    intros. by apply satisfies_ret. }
  intros [filepath|] _; [by apply satisfies_ret|].
  eapply satisfies_bind with (Q := stored_name filename).
  { unfold stored_name. destruct (truthy filename) as [given|] eqn:Ename.
    - by apply satisfies_ret.
    - intros w. split; simpl.
      + intros e [<-|[]]. by apply rse_uuid.
      + intros a [= <-]. eauto. }
  intros name Hname.
  eapply satisfies_bind;
    [apply satisfies_get_private_path; apply rse_mkdir|].
  intros source_image_path ->.
  destruct (truthy (encoded_image image_source)) as [payload|] eqn:Eenc.
  - eapply satisfies_bind;
      [apply satisfies_base64_b64decode; by apply rse_decode|].
    intros decoded_image _.
    eapply satisfies_bind with (Q := fun _ => True).
    + apply satisfies_write_file.
      by apply (rse_write _ _ _ _ payload name decoded_image).
    + intros. by apply satisfies_ret.
  - destruct (truthy (image_url image_source)) as [url|] eqn:Eurl;
      [|apply satisfies_raise].
    eapply satisfies_bind with (Q := fun _ => True).
    + eapply satisfies_weaken; [apply download_image_footprint|done|].
      intros e He. by apply (rse_download _ _ _ _ url name e).
    + intros. by apply satisfies_ret.
Qed.

Lemma resolver_no_download_when_encoded request image_source folder filename
    w payload url :
  truthy (encoded_image image_source) = Some payload ->
  ~ In (EvHttpGet url)
       (events_of (download_image_if_needed request image_source folder
                     filename w)).
Proof.
  intros Henc Hin.
  apply (resolver_footprint request image_source folder filename w) in Hin.
  inversion Hin as [| | | |u name e Hnone Hurl Hname He Heq]; congruence.
Qed.

Lemma resolver_download_only_as_last_resort request image_source folder
    filename w url :
  In (EvHttpGet url)
     (events_of (download_image_if_needed request image_source folder
                   filename w)) ->
  local_file w image_source = None
  /\ truthy (encoded_image image_source) = None
  /\ image_url image_source = Some url.
Proof.
  intros Hin. split.
  { destruct (local_file w image_source) as [filepath|] eqn:Elocal; [|done].
    by rewrite (resolver_local _ _ _ _ _ _ Elocal) in Hin. }
  apply (resolver_footprint request image_source folder filename w) in Hin.
  inversion Hin as [| | | |u name e Hnone Hurl Hname He Heq]; subst.
  split; [done|].
  inversion He; subst. by apply truthy_Some in Hurl as [-> _].
Qed.

Lemma resolver_reaches_decode request image_source folder filename w payload :
  local_file w image_source = None ->
  truthy (encoded_image image_source) = Some payload ->
  mkdir_blocked w (private_dir_of request (os_path_join "source" folder))
    = false ->
  In (EvB64Decode payload)
     (events_of (download_image_if_needed request image_source folder
                   filename w)).
Proof.
  intros Hlocal Henc Hready. unfold download_image_if_needed.
  assert (is_none (encoded_image image_source) = false) as ->.
  { by destruct (encoded_image image_source). }
  rewrite andb_false_r. simpl.
  rewrite (bind_events_ok _ _ _ _ _ _ (local_step_run image_source w)).
  rewrite Hlocal. simpl. rewrite Henc.
  set (dir := private_dir_of request (os_path_join "source" folder)) in *.
  unfold mkdir_blocked in Hready.
  unfold bind, get_private_path, bind, path_exists, mkdir_parents,
    base64_b64decode, bind, emit, write_file, uuid4_str, ret, raise.
  fold dir.
  destruct (truthy filename) as [given|]; simpl;
    repeat match goal with
           | |- context [os_path_exists ?w' (path_str dir)] =>
               change (os_path_exists w' (path_str dir))
                 with (os_path_exists w (path_str dir));
               destruct (os_path_exists w (path_str dir)); simpl in *
           | |- context [existsb (is_file ?w') ?l] =>
               change (existsb (is_file w') l) with (existsb (is_file w) l);
               rewrite Hready; simpl
           | |- context [b64decode payload] =>
               destruct (b64decode payload); simpl
           | |- context [str_isascii payload] =>
               destruct (str_isascii payload); simpl
           | |- context [if can_write ?a ?b then _ else _] =>
               destruct (can_write a b); simpl
           end; auto 6.
Qed.

(** The resolver's way to its destination: it picks the name and prepares
    the folder, touching no file, and goes on from there. *)
Lemma resolver_prefix_run request folder filename (k : PurePath -> M string) w :
  mkdir_blocked w (source_dir request folder) = false ->
  exists w1 ev1,
    files w1 = files w
    /\ dirs w1 = dirs (prepared w (source_dir request folder))
    /\ clock_reads w1 = clock_reads w
    /\ (forall e, In e ev1 -> written_path e = None
                              /\ (forall p, e <> EvB64Decode p)
                              /\ (forall u, e <> EvHttpGet u))
    /\ let dest := joinpath (source_dir request folder) (chosen_name filename w) in
       bind (match truthy filename with
             | Some name => ret name
             | None => uuid4_str
             end)
         (fun image_name =>
            bind (get_private_path request (os_path_join "source" folder)
                    image_name) k) w
       = (result_of (k dest w1), world_of (k dest w1),
          (ev1 ++ events_of (k dest w1))%list).
Proof.
  intros Hready. unfold mkdir_blocked, source_dir, chosen_name, prepared in *.
  set (dir := private_dir_of request (os_path_join "source" folder)) in *.
  assert (forall name w0 ev0,
    files w0 = files w -> dirs w0 = dirs w -> clock_reads w0 = clock_reads w ->
    (forall e, In e ev0 -> written_path e = None
                           /\ (forall p, e <> EvB64Decode p)
                           /\ (forall u, e <> EvHttpGet u)) ->
    exists w1 ev1,
      files w1 = files w
      /\ dirs w1 = dirs (if os_path_exists w (path_str dir) then w
                         else set_dirs w (dirs w ∪ list_to_set (path_and_parents dir)))
      /\ clock_reads w1 = clock_reads w
      /\ (forall e, In e ev1 -> written_path e = None
                                /\ (forall p, e <> EvB64Decode p)
                                /\ (forall u, e <> EvHttpGet u))
      /\ ((bind (get_private_path request (os_path_join "source" folder) name) k w0).1.1,
          (bind (get_private_path request (os_path_join "source" folder) name) k w0).1.2,
          (ev0 ++ (bind (get_private_path request (os_path_join "source" folder) name) k w0).2)%list)
         = (result_of (k (joinpath dir name) w1), world_of (k (joinpath dir name) w1),
            (ev1 ++ events_of (k (joinpath dir name) w1))%list)) as Hstep.
  { intros name w0 ev0 Hf Hd Hc Hev0.
    pose proof (get_private_path_run request (os_path_join "source" folder)
                  name w0) as Hrun. simpl in Hrun. fold dir in Hrun.
    assert (os_path_exists w0 (path_str dir) = os_path_exists w (path_str dir))
      as Hex by (unfold os_path_exists, is_file, is_dir; by rewrite Hf, Hd).
    assert (existsb (is_file w0) (path_and_parents dir)
            = existsb (is_file w) (path_and_parents dir)) as Hfile.
    { f_equal. unfold is_file. by rewrite Hf. }
    rewrite Hex, Hfile in Hrun.
    destruct (os_path_exists w (path_str dir)); simpl in Hready.
    - exists w0, ev0. rewrite (bind_ok _ _ _ _ _ _ Hrun). simpl.
      by split_and!.
    - rewrite Hready in Hrun.
      exists (set_dirs w0 (dirs w0 ∪ list_to_set (path_and_parents dir))),
             (ev0 ++ [EvMkdir (path_str dir)])%list.
      rewrite (bind_ok _ _ _ _ _ _ Hrun). simpl. rewrite Hd.
      rewrite <- app_assoc. split_and!; try done.
      intros e Hin. apply in_app_or in Hin as [Hin|[<-|[]]]; [auto|done]. }
  destruct (truthy filename) as [given|].
  - rewrite bind_ret.
    destruct (Hstep given w []) as (w1 & ev1 & ? & ? & ? & ? & Heq); try done.
    exists w1, ev1. split_and!; try done.
    cbv beta iota zeta. rewrite <- Heq. simpl. by destruct (bind _ _ _) as [[? ?] ?].
  - rewrite (bind_ok _ _ _ (uuid4 (uuid_draws w))
               (mkWorld (files w) (dirs w) (clock_reads w) (S (uuid_draws w)))
               [EvUuid4 (uuid4 (uuid_draws w))]); [|done].
    destruct (Hstep (uuid4 (uuid_draws w))
                (mkWorld (files w) (dirs w) (clock_reads w) (S (uuid_draws w)))
                [EvUuid4 (uuid4 (uuid_draws w))])
      as (w1 & ev1 & ? & ? & ? & ? & Heq); try done.
    { by intros e [<-|[]]. }
    exists w1, ev1. by split_and!.
Qed.

Lemma local_file_unset w image_source :
  truthy (image_filepath image_source) = None ->
  local_file w image_source = None.
Proof.
  unfold local_file. by destruct (image_filepath image_source) as [[|c s]|].
Qed.

(** The last line of the resolver: some field is present, none is usable. *)
Lemma resolver_unusable_run request image_source folder filename w :
  is_none (image_url image_source) && is_none (encoded_image image_source)
    && is_none (image_filepath image_source) = false ->
  truthy (image_url image_source) = None ->
  truthy (encoded_image image_source) = None ->
  truthy (image_filepath image_source) = None ->
  mkdir_blocked w (source_dir request folder) = false ->
  exists w1 ev1,
    files w1 = files w
    /\ dirs w1 = dirs (prepared w (source_dir request folder))
    /\ (forall e, In e ev1 -> written_path e = None
                              /\ (forall p, e <> EvB64Decode p)
                              /\ (forall u, e <> EvHttpGet u))
    /\ download_image_if_needed request image_source folder filename w
       = (Raise (HTTPException 400 "Process image failed"), w1, ev1).
Proof.
  intros Hsome Hurl Henc Hpath Hready.
  destruct (resolver_prefix_run request folder filename
              (fun _ => raise (HTTPException 400 "Process image failed"))
              w Hready) as (w1 & ev1 & Hf & Hd & _ & Hev & Heq).
  exists w1, ev1. split_and!; try done.
  unfold download_image_if_needed. rewrite Hsome.
  rewrite (bind_ok _ _ _ _ _ _ (local_step_run image_source w)).
  rewrite (local_file_unset _ _ Hpath), Henc, Hurl.
  cbv beta iota zeta in Heq |- *. simpl in Heq. rewrite app_nil_r in Heq.
  rewrite Heq. done.
Qed.

(** C1. The resolver's precedence.  (1) When [image_filepath] is set and
    the file exists, the resolver returns exactly that path, leaves the
    world as it was and has no effect at all: no directory, no write, no
    base64 decode, no download.  (2) Otherwise, when [encoded_image] is set
    and not empty, the base64 branch is taken whatever [image_url] holds: the
    run is the run of the same source with [image_url] removed, it requests
    no URL, and it decodes the payload as soon as the destination folder
    could be prepared.  (3) A URL is requested only when neither applies,
    and it is then [image_url]. *)
Theorem resolver_precedence request image_source folder filename w :
  let o := download_image_if_needed request image_source folder filename w in
  (forall filepath,
      image_filepath image_source = Some filepath ->
      os_path_exists w filepath = true ->
      o = (Ok filepath, w, []))
  /\ (forall payload,
        local_file w image_source = None ->
        encoded_image image_source = Some payload ->
        payload <> EmptyString ->
        o = download_image_if_needed request
              (mkImageSource None (Some payload) (image_filepath image_source))
              folder filename w
        /\ (forall url, ~ In (EvHttpGet url) (events_of o))
        /\ (mkdir_blocked w (source_dir request folder) = false ->
            In (EvB64Decode payload) (events_of o)))
  /\ (forall url,
        In (EvHttpGet url) (events_of o) ->
        local_file w image_source = None
        /\ truthy (encoded_image image_source) = None
        /\ image_url image_source = Some url).
Proof.
  intros o. subst o. split_and!.
  - intros filepath Hpath Hex. apply resolver_local.
    unfold local_file. by rewrite Hpath, Hex.
  - intros payload Hlocal Henc Hne.
    assert (truthy (encoded_image image_source) = Some payload) as Htruthy
      by by apply truthy_Some.
    split_and!.
    + by apply resolver_encoded_ignores_url.
    + intros url. by apply resolver_no_download_when_encoded with payload.
    + intros Hready. by apply resolver_reaches_decode.
  - apply resolver_download_only_as_last_resort.
Qed.

(** C4, as the code has it.  A source whose fields are all missing or empty
    is rejected with an HTTP 400 in every combination: with the detail
    "image_url, encoded_image, image_filepath at least one is required" and
    no effect when all three are [None]; and, when some field is an empty
    string, with the detail "Process image failed", after the name was
    chosen and the destination folder prepared (no file is written, nothing
    is decoded or requested), provided that folder can be prepared. *)
Theorem unusable_source_rejected request image_source folder filename w :
  (image_url image_source = None \/ image_url image_source = Some EmptyString) ->
  (encoded_image image_source = None
   \/ encoded_image image_source = Some EmptyString) ->
  (image_filepath image_source = None
   \/ image_filepath image_source = Some EmptyString) ->
  let o := download_image_if_needed request image_source folder filename w in
  (image_url image_source = None /\ encoded_image image_source = None
   /\ image_filepath image_source = None ->
   o = (Raise (HTTPException 400
          "image_url, encoded_image, image_filepath at least one is required"),
        w, []))
  /\ (~ (image_url image_source = None /\ encoded_image image_source = None
         /\ image_filepath image_source = None) ->
      mkdir_blocked w (source_dir request folder) = false ->
      result_of o = Raise (HTTPException 400 "Process image failed")
      /\ files (world_of o) = files w
      /\ dirs (world_of o) = dirs (prepared w (source_dir request folder))
      /\ forall e, In e (events_of o) ->
           written_path e = None
           /\ (forall p, e <> EvB64Decode p) /\ (forall u, e <> EvHttpGet u)).
Proof.
  intros Hurl Henc Hpath o. subst o. split.
  - intros (Eu & Ee & Ep). unfold download_image_if_needed.
    by rewrite Eu, Ee, Ep.
  - intros Hsome Hready.
    apply truthy_None in Hurl, Henc, Hpath.
    destruct (resolver_unusable_run request image_source folder filename w)
      as (w1 & ev1 & Hf & Hd & Hev & ->); try done.
    destruct (image_url image_source), (encoded_image image_source),
      (image_filepath image_source); try done.
    exfalso. by apply Hsome.
Qed.

(** *** Single steps, run *)

Lemma http_get_content_run url status content w :
  requests_get url = Response status content ->
  (400 <=? status) && (status <? 600) = false ->
  http_get_content url w = (Ok content, w, [EvHttpGet url]).
Proof.
  intros Hreply Hstatus. unfold http_get_content, bind, emit.
  by rewrite Hreply, Hstatus.
Qed.

Lemma write_file_run p data w :
  can_write w p = true ->
  write_file p data w
  = (Ok tt, set_files w (<[p := data]> (files w)), [EvWrite p data]).
Proof. intros Hcan. unfold write_file. by rewrite Hcan. Qed.

Lemma imghdr_what_file_run p data w :
  files w !! p = Some data ->
  imghdr_what_file p w = (Ok (imghdr_what (firstn 32 data)), w, []).
Proof.
  intros Hfile. unfold imghdr_what_file, bind, read_file. by rewrite Hfile.
Qed.

Lemma os_rename_run src dst data w :
  files w !! src = Some data ->
  can_write w dst = true ->
  os_rename src dst w
  = (Ok tt, set_files w (<[dst := data]> (delete src (files w))),
     [EvRename src dst]).
Proof. intros Hfile Hcan. unfold os_rename. by rewrite Hfile, Hcan. Qed.

(** *** [imghdr] answers with one of thirteen names *)

Lemma imghdr_what_names h t :
  imghdr_what h = Some t ->
  In t ["jpeg"; "png"; "gif"; "tiff"; "rgb"; "pbm"; "pgm"; "ppm"; "rast";
        "xbm"; "bmp"; "webp"; "exr"].
Proof.
  unfold imghdr_what, imghdr_tests, first_test.
  unfold test_jpeg, test_png, test_gif, test_tiff, test_rgb, test_pbm,
    test_pgm, test_ppm, test_rast, test_xbm, test_bmp, test_webp, test_exr,
    test_pnm.
  intros Hwhat.
  repeat match type of Hwhat with
         | context [if ?c then _ else _] => destruct c
         | context [match ?l with [] => _ | _ :: _ => _ end] => destruct l
         end;
    try discriminate; injection Hwhat as <-; simpl; tauto.
Qed.

Lemma imghdr_what_truthy h t : imghdr_what h = Some t -> str_truthy t = true.
Proof.
  intros Hwhat. apply imghdr_what_names in Hwhat. simpl in Hwhat.
  repeat destruct Hwhat as [<-|Hwhat]; done.
Qed.

(** *** [splitext] cuts the path in two *)

Lemma str_app_nil (s : string) : EmptyString +:+ s = s.
Proof. reflexivity. Qed.

Lemma str_app_cons c (a b : string) : String c a +:+ b = String c (a +:+ b).
Proof. reflexivity. Qed.

Lemma str_app_nil_r (s : string) : s +:+ EmptyString = s.
Proof. induction s as [|c s IH]; [done|]. by rewrite str_app_cons, IH. Qed.

Lemma str_app_assoc (a b c : string) : (a +:+ b) +:+ c = a +:+ (b +:+ c).
Proof.
  induction a as [|x a IH]; [done|]. by rewrite !str_app_cons, IH.
Qed.

Lemma str_app_inv_l (a b c : string) : a +:+ b = a +:+ c -> b = c.
Proof.
  induction a as [|x a IH]; [done|]. rewrite !str_app_cons. intros [= E]. auto.
Qed.

Lemma substring_whole s : String.substring 0 (String.length s) s = s.
Proof. induction s as [|c s IH]; simpl; [done | by rewrite IH]. Qed.

Lemma substring_cut n s :
  String.substring 0 n s +:+ String.substring n (String.length s - n) s = s.
Proof.
  revert n. induction s as [|c s IH]; intros [|n]; simpl; try done.
  - by rewrite str_app_nil, substring_whole.
  - by rewrite str_app_cons, IH.
Qed.

Lemma splitext_concat p : (splitext p).1 +:+ (splitext p).2 = p.
Proof.
  unfold splitext. destruct (_ && _); simpl.
  - apply substring_cut.
  - apply str_app_nil_r.
Qed.

Lemma renamed_differs p t :
  str_tail (splitext p).2 <> t -> (splitext p).1 +:+ "." +:+ t <> p.
Proof.
  intros Hext Heq.
  assert ((splitext p).1 +:+ "." +:+ t = (splitext p).1 +:+ (splitext p).2)
    as Hcut by (etransitivity; [exact Heq | symmetry; apply splitext_concat]).
  apply str_app_inv_l in Hcut. apply Hext. by rewrite <- Hcut.
Qed.

Lemma bind_run {A B} (m : M A) (k : A -> M B) w a w1 ev1 :
  m w = (Ok a, w1, ev1) -> bind m k w = after_events ev1 (k a w1).
Proof. apply bind_ok. Qed.

(** *** [download_image], run *)

(** The download and the first write, up to the extension check. *)
Lemma download_image_run url output_path w status content :
  requests_get url = Response status content ->
  (400 <=? status) && (status <? 600) = false ->
  can_write w output_path = true ->
  let w1 := set_files w (<[output_path := content]> (files w)) in
  download_image url output_path w
  = after_events [EvHttpGet url; EvWrite output_path content]
      (match imghdr_what (firstn 32 content) with
       | Some image_type =>
           if negb (String.eqb (str_tail (splitext output_path).2) image_type)
           then
             bind (os_rename output_path
                     ((splitext output_path).1 +:+ "." +:+ image_type))
                  (fun _ =>
                     ret ((splitext output_path).1 +:+ "." +:+ image_type)) w1
           else ret output_path w1
       | None =>
           after_events [EvWarning "Could not determine the image type."]
             (ret output_path w1)
       end).
Proof.
  intros Hreply Hstatus Hcan w1. unfold download_image.
  rewrite (bind_run _ _ _ _ _ _ (http_get_content_run _ _ _ _ Hreply Hstatus)).
  rewrite (bind_run _ _ _ _ _ _ (write_file_run _ content _ Hcan)).
  fold w1.
  assert (files w1 !! output_path = Some content) as Hfile
    by apply lookup_insert_eq.
  rewrite (bind_run _ _ _ _ _ _ (imghdr_what_file_run _ _ _ Hfile)).
  destruct (splitext output_path) as [base ext].
  destruct (imghdr_what (firstn 32 content)) as [image_type|] eqn:Ewhat.
  - rewrite bind_ret, (imghdr_what_truthy _ _ Ewhat). simpl.
    unfold after_events. simpl.
    destruct (negb _); [by destruct (bind _ _ _) as [[??]?] | done].
  - unfold logger_warning, bind, emit, ret, after_events. done.
Qed.

(** C6. A downloaded image whose content has a sniffed type different from
    the extension of the destination (no extension included) is renamed to
    [<base>.<sniffed type>], [base] being the destination without its
    extension, and that path is returned: the content is then found there
    and no longer at the destination.  When the extension is already the
    sniffed type, the destination is returned and nothing is renamed. *)
Theorem download_image_corrects_extension url output_path w status content
    image_type :
  requests_get url = Response status content ->
  (400 <=? status) && (status <? 600) = false ->
  can_write w output_path = true ->
  imghdr_what (firstn 32 content) = Some image_type ->
  let base := (splitext output_path).1 in
  let ext := (splitext output_path).2 in
  let renamed := base +:+ "." +:+ image_type in
  let o := download_image url output_path w in
  (str_tail ext <> image_type ->
   can_write w renamed = true ->
   result_of o = Ok renamed
   /\ events_of o = [EvHttpGet url; EvWrite output_path content;
                     EvRename output_path renamed]
   /\ files (world_of o) !! renamed = Some content
   /\ files (world_of o) !! output_path = None
   /\ renamed <> output_path)
  /\ (str_tail ext = image_type ->
      o = (Ok output_path, set_files w (<[output_path := content]> (files w)),
           [EvHttpGet url; EvWrite output_path content])).
Proof.
  intros Hreply Hstatus Hcan Hwhat base ext renamed o. subst o.
  rewrite (download_image_run _ _ _ _ _ Hreply Hstatus Hcan). cbv zeta.
  rewrite Hwhat. fold base ext renamed. split.
  - intros Hext Hcan'.
    assert (renamed <> output_path) as Hne by by apply renamed_differs.
    destruct (String.eqb_spec (str_tail ext) image_type) as [|_]; [done|].
    simpl negb. cbv iota.
    set (w1 := set_files w (<[output_path := content]> (files w))).
    assert (files w1 !! output_path = Some content) as Hfile
      by apply lookup_insert_eq.
    assert (can_write w1 renamed = true) as Hcan1 by done.
    rewrite (bind_run _ _ _ _ _ _ (os_rename_run _ _ _ _ Hfile Hcan1)).
    unfold after_events, ret. simpl. split_and!; try done.
    + apply lookup_insert_eq.
    + rewrite lookup_insert_ne by done. apply lookup_delete_eq.
  - intros Hext. rewrite (proj2 (String.eqb_eq _ _) Hext). done.
Qed.

(** C10. When the type of the downloaded content cannot be sniffed,
    [download_image] raises nothing and returns the destination as it was
    given: the file stays under the name it was written to, and the only
    effect after the write is the warning. *)
Theorem download_image_unknown_type url output_path w status content :
  requests_get url = Response status content ->
  (400 <=? status) && (status <? 600) = false ->
  can_write w output_path = true ->
  imghdr_what (firstn 32 content) = None ->
  download_image url output_path w
  = (Ok output_path, set_files w (<[output_path := content]> (files w)),
     [EvHttpGet url; EvWrite output_path content;
      EvWarning "Could not determine the image type."]).
Proof.
  intros Hreply Hstatus Hcan Hwhat.
  rewrite (download_image_run _ _ _ _ _ Hreply Hstatus Hcan). cbv zeta.
  by rewrite Hwhat.
Qed.

(** *** The encoded-image branch, run *)

Lemma can_write_dirs w1 w2 p : dirs w1 = dirs w2 -> can_write w1 p = can_write w2 p.
Proof.
  intros Hd. unfold can_write, parent_exists, is_dir. by rewrite Hd.
Qed.

Lemma base64_b64decode_run payload w :
  base64_b64decode payload w
  = match b64decode payload with
    | Some data => (Ok data, w, [EvB64Decode payload])
    | None =>
        (Raise (if str_isascii payload then BinasciiError
                else ValueError
                       "string argument should contain only ASCII characters"),
         w, [EvB64Decode payload])
    end.
Proof.
  unfold base64_b64decode, bind, emit.
  destruct (b64decode payload); [done|]. by destruct (str_isascii payload).
Qed.

(** C5. In the encoded-image branch, the file written holds exactly the
    bytes the payload decodes to, it is the only file the resolver writes,
    and its path, which the resolver returns, is the destination with
    [.<sniffed type>] appended when the type of those bytes can be sniffed,
    and the bare destination otherwise. *)
Theorem encoded_image_stored request image_source folder filename w payload
    decoded :
  local_file w image_source = None ->
  encoded_image image_source = Some payload ->
  payload <> EmptyString ->
  b64decode payload = Some decoded ->
  mkdir_blocked w (source_dir request folder) = false ->
  let dest :=
    path_str (joinpath (source_dir request folder) (chosen_name filename w)) in
  let stored :=
    match imghdr_what decoded with
    | Some file_type => dest +:+ "." +:+ file_type
    | None => dest
    end in
  can_write (prepared w (source_dir request folder)) stored = true ->
  let o := download_image_if_needed request image_source folder filename w in
  result_of o = Ok stored
  /\ files (world_of o) = <[stored := decoded]> (files w)
  /\ files (world_of o) !! stored = Some decoded
  /\ In (EvWrite stored decoded) (events_of o)
  /\ forall e p, In e (events_of o) -> written_path e = Some p ->
       e = EvWrite stored decoded.
Proof.
  intros Hlocal Henc Hne Hdec Hready dest stored Hcan o. subst o.
  assert (truthy (encoded_image image_source) = Some payload) as Htruthy
    by by apply truthy_Some.
  destruct (resolver_prefix_run request folder filename
    (fun source_image_path =>
       bind (base64_b64decode payload) (fun decoded_image =>
         bind (write_file
                 match imghdr_what decoded_image with
                 | Some file_type =>
                     path_str source_image_path +:+ "." +:+ file_type
                 | None => path_str source_image_path
                 end decoded_image)
           (fun _ =>
              ret match imghdr_what decoded_image with
                  | Some file_type =>
                      path_str source_image_path +:+ "." +:+ file_type
                  | None => path_str source_image_path
                  end)))
    w Hready) as (w1 & ev1 & Hf & Hd & _ & Hev & Heq).
  unfold download_image_if_needed.
  assert (is_none (image_url image_source)
            && is_none (encoded_image image_source)
            && is_none (image_filepath image_source) = false) as ->
    by by rewrite Henc, andb_false_r.
  rewrite (bind_run _ _ _ _ _ _ (local_step_run image_source w)).
  rewrite Hlocal, Htruthy. cbv beta iota zeta in Heq |- *.
  rewrite Heq. clear Heq. fold dest.
  assert (base64_b64decode payload w1 = (Ok decoded, w1, [EvB64Decode payload]))
    as Hrun by by rewrite base64_b64decode_run, Hdec.
  rewrite (bind_run _ _ _ _ _ _ Hrun). fold stored.
  assert (can_write w1 stored = true) as Hcan1
    by by rewrite (can_write_dirs _ _ _ Hd).
  rewrite (bind_run _ _ _ _ _ _ (write_file_run _ decoded _ Hcan1)).
  unfold after_events, ret, result_of, world_of, events_of. simpl.
  rewrite Hf. split_and!; try done.
  - apply lookup_insert_eq.
  - apply in_or_app. right. simpl. auto.
  - intros e p Hin Hp. apply in_app_or in Hin as [Hin|Hin].
    + apply Hev in Hin as [Hnone _]. congruence.
    + simpl in Hin. destruct Hin as [<-|[<-|[]]]; done.
Qed.

(** *** Only [datetime.now] reads the clock *)

Lemma keeps_clock_ret {A} (a : A) : keeps_clock (ret a).
Proof. by intros w. Qed.

Lemma keeps_clock_raise {A} x : keeps_clock (@raise A x).
Proof. by intros w. Qed.

Lemma keeps_clock_emit e : keeps_clock (emit e).
Proof. by intros w. Qed.

Lemma keeps_clock_bind {A B} (m : M A) (k : A -> M B) :
  keeps_clock m -> (forall a, keeps_clock (k a)) -> keeps_clock (bind m k).
Proof.
  intros Hm Hk w. specialize (Hm w).
  destruct (m w) as [[[a|x] w1] ev1] eqn:E.
  - rewrite (bind_ok _ _ _ _ _ _ E). unfold world_of in *. simpl in *.
    by rewrite <- Hm, <- (Hk a w1).
  - by rewrite (bind_raise _ _ _ _ _ _ E).
Qed.

Lemma keeps_clock_path_exists p : keeps_clock (path_exists p).
Proof. by intros w. Qed.

Lemma keeps_clock_mkdir_parents d : keeps_clock (mkdir_parents d).
Proof. intros w. unfold mkdir_parents. by destruct (existsb _ _). Qed.

Lemma keeps_clock_write_file p data : keeps_clock (write_file p data).
Proof. intros w. unfold write_file. by destruct (can_write w p). Qed.

Lemma keeps_clock_os_rename src dst : keeps_clock (os_rename src dst).
Proof.
  intros w. unfold os_rename.
  by destruct (files w !! src); [destruct (can_write w dst)|].
Qed.

Lemma keeps_clock_read_file p : keeps_clock (read_file p).
Proof. intros w. unfold read_file. by destruct (files w !! p). Qed.

Lemma keeps_clock_uuid4_str : keeps_clock uuid4_str.
Proof. by intros w. Qed.

Create HintDb clock.
#[local] Hint Resolve keeps_clock_ret keeps_clock_raise keeps_clock_emit
  keeps_clock_path_exists keeps_clock_mkdir_parents keeps_clock_write_file
  keeps_clock_os_rename keeps_clock_read_file keeps_clock_uuid4_str : clock.

Ltac clock_step :=
  first [ apply keeps_clock_bind; [|intros ?]
        | progress auto with clock
        | match goal with
          | |- keeps_clock (match ?x with _ => _ end) => destruct x
          | |- keeps_clock (let '(_, _) := ?x in _) => destruct x
          end ].

Lemma keeps_clock_get_private_path request folder filename :
  keeps_clock (get_private_path request folder filename).
Proof. unfold get_private_path. repeat clock_step. Qed.

Lemma keeps_clock_download_image url output_path :
  keeps_clock (download_image url output_path).
Proof.
  unfold download_image, http_get_content, imghdr_what_file, logger_warning.
  repeat clock_step.
Qed.

Lemma keeps_clock_resolver request image_source folder filename :
  keeps_clock (download_image_if_needed request image_source folder filename).
Proof.
  unfold download_image_if_needed, base64_b64decode.
  repeat first [ apply keeps_clock_get_private_path
               | apply keeps_clock_download_image
               | clock_step ].
Qed.


(** *** The request handler, run *)

Lemma outcome_eta {A} (o : Res A * World * list event) :
  o = (result_of o, world_of o, events_of o).
Proof. by destruct o as [[??]?]. Qed.

Lemma bind_result_ok {A B} (m : M A) (k : A -> M B) w b :
  result_of (bind m k w) = Ok b ->
  exists a, result_of (m w) = Ok a
            /\ result_of (k a (world_of (m w))) = Ok b.
Proof.
  destruct (m w) as [[[a|x] w1] ev1] eqn:E.
  - rewrite (bind_ok _ _ _ _ _ _ E). intros Hres. by exists a.
  - by rewrite (bind_raise _ _ _ _ _ _ E).
Qed.

Lemma bind_run_result {A B} (m : M A) (k : A -> M B) w a :
  result_of (m w) = Ok a ->
  bind m k w = after_events (events_of (m w)) (k a (world_of (m w))).
Proof.
  intros Hres. apply bind_run. rewrite (outcome_eta (m w)). by rewrite Hres.
Qed.

Lemma image_open_frame path w :
  image_open path w = (result_of (image_open path w), w, []).
Proof.
  unfold image_open, bind, read_file.
  destruct (files w !! path) as [data|]; [|done].
  by destruct (image_decode data).
Qed.

Lemma after_events_app {A} ev1 ev2 (o : Res A * World * list event) :
  after_events ev1 (after_events ev2 o) = after_events (ev1 ++ ev2) o.
Proof. unfold after_events. simpl. by rewrite app_assoc. Qed.

(** The handler up to the swap call, when both sources resolve and both
    files open as images. *)
Lemma handler_run request (roop_options : RoopOptions float) w
    face_path swap_path face swap :
  let start := wall_clock (clock_reads w) in
  let date := strftime_date start in
  let o1 := download_image_if_needed request (source_image roop_options)
              ("face/" +:+ date) (Some (task_id roop_options)) (tick w) in
  let o2 := download_image_if_needed request (swap_image roop_options)
              ("swap/" +:+ date) (Some (task_id roop_options)) (world_of o1) in
  result_of o1 = Ok face_path ->
  result_of o2 = Ok swap_path ->
  result_of (image_open face_path (world_of o2)) = Ok face ->
  result_of (image_open swap_path (world_of o2)) = Ok swap ->
  run_roop_on_single_image request roop_options w
  = after_events (EvNow start :: events_of o1 ++ events_of o2 ++ [EvSwapFace])
      (match result_image
               (swap_face face swap (model roop_options)
                  {[ face_index roop_options ]}
                  (upscale_options roop_options)) with
       | None => raise (HTTPException 400 "Roop process image failed")
       | Some result_image =>
           bind (get_private_path request ("output/" +:+ date)
                   (task_id roop_options +:+ ".png"))
             (fun output_filepath =>
                bind (image_save result_image output_filepath) (fun _ =>
                  bind datetime_now (fun finish_time =>
                    ret (mkRoopResponse
                           (task_id roop_options)
                           (pil_image_to_base64 result_image)
                           (strftime_iso start)
                           (strftime_iso finish_time)))))
       end (world_of o2)).
Proof.
  intros start date o1 o2 H1 H2 H3 H4. unfold run_roop_on_single_image.
  rewrite (bind_run _ _ w start (tick w) [EvNow start]) by done.
  fold date. fold o1. rewrite (bind_run_result _ _ _ _ H1).
  fold o2. rewrite (bind_run_result _ _ _ _ H2).
  rewrite (bind_run _ _ _ face (world_of o2) []);
    [|rewrite image_open_frame; fold o2; by rewrite H3].
  rewrite (bind_run _ _ _ swap (world_of o2) []);
    [|rewrite image_open_frame; fold o2; by rewrite H4].
  rewrite (bind_run _ _ _ tt (world_of o2) [EvSwapFace]) by done.
  rewrite !after_events_app. f_equal.
  simpl. by rewrite <- !app_assoc.
Qed.

(** *** Timestamps *)

Lemma digit_char_code n :
  N_of_ascii (digit_char n) = Z.to_N (48 + n mod 10).
Proof.
  unfold digit_char, ascii_of_nat.
  pose proof (Z.mod_pos_bound n 10 ltac:(lia)) as Hr.
  set (r := n mod 10) in *. clearbody r.
  rewrite N_ascii_embedding by lia. lia.
Qed.

Lemma digit_char_is_digit n : is_digit (digit_char n) = true.
Proof.
  unfold is_digit. rewrite digit_char_code.
  pose proof (Z.mod_pos_bound n 10 ltac:(lia)) as Hr.
  set (r := n mod 10) in *. clearbody r.
  apply andb_true_intro. split; apply N.leb_le; lia.
Qed.

Lemma digit_char_compare a b :
  Ascii.compare (digit_char a) (digit_char b) = (a mod 10 ?= b mod 10).
Proof.
  unfold Ascii.compare. rewrite !digit_char_code.
  pose proof (Z.mod_pos_bound a 10 ltac:(lia)) as Ha.
  pose proof (Z.mod_pos_bound b 10 ltac:(lia)) as Hb.
  rewrite <- N2Z.inj_compare, !Z2N.id by lia.
  destruct (Z.compare_spec (a mod 10) (b mod 10)) as [E|E|E];
    [apply Z.compare_eq_iff | apply Z.compare_lt_iff | apply Z.compare_gt_iff];
    lia.
Qed.

Lemma strftime_iso_chars d :
  strftime_iso d
  = pad4 (dt_year d) +:+ String "-" (pad2 (dt_month d) +:+ String "-"
      (pad2 (dt_day d) +:+ String "T" (pad2 (dt_hour d) +:+ String ":"
         (pad2 (dt_minute d) +:+ String ":" (pad2 (dt_second d) +:+ "Z"))))).
Proof. reflexivity. Qed.

Lemma strftime_iso_shape d :
  matches_shape "dddd-dd-ddTdd:dd:ddZ" (strftime_iso d) = true.
Proof.
  rewrite strftime_iso_chars. unfold pad4, pad2.
  rewrite !str_app_cons, !str_app_nil. simpl.
  by rewrite !digit_char_is_digit.
Qed.

Lemma compare_same_head c r1 r2 :
  String.compare (String c r1) (String c r2) = String.compare r1 r2.
Proof.
  simpl. unfold Ascii.compare. by rewrite N.compare_refl.
Qed.

Lemma pad2_compare x y r1 r2 :
  0 <= x < 100 -> 0 <= y < 100 ->
  String.compare (pad2 x +:+ r1) (pad2 y +:+ r2)
  = match x ?= y with
    | Eq => String.compare r1 r2
    | c => c
    end.
Proof.
  intros Hx Hy. unfold pad2. rewrite !str_app_cons, !str_app_nil. simpl.
  rewrite !digit_char_compare.
  destruct (Z.compare_spec ((x / 10) mod 10) ((y / 10) mod 10)) as [E1|E1|E1];
    destruct (Z.compare_spec (x mod 10) (y mod 10)) as [E2|E2|E2];
    destruct (Z.compare_spec x y) as [E|E|E];
    try done; exfalso; Z.to_euclidean_division_equations; lia.
Qed.

Lemma digit_char_ext a b : a mod 10 = b mod 10 -> digit_char a = digit_char b.
Proof. unfold digit_char. by intros ->. Qed.

Lemma pad4_pad2 x :
  0 <= x -> pad4 x = pad2 (x / 100) +:+ pad2 (x mod 100).
Proof.
  intros Hx. unfold pad4, pad2. rewrite !str_app_cons, str_app_nil.
  rewrite (digit_char_ext (x / 1000) (x / 100 / 10)),
    (digit_char_ext (x / 10) (x mod 100 / 10)),
    (digit_char_ext x (x mod 100));
    [done|..]; Z.to_euclidean_division_equations; lia.
Qed.

Lemma pad4_compare x y r1 r2 :
  0 <= x < 10000 -> 0 <= y < 10000 ->
  String.compare (pad4 x +:+ r1) (pad4 y +:+ r2)
  = match x ?= y with
    | Eq => String.compare r1 r2
    | c => c
    end.
Proof.
  intros Hx Hy. rewrite !pad4_pad2, !str_app_assoc by lia.
  rewrite !pad2_compare by (Z.to_euclidean_division_equations; lia).
  destruct (Z.compare_spec (x / 100) (y / 100)) as [E1|E1|E1];
    destruct (Z.compare_spec (x mod 100) (y mod 100)) as [E2|E2|E2];
    destruct (Z.compare_spec x y) as [E|E|E];
    try done; exfalso; Z.to_euclidean_division_equations; lia.
Qed.

Lemma lex_leb_cons x y a b :
  lex_leb (x :: a) (y :: b) = true ->
  x < y \/ (x = y /\ lex_leb a b = true).
Proof.
  simpl. destruct (Z.ltb_spec x y); [by left|].
  destruct (Z.eqb_spec x y); [by right | done].
Qed.

(** Timestamps of valid datetimes are ordered as the datetimes are. *)
Lemma strftime_iso_monotone a b :
  valid_datetime a -> valid_datetime b ->
  dt_leb a b = true ->
  String.leb (strftime_iso a) (strftime_iso b) = true.
Proof.
  intros (Ha1 & Ha2 & Ha3 & Ha4 & Ha5 & Ha6 & Ha7)
         (Hb1 & Hb2 & Hb3 & Hb4 & Hb5 & Hb6 & Hb7) Hle.
  unfold String.leb. rewrite !strftime_iso_chars.
  rewrite pad4_compare by lia. rewrite compare_same_head.
  do 4 (rewrite pad2_compare by lia; rewrite compare_same_head).
  rewrite pad2_compare by lia.
  unfold dt_leb, dt_fields in Hle.
  do 6 (apply lex_leb_cons in Hle as [Hlt|[Heq Hle]];
        [apply Z.compare_lt_iff in Hlt; by rewrite Hlt
        |rewrite Heq, Z.compare_refl; clear Heq]).
  done.
Qed.

(** *** The request handler: failure and success *)

Lemma resolver_never_saves request image_source folder filename w p :
  ~ In (EvImageSave p)
       (events_of (download_image_if_needed request image_source folder
                     filename w)).
Proof.
  intros Hin.
  apply (resolver_footprint request image_source folder filename w) in Hin.
  inversion Hin as [| | | |url name e Henc Hurl Hname He Heq]; subst.
  inversion He.
Qed.

Lemma image_save_run img path w :
  result_of (image_save img path w) = Ok tt ->
  image_save img path w
  = (Ok tt, set_files w (<[path_str path := png_encode img]> (files w)),
     [EvImageSave (path_str path)]).
Proof.
  unfold image_save. destruct (String.eqb _ _); [|done].
  by destruct (can_write w (path_str path)).
Qed.

Lemma get_private_path_frame request folder filename w p :
  result_of (get_private_path request folder filename w) = Ok p ->
  exists ev, get_private_path request folder filename w
             = (Ok p, world_of (get_private_path request folder filename w), ev)
             /\ forall e, In e ev -> exists d, e = EvMkdir d.
Proof.
  intros Hres. exists (events_of (get_private_path request folder filename w)).
  split.
  - rewrite (outcome_eta (get_private_path _ _ _ _)) at 1. by rewrite Hres.
  - intros e He. apply get_private_path_events in He. eauto.
Qed.

(** C8, as the code has it.  A request that succeeds is answered with its
    own task id, with the data URI of the result image (the prefix
    [data:image/png;base64,] and the base64 of its PNG encoding, the
    encoding that was saved to the output file), and with two timestamps of
    the shape [YYYY-MM-DDTHH:MM:SSZ]: the clock reading the handler starts
    with and the very next one, taken right after the output file was
    saved, so that [finish_time >= start_time] whenever the second reading
    is not earlier than the first, that is, unless the clock was set back
    in between. *)
Theorem successful_response request (roop_options : RoopOptions float) w resp :
  let o := run_roop_on_single_image request roop_options w in
  result_of o = Ok resp ->
  let start := wall_clock (clock_reads w) in
  let finish := wall_clock (S (clock_reads w)) in
  resp_task_id resp = task_id roop_options
  /\ (exists face swap result output_filepath before,
        result_image (swap_face face swap (model roop_options)
                        {[ face_index roop_options ]}
                        (upscale_options roop_options)) = Some result
        /\ resp_encoded_image resp
           = "data:image/png;base64," +:+ b64encode (png_encode result)
        /\ events_of o
           = (EvNow start :: before
              ++ [EvImageSave output_filepath; EvNow finish])%list
        /\ In EvSwapFace before
        /\ files (world_of o) !! output_filepath = Some (png_encode result))
  /\ start_time resp = strftime_iso start
  /\ finish_time resp = strftime_iso finish
  /\ matches_shape "dddd-dd-ddTdd:dd:ddZ" (start_time resp) = true
  /\ matches_shape "dddd-dd-ddTdd:dd:ddZ" (finish_time resp) = true
  /\ (dt_leb start finish = true ->
      String.leb (start_time resp) (finish_time resp) = true).
Proof.
  intros o Hres start finish. subst o.
  pose proof Hres as Hsteps. unfold run_roop_on_single_image in Hsteps.
  apply bind_result_ok in Hsteps as (start' & Hstart & Hsteps).
  injection Hstart as <-. fold start in Hsteps.
  change (world_of (datetime_now w)) with (tick w) in Hsteps.
  apply bind_result_ok in Hsteps as (face_path & H1 & Hsteps).
  apply bind_result_ok in Hsteps as (swap_path & H2 & Hsteps).
  apply bind_result_ok in Hsteps as (face & H3 & Hsteps).
  apply bind_result_ok in Hsteps as (swap & H4 & _).
  rewrite (image_open_frame face_path) in H4. simpl in H4.
  rewrite (handler_run _ _ _ _ _ _ _ H1 H2 H3 H4) in Hres |- *.
  fold start in Hres |- *.
  set (date := strftime_date start) in *.
  set (o1 := download_image_if_needed request (source_image roop_options)
               ("face/" +:+ date) (Some (task_id roop_options)) (tick w)) in *.
  set (o2 := download_image_if_needed request (swap_image roop_options)
               ("swap/" +:+ date) (Some (task_id roop_options)) (world_of o1))
    in *.
  destruct (result_image _) as [result|] eqn:Hresult; [|done].
  pose proof Hres as Hrest. unfold after_events in Hrest. simpl in Hrest.
  apply bind_result_ok in Hrest as (output_filepath & Hpath & Hrest).
  apply bind_result_ok in Hrest as ([] & Hsave & _).
  destruct (get_private_path_frame _ _ _ _ _ Hpath) as (evp & Epath & Hevp).
  set (w3 := world_of (get_private_path request ("output/" +:+ date)
                         (task_id roop_options +:+ ".png") (world_of o2))) in *.
  rewrite (bind_run _ _ _ _ _ _ Epath) in Hres |- *.
  rewrite (bind_run _ _ _ _ _ _ (image_save_run _ _ _ Hsave)) in Hres |- *.
  set (w4 := set_files w3 _) in *.
  assert (clock_reads w4 = S (clock_reads w)) as Hclock.
  { change (clock_reads w4) with (clock_reads w3). unfold w3.
    rewrite keeps_clock_get_private_path.
    unfold o2. rewrite keeps_clock_resolver.
    unfold o1. by rewrite keeps_clock_resolver. }
  assert (datetime_now w4 = (Ok finish, tick w4, [EvNow finish])) as Hnow
    by (unfold finish; by rewrite <- Hclock).
  rewrite (bind_run _ _ _ _ _ _ Hnow) in Hres |- *.
  rewrite !after_events_app in Hres |- *.
  unfold after_events, ret, result_of, world_of, events_of in Hres |- *.
  simpl in Hres |- *. injection Hres as <-. simpl.
  split_and!; try done; try apply strftime_iso_shape.
  - exists face, swap, result, (path_str output_filepath),
      (events_of o1 ++ events_of o2 ++ [EvSwapFace] ++ evp)%list.
    split_and!; try done.
    + rewrite app_nil_r. f_equal. by rewrite <- !app_assoc.
    + apply in_or_app. right. apply in_or_app. right. by left.
    + apply lookup_insert_eq.
  - intros Hle. by apply strftime_iso_monotone; try apply wall_clock_valid.
Qed.

(** *** Splitting strings *)

Lemma str_split_nonempty c s : str_split c s <> [].
Proof.
  destruct s as [|a s]; simpl; [done|].
  destruct (Ascii.eqb a c); [done|]. by destruct (str_split c s).
Qed.

Lemma str_split_absent c s : str_contains c s = false -> str_split c s = [s].
Proof.
  induction s as [|a s IH]; simpl; [done|].
  intros Hno. apply orb_false_iff in Hno as [Ha Hs].
  rewrite Ha, (IH Hs). done.
Qed.

Lemma str_split_at_sep c a b :
  str_split c (a +:+ String c b) = (str_split c a ++ str_split c b)%list.
Proof.
  induction a as [|x a IH].
  - rewrite str_app_nil. simpl. by rewrite Ascii.eqb_refl.
  - rewrite str_app_cons. simpl. destruct (Ascii.eqb x c).
    + by rewrite IH.
    + rewrite IH. pose proof (str_split_nonempty c a) as Hne.
      by destruct (str_split c a).
Qed.

Lemma str_contains_app c a b :
  str_contains c (a +:+ b) = str_contains c a || str_contains c b.
Proof.
  induction a as [|x a IH]; [done|].
  rewrite str_app_cons. simpl. by rewrite IH, orb_assoc.
Qed.

Lemma basename_at_sep x name :
  str_contains "/" name = false -> basename (x +:+ "/" +:+ name) = name.
Proof.
  intros Hno. unfold basename.
  change (x +:+ "/" +:+ name) with (x +:+ String "/" name).
  rewrite str_split_at_sep, (str_split_absent _ _ Hno).
  apply last_last.
Qed.

Lemma stem_plain t : str_contains "." t = false -> stem t = t.
Proof. intros Hno. unfold stem. by rewrite (str_split_absent _ _ Hno). Qed.

Lemma stem_with_extension t e :
  str_contains "." t = false -> stem (t +:+ "." +:+ e) = t.
Proof.
  intros Hno. unfold stem.
  change (t +:+ "." +:+ e) with (t +:+ String "." e).
  by rewrite str_split_at_sep, (str_split_absent _ _ Hno).
Qed.

(** *** [rfind] and [splitext] on a path whose last component has no dot *)

Lemma rfind_from_app c a b i acc :
  rfind_from c (a +:+ b) i acc
  = rfind_from c b (i + Z.of_nat (String.length a)) (rfind_from c a i acc).
Proof.
  revert i acc. induction a as [|x a IH]; intros i acc.
  - rewrite str_app_nil. simpl. f_equal. lia.
  - rewrite str_app_cons. simpl String.length. simpl rfind_from at 1 3.
    rewrite IH. f_equal. lia.
Qed.

Lemma rfind_from_absent c s i acc :
  str_contains c s = false -> rfind_from c s i acc = acc.
Proof.
  revert i acc. induction s as [|a s IH]; intros i acc; simpl; [done|].
  intros Hno. apply orb_false_iff in Hno as [Ha Hs]. by rewrite Ha, IH.
Qed.

Lemma rfind_from_bound c s i acc :
  acc < i -> rfind_from c s i acc < i + Z.of_nat (String.length s).
Proof.
  revert i acc. induction s as [|a s IH]; intros i acc Hacc.
  - simpl. lia.
  - simpl rfind_from. simpl String.length.
    pose proof (IH (i + 1) (if Ascii.eqb a c then i else acc)) as Hb.
    destruct (Ascii.eqb a c); lia.
Qed.

Lemma splitext_plain x name :
  str_contains "/" name = false -> str_contains "." name = false ->
  splitext (x +:+ "/" +:+ name) = (x +:+ "/" +:+ name, EmptyString).
Proof.
  intros Hslash Hdot. unfold splitext, rfind.
  change (x +:+ "/" +:+ name) with (x +:+ String "/" name).
  rewrite !rfind_from_app. simpl rfind_from.
  rewrite (rfind_from_absent _ _ _ _ Hslash), (rfind_from_absent _ _ _ _ Hdot).
  pose proof (rfind_from_bound "." x 0 (-1) ltac:(lia)) as Hb.
  assert ((0 + Z.of_nat (String.length x) <? rfind_from "." x 0 (-1)) = false)
    as -> by (apply Z.ltb_ge; lia).
  done.
Qed.

(** *** Paths built from plain names *)

Lemma str_join_app sep ps qs :
  ps <> [] -> qs <> [] ->
  str_join sep (ps ++ qs) = str_join sep ps +:+ sep +:+ str_join sep qs.
Proof.
  intros Hps Hqs. induction ps as [|x [|y ps] IH]; [done| |].
  - destruct qs; done.
  - change (str_join sep ((x :: y :: ps) ++ qs))
      with (x +:+ sep +:+ str_join sep ((y :: ps) ++ qs)).
    rewrite IH by done.
    change (str_join sep (x :: y :: ps))
      with (x +:+ sep +:+ str_join sep (y :: ps)).
    by rewrite !str_app_assoc.
Qed.

Lemma path_str_parts r ps :
  ps <> [] -> path_str (mkPath r ps) = r +:+ str_join "/" ps.
Proof. intros Hps. unfold path_str. simpl. by destruct r, ps. Qed.

Lemma path_str_app r ps qs :
  ps <> [] -> qs <> [] ->
  path_str (mkPath r (ps ++ qs))
  = path_str (mkPath r ps) +:+ "/" +:+ str_join "/" qs.
Proof.
  intros Hps Hqs. rewrite !path_str_parts; [|done|by destruct ps].
  by rewrite str_join_app, str_app_assoc.
Qed.

Lemma leading_slashes_plain name :
  str_contains "/" name = false -> splitroot name = EmptyString.
Proof.
  unfold splitroot. destruct name as [|a name]; [done|]. simpl.
  intros Hno. apply orb_false_iff in Hno as [-> _]. done.
Qed.

Lemma parse_path_plain name :
  name <> EmptyString -> name <> "." -> str_contains "/" name = false ->
  parse_path name = mkPath EmptyString [name].
Proof.
  intros Hne Hdot Hno. unfold parse_path.
  rewrite (leading_slashes_plain _ Hno), (str_split_absent _ _ Hno). simpl.
  unfold is_component.
  destruct (String.eqb_spec name EmptyString); [done|].
  destruct (String.eqb_spec name "."); done.
Qed.

Lemma joinpath_plain p name :
  name <> EmptyString -> name <> "." -> str_contains "/" name = false ->
  joinpath p name = mkPath (path_root p) (path_parts p ++ [name]).
Proof.
  intros Hne Hdot Hno. unfold joinpath.
  by rewrite (parse_path_plain _ Hne Hdot Hno).
Qed.

(** *** The date of a request is a plain folder name *)

Lemma digit_char_not_slash n : Ascii.eqb (digit_char n) "/" = false.
Proof.
  apply Ascii.eqb_neq. intros Heq. apply (f_equal N_of_ascii) in Heq.
  rewrite digit_char_code in Heq.
  pose proof (Z.mod_pos_bound n 10 ltac:(lia)) as Hr.
  set (r := n mod 10) in *. clearbody r. simpl in Heq. lia.
Qed.

Lemma strftime_date_chars d :
  strftime_date d
  = String (digit_char (dt_year d / 1000))
      (String (digit_char (dt_year d / 100))
         (String (digit_char (dt_year d / 10))
            (String (digit_char (dt_year d))
               (String "-"
                  (String (digit_char (dt_month d / 10))
                     (String (digit_char (dt_month d))
                        (String "-"
                           (String (digit_char (dt_day d / 10))
                              (String (digit_char (dt_day d)) "")))))))))
    .
Proof. reflexivity. Qed.

Lemma strftime_date_no_slash d : str_contains "/" (strftime_date d) = false.
Proof.
  rewrite strftime_date_chars. simpl. by rewrite !digit_char_not_slash.
Qed.


(** *** The three folders of a request *)

Lemma is_component_date d : is_component (strftime_date d) = true.
Proof.
  rewrite strftime_date_chars. unfold is_component. simpl.
  by destruct (Ascii.eqb _ _).
Qed.

Ltac split_folder d :=
  unfold parse_path;
  rewrite !str_split_at_sep, (str_split_absent _ _ (strftime_date_no_slash d));
  simpl; by rewrite is_component_date.

Lemma parse_face_folder d :
  parse_path (os_path_join "source" ("face/" +:+ strftime_date d))
  = mkPath EmptyString ["source"; "face"; strftime_date d].
Proof.
  change (os_path_join "source" ("face/" +:+ strftime_date d))
    with ("source" +:+ String "/" ("face" +:+ String "/" (strftime_date d))).
  split_folder d.
Qed.

Lemma parse_swap_folder d :
  parse_path (os_path_join "source" ("swap/" +:+ strftime_date d))
  = mkPath EmptyString ["source"; "swap"; strftime_date d].
Proof.
  change (os_path_join "source" ("swap/" +:+ strftime_date d))
    with ("source" +:+ String "/" ("swap" +:+ String "/" (strftime_date d))).
  split_folder d.
Qed.

Lemma parse_output_folder d :
  parse_path ("output/" +:+ strftime_date d)
  = mkPath EmptyString ["output"; strftime_date d].
Proof.
  change ("output/" +:+ strftime_date d)
    with ("output" +:+ String "/" (strftime_date d)).
  split_folder d.
Qed.

(** The private directory of the extension, [<private_outdir>/roop]. *)
Lemma roop_dir_parts request :
  joinpath (private_outdir request) "roop"
  = mkPath (path_root (private_outdir request))
           (path_parts (private_outdir request) ++ ["roop"]).
Proof. reflexivity. Qed.

Lemma face_folder_str request d :
  face_folder request (strftime_date d)
  = path_str (joinpath (private_outdir request) "roop")
    +:+ "/source/face/" +:+ strftime_date d.
Proof.
  unfold face_folder, source_dir, private_dir_of.
  unfold joinpath at 1. rewrite parse_face_folder. simpl str_truthy. cbv iota.
  rewrite roop_dir_parts. simpl path_root. simpl path_parts.
  rewrite path_str_app by (try done; by destruct (path_parts _)).
  reflexivity.
Qed.

Lemma swap_folder_str request d :
  swap_folder request (strftime_date d)
  = path_str (joinpath (private_outdir request) "roop")
    +:+ "/source/swap/" +:+ strftime_date d.
Proof.
  unfold swap_folder, source_dir, private_dir_of.
  unfold joinpath at 1. rewrite parse_swap_folder. simpl str_truthy. cbv iota.
  rewrite roop_dir_parts. simpl path_root. simpl path_parts.
  rewrite path_str_app by (try done; by destruct (path_parts _)).
  reflexivity.
Qed.

Lemma output_folder_str request d :
  output_folder request (strftime_date d)
  = path_str (joinpath (private_outdir request) "roop")
    +:+ "/output/" +:+ strftime_date d.
Proof.
  unfold output_folder, private_dir_of.
  unfold joinpath at 1. rewrite parse_output_folder. simpl str_truthy. cbv iota.
  rewrite roop_dir_parts. simpl path_root. simpl path_parts.
  rewrite path_str_app by (try done; by destruct (path_parts _)).
  reflexivity.
Qed.

(** The folders of one request are three different paths. *)
Lemma folders_distinct request d :
  NoDup [face_folder request (strftime_date d);
         swap_folder request (strftime_date d);
         output_folder request (strftime_date d)].
Proof.
  rewrite face_folder_str, swap_folder_str, output_folder_str.
  rewrite !NoDup_cons, !not_elem_of_cons.
  split_and!;
    try (intros Heq; apply str_app_inv_l in Heq; discriminate);
    try apply not_elem_of_nil; apply NoDup_nil_2.
Qed.

(** *** Where a request of a plain task id writes *)

Lemma path_str_joinpath_plain dir name :
  path_parts dir <> [] ->
  name <> EmptyString -> name <> "." -> str_contains "/" name = false ->
  path_str (joinpath dir name) = path_str dir +:+ "/" +:+ name.
Proof.
  intros Hparts Hne Hdot Hno. rewrite joinpath_plain by done.
  destruct dir as [r ps]. simpl in *. by rewrite path_str_app.
Qed.

Lemma private_dir_parts request folder :
  path_root (parse_path folder) = EmptyString ->
  path_parts (private_dir_of request folder) <> [].
Proof.
  intros Hrel. unfold private_dir_of. rewrite roop_dir_parts.
  unfold joinpath. rewrite Hrel. simpl.
  by destruct (path_parts (private_outdir request)).
Qed.

Lemma plain_name_component t :
  plain_name t -> t <> EmptyString /\ t <> "." /\ str_contains "/" t = false.
Proof.
  intros (Hne & Hslash & Hdot). split_and!; try done. by intros ->.
Qed.

Lemma plain_name_png t :
  plain_name t ->
  t +:+ ".png" <> EmptyString /\ t +:+ ".png" <> "."
  /\ str_contains "/" (t +:+ ".png") = false.
Proof.
  intros (Hne & Hslash & Hdot). split_and!.
  - by destruct t.
  - destruct t as [|a [|b t]]; done.
  - by rewrite str_contains_app, Hslash.
Qed.

Lemma imghdr_type_no_slash h t :
  imghdr_what h = Some t -> str_contains "/" t = false.
Proof.
  intros Hwhat. apply imghdr_what_names in Hwhat. simpl in Hwhat.
  repeat destruct Hwhat as [<-|Hwhat]; done.
Qed.

Lemma truthy_plain t : plain_name t -> truthy (Some t) = Some t.
Proof. intros (Hne & _). by destruct t. Qed.

Lemma written_touched e p : written_path e = Some p -> In p (touched_paths e).
Proof. destruct e; simpl; try done; intros [= <-]; auto. Qed.

(** The files a source resolution touches are named after the task. *)
Lemma resolver_touches_in_folder request image_source kind d t e p :
  plain_name t ->
  path_root (parse_path (os_path_join "source" (kind +:+ strftime_date d)))
    = EmptyString ->
  resolver_event request image_source (kind +:+ strftime_date d) (Some t) e ->
  In p (touched_paths e) ->
  exists name,
    p = path_str (source_dir request (kind +:+ strftime_date d)) +:+ "/" +:+ name
    /\ stem name = t /\ str_contains "/" name = false.
Proof.
  intros Hplain Hrel He Hp.
  destruct (plain_name_component _ Hplain) as (Hne & Hdot & Hslash).
  destruct Hplain as (_ & _ & Hnodot). unfold source_dir.
  set (dir := private_dir_of request
                (os_path_join "source" (kind +:+ strftime_date d))) in *.
  assert (path_str (joinpath dir t) = path_str dir +:+ "/" +:+ t) as Hdest.
  { apply path_str_joinpath_plain; try done.
    by apply private_dir_parts. }
  assert (forall name, stored_name (Some t) name -> name = t) as Hname.
  { intros name. unfold stored_name. by rewrite truthy_plain. }
  assert (forall h file_type, imghdr_what h = Some file_type ->
    exists name,
      (path_str dir +:+ "/" +:+ t) +:+ "." +:+ file_type
      = path_str dir +:+ "/" +:+ name
      /\ stem name = t /\ str_contains "/" name = false) as Hext.
  { intros h file_type Ewhat. exists (t +:+ "." +:+ file_type).
    rewrite !str_app_assoc.
    split_and!; [done|by apply stem_with_extension|].
    by rewrite !str_contains_app, Hslash, (imghdr_type_no_slash _ _ Ewhat). }
  assert (exists name,
             path_str dir +:+ "/" +:+ t = path_str dir +:+ "/" +:+ name
             /\ stem name = t /\ str_contains "/" name = false) as Hbare.
  { exists t. split_and!; [done|by apply stem_plain|done]. }
  destruct He as [s Hs| |payload Hpayload|payload name data Henc Hstored dest
                 |url name e Henc Hurl Hstored He]; simpl in Hp; try done.
  - destruct Hp as [<-|[]]. apply Hname in Hstored as ->. subst dest.
    fold dir. rewrite Hdest.
    destruct (imghdr_what data) as [file_type|] eqn:Ewhat; eauto.
  - apply Hname in Hstored as ->. fold dir in He. rewrite Hdest in He.
    destruct He as [|data| |h image_type Ewhat]; simpl in Hp; try done.
    + by destruct Hp as [<-|[]].
    + rewrite splitext_plain in Hp by done. simpl in Hp.
      destruct Hp as [<-|[<-|[]]]; eauto.
Qed.

Lemma satisfies_image_open path P :
  satisfies (image_open path) (fun _ => True) P.
Proof.
  intros w. rewrite image_open_frame. split; simpl; [done|]. done.
Qed.

Lemma satisfies_image_save img path (P : event -> Prop) :
  P (EvImageSave (path_str path)) ->
  satisfies (image_save img path) (fun _ => True) P.
Proof.
  intros Hp. unfold image_save.
  destruct (String.eqb _ _); [|apply satisfies_raise].
  intros w. destruct (can_write w (path_str path)); simpl.
  - split; [by intros ? [<-|[]]|]. done.
  - split; [done|]. done.
Qed.

Lemma satisfies_events {A} (m : M A) Q P w :
  satisfies m Q P -> forall e, In e (events_of (m w)) -> P e.
Proof. intros Hm. by destruct (Hm w). Qed.

(** Every file a request of a plain task id leaves behind is a file of one
    of its three folders, named after the task. *)
Lemma handler_writes request (roop_options : RoopOptions float) w p :
  plain_name (task_id roop_options) ->
  In p (written_paths (events_of (run_roop_on_single_image request
                                    roop_options w))) ->
  task_path request (task_id roop_options)
    (strftime_date (wall_clock (clock_reads w))) p.
Proof.
  intros Hplain Hin. unfold written_paths in Hin.
  apply list_elem_of_In, list_elem_of_omap in Hin as (e & He & Hp).
  apply list_elem_of_In in He. revert e He p Hp.
  set (d := wall_clock (clock_reads w)). set (t := task_id roop_options) in *.
  unfold run_roop_on_single_image.
  rewrite (bind_run _ _ w d (tick w) [EvNow d]) by done.
  intros e [<-|He]; [done|]. rewrite app_nil_l in He. revert e He. fold t.
  set (P := fun e => forall p, written_path e = Some p ->
                     task_path request t (strftime_date d) p).
  match goal with
  | |- forall e, In e ?evs -> _ => change (forall e, In e evs -> P e)
  end.
  apply satisfies_events with (Q := fun _ => True). subst P.
  eapply satisfies_bind with (Q := fun _ => True).
  { eapply satisfies_weaken; [apply resolver_footprint|done|].
    intros e He p Hp.
    destruct (resolver_touches_in_folder _ _ "face/" _ _ _ _ Hplain
                ltac:(by rewrite parse_face_folder) He (written_touched _ _ Hp))
      as (name & -> & Hstem & Hslash).
    exists (face_folder request (strftime_date d)), name.
    split_and!; try done. by left. }
  intros face_image _.
  eapply satisfies_bind with (Q := fun _ => True).
  { eapply satisfies_weaken; [apply resolver_footprint|done|].
    intros e He p Hp.
    destruct (resolver_touches_in_folder _ _ "swap/" _ _ _ _ Hplain
                ltac:(by rewrite parse_swap_folder) He (written_touched _ _ Hp))
      as (name & -> & Hstem & Hslash).
    exists (swap_folder request (strftime_date d)), name.
    split_and!; try done. right. by left. }
  intros swap_image _.
  eapply satisfies_bind; [apply satisfies_image_open|]. intros face _.
  eapply satisfies_bind; [apply satisfies_image_open|]. intros swap _.
  eapply satisfies_bind with (Q := fun _ => True);
    [by apply satisfies_emit|]. intros _ _.
  destruct (result_image _) as [result|]; [|apply satisfies_raise].
  eapply satisfies_bind; [by apply satisfies_get_private_path|].
  intros output_filepath ->.
  eapply satisfies_bind with (Q := fun _ => True).
  { apply satisfies_image_save. intros p [= <-].
    destruct (plain_name_png _ Hplain) as (Hne & Hdot & Hslash).
    exists (output_folder request (strftime_date d)), (t +:+ ".png").
    split_and!; try done.
    - apply path_str_joinpath_plain; try done.
      apply private_dir_parts. by rewrite parse_output_folder.
    - destruct Hplain as (_ & _ & Hnodot).
      by apply (stem_with_extension t "png").
    - right. right. by left. }
  intros _ _.
  eapply satisfies_bind with (Q := fun _ => True);
    [by apply satisfies_datetime_now|].
  intros finish _. by apply satisfies_ret.
Qed.

Lemma task_path_stem request task date p :
  task_path request task date p -> stem (basename p) = task.
Proof.
  intros (folder & name & -> & Hstem & Hslash & _).
  by rewrite basename_at_sep.
Qed.

(** C9, as the code has it.  Two requests whose task ids are plain file
    names (not empty, without [/] and without [.]) and differ never leave a
    file at the same path, whoever the callers and whatever the dates:
    every file a request leaves behind lies in one of its three folders
    (face, swap, output; three different paths), under a name whose stem is
    the task id. *)
Theorem plain_task_ids_never_collide request1 request2
    (options1 options2 : RoopOptions float) w1 w2 :
  plain_name (task_id options1) ->
  plain_name (task_id options2) ->
  task_id options1 <> task_id options2 ->
  let o1 := run_roop_on_single_image request1 options1 w1 in
  let o2 := run_roop_on_single_image request2 options2 w2 in
  let date1 := strftime_date (wall_clock (clock_reads w1)) in
  let date2 := strftime_date (wall_clock (clock_reads w2)) in
  (forall p1 p2,
      In p1 (written_paths (events_of o1)) ->
      In p2 (written_paths (events_of o2)) ->
      p1 <> p2)
  /\ (forall p, In p (written_paths (events_of o1)) ->
                task_path request1 (task_id options1) date1 p)
  /\ (forall p, In p (written_paths (events_of o2)) ->
                task_path request2 (task_id options2) date2 p)
  /\ NoDup [face_folder request1 date1; swap_folder request1 date1;
            output_folder request1 date1]
  /\ NoDup [face_folder request2 date2; swap_folder request2 date2;
            output_folder request2 date2].
Proof.
  intros Hplain1 Hplain2 Hne o1 o2 date1 date2. split_and!.
  - intros p1 p2 Hp1 Hp2 Heq.
    apply handler_writes in Hp1, Hp2; try done.
    apply task_path_stem in Hp1, Hp2. congruence.
  - intros p. by apply handler_writes.
  - intros p. by apply handler_writes.
  - apply folders_distinct.
  - apply folders_distinct.
Qed.

(** *** Files change only where an effect touches them *)

Lemma frames_files_ret {A} (a : A) : frames_files (ret a).
Proof. by intros w p _. Qed.

Lemma frames_files_raise {A} x : frames_files (@raise A x).
Proof. by intros w p _. Qed.

Lemma frames_files_emit e : frames_files (emit e).
Proof. by intros w p _. Qed.

Lemma frames_files_bind {A B} (m : M A) (k : A -> M B) :
  frames_files m -> (forall a, frames_files (k a)) -> frames_files (bind m k).
Proof.
  intros Hm Hk w p Hp. specialize (Hm w p).
  destruct (m w) as [[[a|x] w1] ev1] eqn:E.
  - rewrite (bind_ok _ _ _ _ _ _ E) in Hp |- *.
    change (files (world_of (k a w1)) !! p = files w !! p).
    change (forall e, In e (ev1 ++ events_of (k a w1)) -> ~ In p (touched_paths e))
      in Hp.
    rewrite (Hk a w1 p).
    + apply Hm. intros e He. apply Hp, in_or_app. by left.
    + intros e He. apply Hp, in_or_app. by right.
  - rewrite (bind_raise _ _ _ _ _ _ E) in Hp |- *. by apply Hm.
Qed.

Lemma frames_files_path_exists p : frames_files (path_exists p).
Proof. by intros w q _. Qed.

Lemma frames_files_mkdir_parents d : frames_files (mkdir_parents d).
Proof. intros w q _. unfold mkdir_parents. by destruct (existsb _ _). Qed.

Lemma frames_files_write_file p data : frames_files (write_file p data).
Proof.
  intros w q Hq. unfold write_file in *.
  destruct (can_write w p); [|done]. simpl in *.
  apply lookup_insert_ne. intros ->. apply (Hq _ (or_introl eq_refl)). by left.
Qed.

Lemma frames_files_os_rename src dst : frames_files (os_rename src dst).
Proof.
  intros w q Hq. unfold os_rename in *.
  destruct (files w !! src); [destruct (can_write w dst)|]; try done.
  simpl in *.
  assert (q <> src /\ q <> dst) as [Hsrc Hdst].
  { split; intros ->; apply (Hq _ (or_introl eq_refl)); simpl; auto. }
  by rewrite lookup_insert_ne, lookup_delete_ne.
Qed.

Lemma frames_files_read_file p : frames_files (read_file p).
Proof. intros w q _. unfold read_file. by destruct (files w !! p). Qed.

Lemma frames_files_uuid4_str : frames_files uuid4_str.
Proof. by intros w q _. Qed.

Lemma frames_files_datetime_now : frames_files datetime_now.
Proof. by intros w q _. Qed.

Create HintDb files.
#[local] Hint Resolve frames_files_ret frames_files_raise frames_files_emit
  frames_files_path_exists frames_files_mkdir_parents frames_files_write_file
  frames_files_os_rename frames_files_read_file frames_files_uuid4_str
  frames_files_datetime_now : files.

Ltac files_step :=
  first [ apply frames_files_bind; [|intros ?]
        | progress auto with files
        | match goal with
          | |- frames_files (match ?x with _ => _ end) => destruct x
          | |- frames_files (let '(_, _) := ?x in _) => destruct x
          end ].

Lemma frames_files_get_private_path request folder filename :
  frames_files (get_private_path request folder filename).
Proof. unfold get_private_path. repeat files_step. Qed.

Lemma frames_files_download_image url output_path :
  frames_files (download_image url output_path).
Proof.
  unfold download_image, http_get_content, imghdr_what_file, logger_warning.
  repeat files_step.
Qed.

Lemma frames_files_resolver request image_source folder filename :
  frames_files (download_image_if_needed request image_source folder filename).
Proof.
  unfold download_image_if_needed, base64_b64decode.
  repeat first [ apply frames_files_get_private_path
               | apply frames_files_download_image
               | files_step ].
Qed.

Lemma frames_files_image_open path : frames_files (image_open path).
Proof. unfold image_open. repeat files_step. Qed.

Lemma frames_files_image_save img path : frames_files (image_save img path).
Proof.
  unfold image_save. destruct (String.eqb _ _); [|apply frames_files_raise].
  intros w q Hq. cbv beta zeta in *.
  destruct (can_write w (path_str path)); [|done]. simpl in *.
  apply lookup_insert_ne. intros <-. apply (Hq _ (or_introl eq_refl)). by left.
Qed.

Lemma frames_files_handler request (roop_options : RoopOptions float) :
  frames_files (run_roop_on_single_image request roop_options).
Proof.
  unfold run_roop_on_single_image.
  repeat first [ apply frames_files_resolver
               | apply frames_files_image_open
               | apply frames_files_image_save
               | apply frames_files_get_private_path
               | files_step ].
Qed.

(** *** [splitext] stays within the folder of a path *)

Lemma substring_app_prefix (a b : string) n :
  String.substring 0 (String.length a + n) (a +:+ b)
  = a +:+ String.substring 0 n b.
Proof.
  induction a as [|x a IH]; [done|].
  rewrite !str_app_cons. simpl. by rewrite IH.
Qed.

Lemma splitext_base_in_folder x name :
  str_contains "/" name = false ->
  exists base, (splitext (x +:+ "/" +:+ name)).1 = x +:+ "/" +:+ base.
Proof.
  intros Hslash. unfold splitext, rfind.
  change (x +:+ "/" +:+ name) with (x +:+ String "/" name).
  rewrite (rfind_from_app "/"). simpl rfind_from.
  rewrite (rfind_from_absent _ _ _ _ Hslash).
  set (dotIndex := rfind_from "." (x +:+ String "/" name) 0 (-1)).
  destruct (Z.ltb_spec (0 + Z.of_nat (String.length x)) dotIndex) as [Hlt|_];
    simpl andb; [|by exists name].
  destruct (splitext_scan _ _ _); [|by exists name]. simpl.
  unfold str_take.
  replace (Z.to_nat dotIndex)
    with (String.length x + S (Z.to_nat dotIndex - String.length x - 1))%nat
    by lia.
  rewrite substring_app_prefix. simpl. eauto.
Qed.

(** The files a source resolution touches lie in the folder of the source,
    whatever dots the task id has. *)
Lemma resolver_touches_under_folder request image_source kind d t e p :
  path_component t ->
  path_root (parse_path (os_path_join "source" (kind +:+ strftime_date d)))
    = EmptyString ->
  resolver_event request image_source (kind +:+ strftime_date d) (Some t) e ->
  In p (touched_paths e) ->
  exists name,
    p = path_str (source_dir request (kind +:+ strftime_date d)) +:+ "/" +:+ name.
Proof.
  intros (Hne & Hdot & Hslash) Hrel He Hp. unfold source_dir.
  set (dir := private_dir_of request
                (os_path_join "source" (kind +:+ strftime_date d))) in *.
  assert (path_str (joinpath dir t) = path_str dir +:+ "/" +:+ t) as Hdest.
  { apply path_str_joinpath_plain; try done. by apply private_dir_parts. }
  assert (forall name, stored_name (Some t) name -> name = t) as Hname.
  { intros name. unfold stored_name. by destruct t. }
  destruct He as [s Hs| |payload Hpayload|payload name data Henc Hstored dest
                 |url name e Henc Hurl Hstored He]; simpl in Hp; try done.
  - destruct Hp as [<-|[]]. apply Hname in Hstored as ->. subst dest.
    fold dir. rewrite Hdest.
    destruct (imghdr_what data) as [file_type|]; [|by exists t].
    exists (t +:+ "." +:+ file_type). by rewrite !str_app_assoc.
  - apply Hname in Hstored as ->. fold dir in He. rewrite Hdest in He.
    destruct He as [|data| |h image_type Ewhat]; simpl in Hp; try done.
    + destruct Hp as [<-|[]]. by exists t.
    + destruct (splitext_base_in_folder (path_str dir) t Hslash)
        as (base & Hbase).
      destruct Hp as [<-|[<-|[]]]; [by exists t|].
      rewrite Hbase. exists (base +:+ "." +:+ image_type).
      by rewrite !str_app_assoc.
Qed.

(** *** A failed swap leaves the output folder alone *)

Lemma face_path_not_output request d name rest :
  face_folder request (strftime_date d) +:+ "/" +:+ name
  <> output_folder request (strftime_date d) +:+ "/" +:+ rest.
Proof.
  rewrite face_folder_str, output_folder_str, !str_app_assoc.
  intros Heq. apply str_app_inv_l in Heq. discriminate.
Qed.

Lemma swap_path_not_output request d name rest :
  swap_folder request (strftime_date d) +:+ "/" +:+ name
  <> output_folder request (strftime_date d) +:+ "/" +:+ rest.
Proof.
  rewrite swap_folder_str, output_folder_str, !str_app_assoc.
  intros Heq. apply str_app_inv_l in Heq. discriminate.
Qed.

Lemma resolver_mkdir request image_source folder filename w dir :
  In (EvMkdir dir)
     (events_of (download_image_if_needed request image_source folder
                   filename w)) ->
  dir = path_str (source_dir request folder).
Proof.
  intros Hin.
  apply (resolver_footprint request image_source folder filename w) in Hin.
  inversion Hin as [| | | |url name e Henc Hurl Hname He Heq]; subst; [done|].
  inversion He.
Qed.

(** C2, as the code has it.  When the swap call yields no result image, the
    handler fails with the HTTP 400 "Roop process image failed", and it
    stops there: its effects end with the swap call, the world is left as
    the two source resolutions left it, no image is saved and the output
    folder is not made.  When the task id is a single path component (not
    empty, not [.], without [/]), no file under the output folder is created
    or changed. *)
Theorem swap_without_image_fails request (roop_options : RoopOptions float) w
    face_path swap_path face swap :
  let start := wall_clock (clock_reads w) in
  let date := strftime_date start in
  let o1 := download_image_if_needed request (source_image roop_options)
              ("face/" +:+ date) (Some (task_id roop_options)) (tick w) in
  let o2 := download_image_if_needed request (swap_image roop_options)
              ("swap/" +:+ date) (Some (task_id roop_options)) (world_of o1) in
  result_of o1 = Ok face_path ->
  result_of o2 = Ok swap_path ->
  result_of (image_open face_path (world_of o2)) = Ok face ->
  result_of (image_open swap_path (world_of o2)) = Ok swap ->
  result_image (swap_face face swap (model roop_options)
                  {[ face_index roop_options ]}
                  (upscale_options roop_options)) = None ->
  let o := run_roop_on_single_image request roop_options w in
  result_of o = Raise (HTTPException 400 "Roop process image failed")
  /\ world_of o = world_of o2
  /\ events_of o
     = (EvNow start :: events_of o1 ++ events_of o2 ++ [EvSwapFace])%list
  /\ (forall p, ~ In (EvImageSave p) (events_of o))
  /\ ~ In (EvMkdir (output_folder request date)) (events_of o)
  /\ (path_component (task_id roop_options) ->
      forall rest,
        files (world_of o) !! (output_folder request date +:+ "/" +:+ rest)
        = files w !! (output_folder request date +:+ "/" +:+ rest)).
Proof.
  intros start date o1 o2 H1 H2 H3 H4 Hnone o. subst o.
  rewrite (handler_run _ _ _ _ _ _ _ H1 H2 H3 H4). fold start date o1 o2.
  rewrite Hnone. unfold after_events, raise, result_of, world_of, events_of.
  simpl. rewrite app_nil_r.
  pose proof (folders_distinct request start) as Hfolders. fold date in Hfolders.
  rewrite !NoDup_cons, !not_elem_of_cons in Hfolders.
  destruct Hfolders as ((_ & Hface & _) & (Hswap & _) & _).
  split_and!; try done.
  - intros p [Hin|Hin]; [done|].
    apply in_app_or in Hin as [Hin|Hin];
      [by apply resolver_never_saves in Hin|].
    apply in_app_or in Hin as [Hin|Hin];
      [by apply resolver_never_saves in Hin|].
    by destruct Hin as [|[]].
  - intros [Hin|Hin]; [done|].
    apply in_app_or in Hin as [Hin|Hin];
      [apply resolver_mkdir in Hin; by apply Hface|].
    apply in_app_or in Hin as [Hin|Hin];
      [apply resolver_mkdir in Hin; by apply Hswap|].
    by destruct Hin as [|[]].
  - intros Hplain rest.
    change (files (world_of o2) !! (output_folder request date +:+ "/" +:+ rest)
            = files (tick w) !! (output_folder request date +:+ "/" +:+ rest)).
    unfold o2. rewrite frames_files_resolver.
    + unfold o1. rewrite frames_files_resolver; [done|].
      intros e He Hp.
      apply (resolver_footprint _ _ _ _ (tick w)) in He.
      destruct (resolver_touches_under_folder _ _ "face/" _ _ _ _ Hplain
                  ltac:(by rewrite parse_face_folder) He Hp)
        as (name & Heq). symmetry in Heq.
      by apply face_path_not_output in Heq.
    + intros e He Hp.
      apply (resolver_footprint _ _ _ _ (world_of o1)) in He.
      destruct (resolver_touches_under_folder _ _ "swap/" _ _ _ _ Hplain
                  ltac:(by rewrite parse_swap_folder) He Hp)
        as (name & Heq). symmetry in Heq.
      by apply swap_path_not_output in Heq.
Qed.

(** ** Further properties of the module *)

(** *** The private path builder: what it leaves behind *)

Lemma str_app_empty (a b : string) :
  a +:+ b = EmptyString -> a = EmptyString /\ b = EmptyString.
Proof. destruct a; [done|]. by rewrite str_app_cons. Qed.

Lemma str_join_empty ps :
  str_join "/" ps = EmptyString -> forall x, In x ps -> x = EmptyString.
Proof.
  induction ps as [|x [|y ps] IH]; intros Hjoin z Hin.
  - done.
  - by destruct Hin as [<-|[]].
  - change (x +:+ "/" +:+ str_join "/" (y :: ps) = EmptyString) in Hjoin.
    apply str_app_empty in Hjoin as [_ Hrest]. done.
Qed.

Lemma private_dir_str request folder :
  path_root (parse_path folder) = EmptyString ->
  path_str (private_dir_of request folder) <> EmptyString.
Proof.
  intros Hrel Hempty.
  pose proof (private_dir_parts request folder Hrel) as Hparts.
  unfold private_dir_of in *. rewrite roop_dir_parts in *.
  unfold joinpath in *. rewrite Hrel in *. simpl in *.
  rewrite path_str_parts in Hempty by done.
  apply str_app_empty in Hempty as [_ Hjoin].
  assert ("roop" = EmptyString) as Hroop; [|done].
  apply (str_join_empty _ Hjoin). rewrite !in_app_iff. simpl. auto.
Qed.

Lemma path_prefixes_last r pre rest :
  rest <> [] ->
  In (path_str (mkPath r (pre ++ rest))) (path_prefixes r pre rest).
Proof.
  revert pre. induction rest as [|x rest IH]; intros pre Hne; [done|].
  simpl. destruct rest as [|y rest]; [by left|].
  right. rewrite (cons_middle x), app_assoc. by apply IH.
Qed.

Lemma path_in_parents p :
  path_parts p <> [] -> In (path_str p) (path_and_parents p).
Proof.
  intros Hne. destruct p as [r ps]. by apply (path_prefixes_last r [] ps).
Qed.

(** X1. In a folder given by a relative path, a call of [get_private_path]
    that returns leaves something at the path of the folder: the directory,
    which it makes with its ancestors when nothing was there, or whatever
    stood there before.  The test of the code is [exists()], which a regular
    file satisfies as well: when one stands at the path of the folder the
    call returns all the same, makes nothing, and the path is no directory
    afterwards; in every other case the folder is a directory afterwards.
    The path returned is the file name joined to the folder, no file was
    touched and no directory removed, and any further call for the same
    folder finds it there and does nothing at all. *)
Theorem get_private_path_prepares request folder filename w p :
  path_root (parse_path folder) = EmptyString ->
  let d := private_dir_of request folder in
  let o := get_private_path request folder filename w in
  result_of o = Ok p ->
  p = joinpath d filename
  /\ os_path_exists (world_of o) (path_str d) = true
  /\ (is_file w (path_str d) = false -> is_dir (world_of o) (path_str d) = true)
  /\ (is_file w (path_str d) = true ->
      o = (Ok p, w, [])
      /\ is_dir (world_of o) (path_str d) = is_dir w (path_str d))
  /\ files (world_of o) = files w
  /\ dirs w ⊆ dirs (world_of o)
  /\ forall again,
       get_private_path request folder again (world_of o)
       = (Ok (joinpath d again), world_of o, []).
Proof.
  intros Hrel d o Hres. subst o. rewrite get_private_path_run in *.
  cbv zeta in *. fold d in Hres |- *.
  unfold result_of, world_of in *.
  assert (str_truthy (path_str d) = true) as Hname.
  { destruct (path_str d) eqn:Hstr; [|done].
    by apply (private_dir_str request folder) in Hstr. }
  destruct (os_path_exists w (path_str d)) eqn:Hex.
  - simpl in *. injection Hres as <-. split_and!; try done.
    + intros Hfile. unfold os_path_exists in Hex.
      by rewrite Hname, Hfile in Hex.
    + intros again. rewrite get_private_path_run. cbv zeta. fold d.
      by rewrite Hex.
  - destruct (existsb _ _) eqn:Hblocked; [done|]. simpl in *.
    injection Hres as <-.
    assert (is_dir (set_dirs w (dirs w ∪ list_to_set (path_and_parents d)))
              (path_str d) = true) as Hdir.
    { unfold is_dir. simpl. apply bool_decide_eq_true.
      apply elem_of_union_r, elem_of_list_to_set, list_elem_of_In,
        path_in_parents.
      by apply private_dir_parts. }
    assert (os_path_exists
              (set_dirs w (dirs w ∪ list_to_set (path_and_parents d)))
              (path_str d) = true) as Hnow.
    { unfold os_path_exists. rewrite Hname, Hdir. apply orb_true_r. }
    split_and!; try done.
    + intros Hfile. unfold os_path_exists in Hex.
      by rewrite Hname, Hfile in Hex.
    + set_solver.
    + intros again. rewrite get_private_path_run. cbv zeta. fold d.
      by rewrite Hnow.
Qed.

(** *** An absolute file name *)

Lemma splitroot_absolute s :
  str_startswith_char s "/" = true -> str_truthy (splitroot s) = true.
Proof.
  destruct s as [|c s]; [done|]. simpl. intros Hc. unfold splitroot. simpl.
  rewrite Hc. by destruct (leading_slashes s) as [|[|n]].
Qed.

(** X2. A file name that starts with [/] is not placed in the private
    folder: the path [get_private_path] returns is the file name's own
    path, whoever the caller and whatever the folder, although the folder
    is prepared all the same. *)
Theorem absolute_filename_leaves_private_dir request folder filename w p :
  str_startswith_char filename "/" = true ->
  let o := get_private_path request folder filename w in
  result_of o = Ok p ->
  p = parse_path filename
  /\ str_truthy (path_root p) = true
  /\ world_of o = prepared w (private_dir_of request folder).
Proof.
  intros Habs o Hres. subst o. rewrite get_private_path_run in *.
  cbv zeta in *. unfold prepared, result_of, world_of in *.
  assert (joinpath (private_dir_of request folder) filename
          = parse_path filename) as Hjoin.
  { unfold joinpath. simpl. by rewrite (splitroot_absolute _ Habs). }
  rewrite Hjoin in *.
  destruct (os_path_exists w _).
  - simpl in *. injection Hres as <-. split_and!; try done.
    by apply splitroot_absolute.
  - destruct (existsb _ _); [done|]. simpl in *. injection Hres as <-.
    split_and!; try done. by apply splitroot_absolute.
Qed.

(** *** [download_image], when it returns *)

Lemma after_events_nil {A} (o : Res A * World * list event) :
  after_events [] o = o.
Proof. by destruct o as [[??]?]. Qed.

Lemma bind_run_raise {A B} (m : M A) (k : A -> M B) w e :
  result_of (m w) = Raise e ->
  bind m k w = (Raise e, world_of (m w), events_of (m w)).
Proof.
  intros Hres. destruct (m w) as [[r w1] ev1] eqn:E.
  unfold result_of in Hres. simpl in Hres. subst r.
  by rewrite (bind_raise _ _ _ _ _ _ E).
Qed.

(** A bind that returns ran its first part to a value. *)
Lemma bind_ok_inv {A B} (m : M A) (k : A -> M B) w b :
  result_of (bind m k w) = Ok b ->
  exists a, result_of (m w) = Ok a
            /\ bind m k w = after_events (events_of (m w)) (k a (world_of (m w))).
Proof.
  intros Hres. destruct (result_of (m w)) as [a|e] eqn:E.
  - exists a. split; [done|]. by apply bind_run_result.
  - by rewrite (bind_run_raise _ _ _ _ E) in Hres.
Qed.

Lemma http_get_content_failed url w :
  reply_failed (requests_get url) = true ->
  http_get_content url w = (Raise RequestException, w, [EvHttpGet url]).
Proof.
  unfold reply_failed, http_get_content, bind, emit, raise.
  destruct (requests_get url) as [|status content]; [done|]. by intros ->.
Qed.

(** What a download that returns has done. *)
Lemma download_image_ok url output_path w p :
  result_of (download_image url output_path w) = Ok p ->
  exists status content,
    requests_get url = Response status content
    /\ (400 <=? status) && (status <? 600) = false
    /\ can_write w output_path = true
    /\ ((p = output_path
         /\ world_of (download_image url output_path w)
            = set_files w (<[output_path := content]> (files w)))
        \/ (exists image_type,
              imghdr_what (firstn 32 content) = Some image_type
              /\ p = (splitext output_path).1 +:+ "." +:+ image_type
              /\ p <> output_path
              /\ can_write w p = true
              /\ world_of (download_image url output_path w)
                 = set_files w (<[p := content]>
                     (delete output_path
                        (<[output_path := content]> (files w)))))).
Proof.
  intros Hres.
  destruct (reply_failed (requests_get url)) eqn:Hfailed.
  { unfold download_image in Hres.
    by rewrite (bind_raise _ _ _ _ _ _ (http_get_content_failed _ w Hfailed))
      in Hres. }
  destruct (requests_get url) as [|status content] eqn:Hreply; [done|].
  simpl in Hfailed.
  destruct (can_write w output_path) eqn:Hcan.
  2:{ unfold download_image in Hres.
      rewrite (bind_run _ _ _ _ _ _
                 (http_get_content_run _ _ _ _ Hreply Hfailed)) in Hres.
      assert (write_file output_path content w = (Raise OSError, w, []))
        as Hwrite by (unfold write_file; by rewrite Hcan).
      by rewrite (bind_raise _ _ _ _ _ _ Hwrite) in Hres. }
  exists status, content. split_and!; try done.
  rewrite (download_image_run _ _ _ _ _ Hreply Hfailed Hcan) in *.
  cbv zeta in *.
  destruct (imghdr_what (firstn 32 content)) as [image_type|] eqn:Ewhat.
  - destruct (String.eqb_spec (str_tail (splitext output_path).2) image_type)
      as [Eext|Next]; simpl negb in *; cbv iota in *.
    + left. unfold after_events, ret, result_of, world_of in *. simpl in *.
      by injection Hres as <-.
    + right. exists image_type.
      set (renamed := (splitext output_path).1 +:+ "." +:+ image_type) in *.
      set (w1 := set_files w (<[output_path := content]> (files w))) in *.
      assert (files w1 !! output_path = Some content) as Hfile
        by apply lookup_insert_eq.
      destruct (can_write w1 renamed) eqn:Hcan1.
      * rewrite (bind_run _ _ _ _ _ _ (os_rename_run _ _ _ _ Hfile Hcan1))
          in *.
        unfold after_events, ret, result_of, world_of in *. simpl in *.
        injection Hres as <-. split_and!; try done.
        by apply renamed_differs.
      * assert (os_rename output_path renamed w1 = (Raise OSError, w1, []))
          as Hrename by (unfold os_rename; by rewrite Hfile, Hcan1).
        rewrite (bind_raise _ _ _ _ _ _ Hrename) in Hres. done.
  - left. unfold after_events, ret, result_of, world_of in *. simpl in *.
    by injection Hres as <-.
Qed.

(** X3. Whenever [download_image] returns a path, the body of the response
    is the content of the file at that path; the path is the destination
    or, after a rename, another one, and then nothing is left at the
    destination; no other file and no directory has changed. *)
Theorem download_image_returns_content url output_path w p :
  let o := download_image url output_path w in
  result_of o = Ok p ->
  exists status content,
    requests_get url = Response status content
    /\ files (world_of o) !! p = Some content
    /\ (p <> output_path -> files (world_of o) !! output_path = None)
    /\ (forall q, q <> p -> q <> output_path ->
          files (world_of o) !! q = files w !! q)
    /\ dirs (world_of o) = dirs w.
Proof.
  intros o Hres. subst o.
  destruct (download_image_ok _ _ _ _ Hres)
    as (status & content & Hreply & _ & _ & Hcases).
  exists status, content. split; [done|].
  destruct Hcases as [[-> ->]|(t & _ & Hp & Hne & _ & ->)]; simpl.
  - split_and!; try done.
    + apply lookup_insert_eq.
    + intros q Hq _. by rewrite lookup_insert_ne.
  - split_and!; try done.
    + apply lookup_insert_eq.
    + intros _. rewrite lookup_insert_ne by done. apply lookup_delete_eq.
    + intros q Hq Hq'.
      by rewrite lookup_insert_ne, lookup_delete_ne, lookup_insert_ne.
Qed.

(** *** The resolver past its local-file test *)

Lemma resolver_stored_run request image_source folder filename w :
  is_none (image_url image_source) && is_none (encoded_image image_source)
    && is_none (image_filepath image_source) = false ->
  local_file w image_source = None ->
  download_image_if_needed request image_source folder filename w
  = resolver_prefix request folder filename (resolver_branch image_source) w.
Proof.
  intros Hsome Hlocal. unfold download_image_if_needed. rewrite Hsome.
  rewrite (bind_run _ _ _ _ _ _ (local_step_run image_source w)), Hlocal.
  by rewrite after_events_nil.
Qed.

Lemma truthy_not_none o s : truthy o = Some s -> is_none o = false.
Proof. by destruct o. Qed.

(** The folder cannot be prepared: nothing but the choice of a name has
    happened when the resolver fails. *)
Lemma resolver_prefix_blocked request folder filename k w :
  mkdir_blocked w (source_dir request folder) = true ->
  let o := resolver_prefix request folder filename k w in
  result_of o = Raise OSError
  /\ files (world_of o) = files w
  /\ dirs (world_of o) = dirs w
  /\ forall e, In e (events_of o) -> exists s, e = EvUuid4 s.
Proof.
  intros Hblocked o. subst o. unfold mkdir_blocked, source_dir in Hblocked.
  apply andb_true_iff in Hblocked as [Hex Hfile].
  apply negb_true_iff in Hex.
  set (dir := private_dir_of request (os_path_join "source" folder)) in *.
  assert (forall name w0,
    files w0 = files w -> dirs w0 = dirs w ->
    bind (get_private_path request (os_path_join "source" folder) name) k w0
    = (Raise OSError, w0, [])) as Hstep.
  { intros name w0 Hf Hd. apply bind_raise.
    rewrite get_private_path_run. cbv zeta. fold dir.
    assert (os_path_exists w0 (path_str dir) = false) as ->
      by (unfold os_path_exists, is_file, is_dir in *; by rewrite Hf, Hd).
    assert (existsb (is_file w0) (path_and_parents dir) = true) as ->; [|done].
    rewrite <- Hfile. f_equal. unfold is_file. by rewrite Hf. }
  unfold resolver_prefix. destruct (truthy filename) as [given|].
  - rewrite bind_ret, Hstep by done. by split_and!.
  - rewrite (bind_run _ _ _ (uuid4 (uuid_draws w))
               (mkWorld (files w) (dirs w) (clock_reads w) (S (uuid_draws w)))
               [EvUuid4 (uuid4 (uuid_draws w))]) by done.
    rewrite Hstep by done.
    unfold after_events, result_of, world_of, events_of. simpl.
    split_and!; try done. intros e [<-|[]]. eauto.
Qed.

(** X4. When nothing exists at the path of the folder of the source and a
    regular file stands where one of its ancestors should be, the resolver
    fails with the error of the filesystem, raised by the [mkdir]: nothing
    is decoded, requested or written, and neither the files nor the
    directories have changed.  (A regular file at the path of the folder
    itself is another matter: [exists()] is then true and no [mkdir] is
    tried.) *)
Theorem blocked_folder_raises request image_source folder filename w
    ancestor :
  is_none (image_url image_source) && is_none (encoded_image image_source)
    && is_none (image_filepath image_source) = false ->
  local_file w image_source = None ->
  os_path_exists w (path_str (source_dir request folder)) = false ->
  In ancestor (path_and_parents (source_dir request folder)) ->
  is_file w ancestor = true ->
  let o := download_image_if_needed request image_source folder filename w in
  result_of o = Raise OSError
  /\ files (world_of o) = files w
  /\ dirs (world_of o) = dirs w
  /\ forall e, In e (events_of o) -> exists s, e = EvUuid4 s.
Proof.
  intros Hsome Hlocal Hex Hin Hfile o. subst o.
  rewrite (resolver_stored_run _ _ _ _ _ Hsome Hlocal).
  apply resolver_prefix_blocked. unfold mkdir_blocked. rewrite Hex. simpl.
  apply existsb_exists. eauto.
Qed.

(** X5. A payload that [base64.b64decode] refuses makes the resolver fail
    with the error of the library, once the folder is prepared: a plain
    [ValueError] when the payload is not ASCII, [binascii.Error] otherwise.
    No file is written, and the URL of the source, if it has one, is not
    tried instead.  (The decoder is lenient: it skips the characters that
    are not of the alphabet, so that it refuses far less than the strings
    that are no base64.) *)
Theorem malformed_payload_raises request image_source folder filename w
    payload :
  local_file w image_source = None ->
  truthy (encoded_image image_source) = Some payload ->
  b64decode payload = None ->
  mkdir_blocked w (source_dir request folder) = false ->
  let o := download_image_if_needed request image_source folder filename w in
  result_of o
  = Raise (if str_isascii payload then BinasciiError
           else ValueError
                  "string argument should contain only ASCII characters")
  /\ files (world_of o) = files w
  /\ dirs (world_of o) = dirs (prepared w (source_dir request folder))
  /\ In (EvB64Decode payload) (events_of o)
  /\ forall e, In e (events_of o) ->
       written_path e = None /\ forall u, e <> EvHttpGet u.
Proof.
  intros Hlocal Henc Hdec Hready o. subst o.
  rewrite resolver_stored_run;
    [|by rewrite (truthy_not_none _ _ Henc), andb_false_r|done].
  destruct (resolver_prefix_run request folder filename
              (resolver_branch image_source) w Hready)
    as (w1 & ev1 & Hf & Hd & _ & Hev & Heq).
  unfold resolver_prefix. cbv zeta in Heq. rewrite Heq. clear Heq.
  unfold resolver_branch. rewrite Henc.
  pose proof (base64_b64decode_run payload w1) as Hrun. rewrite Hdec in Hrun.
  rewrite (bind_raise _ _ _ _ _ _ Hrun).
  unfold result_of, world_of, events_of. simpl. split_and!; try done.
  - apply in_or_app. right. by left.
  - intros e Hin. apply in_app_or in Hin as [Hin|[<-|[]]]; [|done].
    destruct (Hev e Hin) as (? & ? & ?). done.
Qed.

(** X6. A reply that [raise_for_status] refuses, or no reply at all, makes
    [download_image] fail before it opens the destination; the resolver
    then fails with that error once the folder is prepared, and no file is
    written. *)
Theorem failed_download_raises request image_source folder filename w url :
  local_file w image_source = None ->
  truthy (encoded_image image_source) = None ->
  truthy (image_url image_source) = Some url ->
  reply_failed (requests_get url) = true ->
  mkdir_blocked w (source_dir request folder) = false ->
  let o := download_image_if_needed request image_source folder filename w in
  (forall output_path w',
      download_image url output_path w'
      = (Raise RequestException, w', [EvHttpGet url]))
  /\ result_of o = Raise RequestException
  /\ files (world_of o) = files w
  /\ dirs (world_of o) = dirs (prepared w (source_dir request folder))
  /\ In (EvHttpGet url) (events_of o)
  /\ forall e, In e (events_of o) -> written_path e = None.
Proof.
  intros Hlocal Henc Hurl Hfailed Hready o. subst o.
  assert (forall output_path w',
            download_image url output_path w'
            = (Raise RequestException, w', [EvHttpGet url])) as Hdownload.
  { intros output_path w'. unfold download_image.
    apply bind_raise. by apply http_get_content_failed. }
  split; [done|].
  rewrite resolver_stored_run;
    [|by rewrite (truthy_not_none _ _ Hurl)|done].
  destruct (resolver_prefix_run request folder filename
              (resolver_branch image_source) w Hready)
    as (w1 & ev1 & Hf & Hd & _ & Hev & Heq).
  unfold resolver_prefix. cbv zeta in Heq. rewrite Heq. clear Heq.
  unfold resolver_branch. rewrite Henc, Hurl.
  rewrite (bind_raise _ _ _ _ _ _ (Hdownload _ _)).
  unfold result_of, world_of, events_of. simpl. split_and!; try done.
  - apply in_or_app. right. by left.
  - intros e Hin. apply in_app_or in Hin as [Hin|[<-|[]]]; [|done].
    by destruct (Hev e Hin).
Qed.

(** X7. An [image_filepath] that names nothing is passed over.  When the
    source has a URL or a payload, the resolver runs as if the path had not
    been given; when it has neither, the resolver fails with the HTTP 400
    "Process image failed", once the folder is prepared and with no file
    written. *)
Theorem missing_local_file_falls_through request image_source folder filename
    w filepath :
  image_filepath image_source = Some filepath ->
  os_path_exists w filepath = false ->
  let o := download_image_if_needed request image_source folder filename w in
  (is_none (image_url image_source) && is_none (encoded_image image_source)
     = false ->
   o = download_image_if_needed request
         (mkImageSource (image_url image_source) (encoded_image image_source)
            None)
         folder filename w)
  /\ (truthy (image_url image_source) = None ->
      truthy (encoded_image image_source) = None ->
      mkdir_blocked w (source_dir request folder) = false ->
      result_of o = Raise (HTTPException 400 "Process image failed")
      /\ files (world_of o) = files w
      /\ dirs (world_of o) = dirs (prepared w (source_dir request folder))
      /\ forall e, In e (events_of o) -> written_path e = None).
Proof.
  intros Hpath Hex o. subst o.
  assert (local_file w image_source = None) as Hlocal
    by (unfold local_file; by rewrite Hpath, Hex).
  assert (is_none (image_url image_source)
            && is_none (encoded_image image_source)
            && is_none (image_filepath image_source) = false) as Hsome
    by by rewrite Hpath, andb_false_r.
  rewrite (resolver_stored_run _ _ _ _ _ Hsome Hlocal). split.
  - intros Hother. symmetry. rewrite resolver_stored_run; [done| |done].
    simpl. by rewrite Hother.
  - intros Hurl Henc Hready.
    destruct (resolver_prefix_run request folder filename
                (resolver_branch image_source) w Hready)
      as (w1 & ev1 & Hf & Hd & _ & Hev & Heq).
    unfold resolver_prefix. cbv zeta in Heq. rewrite Heq. clear Heq.
    unfold resolver_branch. rewrite Henc, Hurl.
    unfold result_of, world_of, events_of, raise. simpl.
    rewrite app_nil_r. split_and!; try done.
    intros e Hin. by destruct (Hev e Hin).
Qed.

(** *** What the resolver returns is there *)

Lemma result_of_after_events {A} ev (o : Res A * World * list event) :
  result_of (after_events ev o) = result_of o.
Proof. reflexivity. Qed.

Lemma world_of_after_events {A} ev (o : Res A * World * list event) :
  world_of (after_events ev o) = world_of o.
Proof. reflexivity. Qed.

Lemma written_exists w p data f :
  can_write w p = true ->
  os_path_exists (set_files w (<[p := data]> f)) p = true.
Proof.
  unfold can_write, os_path_exists, is_file. intros Hcan.
  apply andb_true_iff in Hcan as [Hcan _].
  apply andb_true_iff in Hcan as [-> _]. simpl. by rewrite lookup_insert_eq.
Qed.

(** X8. Whenever the resolver returns a path, something exists at that path
    in the world it leaves: the local file it found, the file it wrote from
    the payload, or the file it downloaded, under its final name. *)
Theorem resolver_result_exists request image_source folder filename w p :
  let o := download_image_if_needed request image_source folder filename w in
  result_of o = Ok p ->
  os_path_exists (world_of o) p = true.
Proof.
  intros o Hres. subst o.
  destruct (is_none (image_url image_source)
              && is_none (encoded_image image_source)
              && is_none (image_filepath image_source)) eqn:Hsome.
  { unfold download_image_if_needed in Hres. by rewrite Hsome in Hres. }
  destruct (local_file w image_source) as [found|] eqn:Hlocal.
  { rewrite (resolver_local _ _ _ _ _ _ Hlocal) in *.
    unfold result_of, world_of in *. simpl in *. injection Hres as <-.
    unfold local_file in Hlocal.
    destruct (image_filepath image_source) as [filepath|]; [|done].
    destruct (os_path_exists w filepath) eqn:Hex; [|done].
    by injection Hlocal as <-. }
  rewrite (resolver_stored_run _ _ _ _ _ Hsome Hlocal) in *.
  destruct (mkdir_blocked w (source_dir request folder)) eqn:Hready.
  { destruct (resolver_prefix_blocked request folder filename
                (resolver_branch image_source) w Hready) as [Hraise _].
    congruence. }
  destruct (resolver_prefix_run request folder filename
              (resolver_branch image_source) w Hready)
    as (w1 & ev1 & _ & _ & _ & _ & Heq).
  unfold resolver_prefix in *. cbv zeta in Heq. rewrite Heq in *. clear Heq.
  set (dest := joinpath (source_dir request folder) (chosen_name filename w))
    in *.
  change (result_of (resolver_branch image_source dest w1) = Ok p) in Hres.
  change (os_path_exists (world_of (resolver_branch image_source dest w1)) p
          = true).
  unfold resolver_branch in *.
  destruct (truthy (encoded_image image_source)) as [payload|].
  - destruct (b64decode payload) as [decoded|] eqn:Hdec.
    2:{ pose proof (base64_b64decode_run payload w1) as Hrun.
        rewrite Hdec in Hrun.
        by rewrite (bind_raise _ _ _ _ _ _ Hrun) in Hres. }
    assert (base64_b64decode payload w1
            = (Ok decoded, w1, [EvB64Decode payload])) as Hrun
      by by rewrite base64_b64decode_run, Hdec.
    rewrite (bind_run _ _ _ _ _ _ Hrun) in *.
    set (stored := match imghdr_what decoded with
                   | Some file_type => path_str dest +:+ "." +:+ file_type
                   | None => path_str dest
                   end) in *.
    destruct (can_write w1 stored) eqn:Hcan.
    + rewrite (bind_run _ _ _ _ _ _ (write_file_run _ decoded _ Hcan)) in *.
      rewrite result_of_after_events in Hres.
      rewrite !world_of_after_events.
      unfold ret, result_of, world_of in *. simpl in *.
      injection Hres as <-. by apply written_exists.
    + assert (write_file stored decoded w1 = (Raise OSError, w1, []))
        as Hwrite by (unfold write_file; by rewrite Hcan).
      by rewrite (bind_raise _ _ _ _ _ _ Hwrite) in Hres.
  - destruct (truthy (image_url image_source)) as [url|]; [|done].
    destruct (bind_ok_inv _ _ _ _ Hres) as (output_path & Hdl & Heq).
    rewrite Heq in *. clear Heq.
    rewrite result_of_after_events in Hres. rewrite world_of_after_events.
    change (Ok output_path = Ok p) in Hres. injection Hres as <-.
    change (os_path_exists (world_of (download_image url (path_str dest) w1))
              output_path = true).
    destruct (download_image_ok _ _ _ _ Hdl)
      as (status & content & _ & _ & Hcan
          & [[-> ->]|(t & _ & _ & _ & Hcan' & ->)]);
      by apply written_exists.
Qed.

(** *** The payload and the download of the same bytes *)

(** The tests of [imghdr] look at the first twelve bytes at most: the 32
    bytes read from a file tell as much as the whole content. *)
Lemma imghdr_what_header h : imghdr_what (firstn 32 h) = imghdr_what h.
Proof.
  do 12 (destruct h as [|? h]; [reflexivity|]).
  reflexivity.
Qed.

Lemma truthy_nonempty s : s <> EmptyString -> truthy (Some s) = Some s.
Proof. by destruct s. Qed.

(** X9. Under a plain file name, the same bytes end at the same place
    whether they come as a payload or from a URL: both resolutions return
    the destination with the sniffed type appended (the bare destination
    when no type can be sniffed), and the file there holds the bytes. *)
Theorem encoded_and_url_store_alike request folder t w payload url status
    data :
  plain_name t ->
  path_root (parse_path (os_path_join "source" folder)) = EmptyString ->
  payload <> EmptyString ->
  b64decode payload = Some data ->
  url <> EmptyString ->
  requests_get url = Response status data ->
  (400 <=? status) && (status <? 600) = false ->
  mkdir_blocked w (source_dir request folder) = false ->
  let dest := path_str (source_dir request folder) +:+ "/" +:+ t in
  let stored :=
    match imghdr_what data with
    | Some file_type => dest +:+ "." +:+ file_type
    | None => dest
    end in
  can_write (prepared w (source_dir request folder)) dest = true ->
  can_write (prepared w (source_dir request folder)) stored = true ->
  let from_payload :=
    download_image_if_needed request (mkImageSource None (Some payload) None)
      folder (Some t) w in
  let from_url :=
    download_image_if_needed request (mkImageSource (Some url) None None)
      folder (Some t) w in
  result_of from_payload = Ok stored
  /\ result_of from_url = Ok stored
  /\ files (world_of from_payload) !! stored = Some data
  /\ files (world_of from_url) !! stored = Some data.
Proof.
  intros Hplain Hrel Hpayload Hdec Hurl Hreply Hstatus Hready dest stored
    Hcan Hcan' from_payload from_url. subst from_payload from_url.
  destruct (plain_name_component _ Hplain) as (Hne & Hdot & Hslash).
  assert (path_str (joinpath (source_dir request folder)
                      (chosen_name (Some t) w)) = dest) as Hdest.
  { unfold chosen_name. rewrite (truthy_plain _ Hplain).
    apply path_str_joinpath_plain; try done. by apply private_dir_parts. }
  rewrite !resolver_stored_run by done.
  destruct (resolver_prefix_run request folder (Some t)
              (resolver_branch (mkImageSource None (Some payload) None))
              w Hready) as (w1 & ev1 & Hf1 & Hd1 & _ & _ & Heq1).
  destruct (resolver_prefix_run request folder (Some t)
              (resolver_branch (mkImageSource (Some url) None None))
              w Hready) as (w2 & ev2 & Hf2 & Hd2 & _ & _ & Heq2).
  unfold resolver_prefix. cbv zeta in Heq1, Heq2. rewrite Heq1, Heq2.
  clear Heq1 Heq2.
  unfold resolver_branch. cbn [encoded_image image_url].
  rewrite !(truthy_nonempty _ Hpayload), !(truthy_nonempty _ Hurl).
  cbn [truthy]. rewrite !Hdest.
  (* the payload *)
  assert (base64_b64decode payload w1 = (Ok data, w1, [EvB64Decode payload]))
    as Hrun by by rewrite base64_b64decode_run, Hdec.
  rewrite !(bind_run _ _ _ _ _ _ Hrun). fold stored.
  assert (can_write w1 stored = true) as Hcan1
    by by rewrite (can_write_dirs _ _ _ Hd1).
  rewrite !(bind_run _ _ _ _ _ _ (write_file_run _ data _ Hcan1)).
  (* the download *)
  assert (can_write w2 dest = true) as Hcan2
    by by rewrite (can_write_dirs _ _ _ Hd2).
  assert (exists w3 ev3,
            download_image url dest w2 = (Ok stored, w3, ev3)
            /\ files w3 !! stored = Some data) as (w3 & ev3 & Hdl & Hfile).
  { rewrite (download_image_run _ _ _ _ _ Hreply Hstatus Hcan2). cbv zeta.
    rewrite imghdr_what_header. subst stored.
    destruct (imghdr_what data) as [file_type|] eqn:Ewhat.
    - assert (splitext dest = (dest, EmptyString)) as ->
        by (apply splitext_plain; by destruct Hplain as (_ & ? & ?)).
      simpl str_tail.
      assert (String.eqb EmptyString file_type = false) as ->
        by (apply imghdr_what_truthy in Ewhat; by destruct file_type).
      simpl negb. cbv iota. simpl fst.
      set (w2' := set_files w2 (<[dest := data]> (files w2))).
      assert (files w2' !! dest = Some data) as Hthere
        by apply lookup_insert_eq.
      assert (can_write w2' (dest +:+ "." +:+ file_type) = true) as Hcan3.
      { by rewrite (can_write_dirs w2' w2), (can_write_dirs _ _ _ Hd2). }
      rewrite (bind_run _ _ _ _ _ _ (os_rename_run _ _ _ _ Hthere Hcan3)).
      unfold after_events, ret. simpl. eexists _, _. split; [reflexivity|].
      apply lookup_insert_eq.
    - unfold after_events, ret. simpl. eexists _, _. split; [reflexivity|].
      apply lookup_insert_eq. }
  rewrite !(bind_run _ _ _ _ _ _ Hdl).
  unfold after_events, ret, result_of, world_of. simpl.
  split_and!; try done. apply lookup_insert_eq.
Qed.

(** *** The request handler, when a step fails *)

Lemma handler_run_face_fails request (roop_options : RoopOptions float) w e :
  let start := wall_clock (clock_reads w) in
  let date := strftime_date start in
  let o1 := download_image_if_needed request (source_image roop_options)
              ("face/" +:+ date) (Some (task_id roop_options)) (tick w) in
  result_of o1 = Raise e ->
  run_roop_on_single_image request roop_options w
  = (Raise e, world_of o1, EvNow start :: events_of o1).
Proof.
  intros start date o1 H1. unfold run_roop_on_single_image.
  rewrite (bind_run _ _ w start (tick w) [EvNow start]) by done.
  fold date. fold o1. by rewrite (bind_run_raise _ _ _ _ H1).
Qed.

Lemma handler_run_swap_fails request (roop_options : RoopOptions float) w
    face_path e :
  let start := wall_clock (clock_reads w) in
  let date := strftime_date start in
  let o1 := download_image_if_needed request (source_image roop_options)
              ("face/" +:+ date) (Some (task_id roop_options)) (tick w) in
  let o2 := download_image_if_needed request (swap_image roop_options)
              ("swap/" +:+ date) (Some (task_id roop_options)) (world_of o1) in
  result_of o1 = Ok face_path ->
  result_of o2 = Raise e ->
  run_roop_on_single_image request roop_options w
  = (Raise e, world_of o2, (EvNow start :: events_of o1 ++ events_of o2)%list).
Proof.
  intros start date o1 o2 H1 H2. unfold run_roop_on_single_image.
  rewrite (bind_run _ _ w start (tick w) [EvNow start]) by done.
  fold date. fold o1. rewrite (bind_run_result _ _ _ _ H1).
  fold o2. by rewrite (bind_run_raise _ _ _ _ H2).
Qed.

Lemma handler_run_open_fails request (roop_options : RoopOptions float) w
    face_path swap_path e :
  let start := wall_clock (clock_reads w) in
  let date := strftime_date start in
  let o1 := download_image_if_needed request (source_image roop_options)
              ("face/" +:+ date) (Some (task_id roop_options)) (tick w) in
  let o2 := download_image_if_needed request (swap_image roop_options)
              ("swap/" +:+ date) (Some (task_id roop_options)) (world_of o1) in
  result_of o1 = Ok face_path ->
  result_of o2 = Ok swap_path ->
  (result_of (image_open face_path (world_of o2)) = Raise e
   \/ (exists face, result_of (image_open face_path (world_of o2)) = Ok face)
      /\ result_of (image_open swap_path (world_of o2)) = Raise e) ->
  run_roop_on_single_image request roop_options w
  = (Raise e, world_of o2, (EvNow start :: events_of o1 ++ events_of o2)%list).
Proof.
  intros start date o1 o2 H1 H2 Hopen. unfold run_roop_on_single_image.
  rewrite (bind_run _ _ w start (tick w) [EvNow start]) by done.
  fold date. fold o1. rewrite (bind_run_result _ _ _ _ H1).
  fold o2. rewrite (bind_run_result _ _ _ _ H2).
  destruct Hopen as [H3|[[face H3] H4]].
  - rewrite (bind_raise _ _ _ e (world_of o2) []);
      [|rewrite image_open_frame; fold o2; by rewrite H3].
    unfold after_events. simpl. by rewrite app_nil_r.
  - rewrite (bind_run _ _ _ face (world_of o2) []);
      [|rewrite image_open_frame; fold o2; by rewrite H3].
    rewrite (bind_raise _ _ _ e (world_of o2) []);
      [|rewrite image_open_frame; fold o2; by rewrite H4].
    unfold after_events. simpl. by rewrite app_nil_r.
Qed.

Lemma resolver_never_swaps request image_source folder filename w :
  ~ In EvSwapFace
       (events_of (download_image_if_needed request image_source folder
                     filename w)).
Proof.
  intros Hin.
  apply (resolver_footprint request image_source folder filename w) in Hin.
  inversion Hin as [| | | |url name e Henc Hurl Hname He Heq]; subst.
  inversion He.
Qed.

(** X10. The swap is called exactly when both sources were resolved, the
    face first, and both files then opened as images: a request that fails
    at any of these four steps never reaches the swap library. *)
Theorem swap_called_only_with_both_images request
    (roop_options : RoopOptions float) w :
  let start := wall_clock (clock_reads w) in
  let date := strftime_date start in
  let o1 := download_image_if_needed request (source_image roop_options)
              ("face/" +:+ date) (Some (task_id roop_options)) (tick w) in
  let o2 := download_image_if_needed request (swap_image roop_options)
              ("swap/" +:+ date) (Some (task_id roop_options)) (world_of o1) in
  In EvSwapFace (events_of (run_roop_on_single_image request roop_options w))
  <-> exists face_path swap_path face swap,
        result_of o1 = Ok face_path
        /\ result_of o2 = Ok swap_path
        /\ result_of (image_open face_path (world_of o2)) = Ok face
        /\ result_of (image_open swap_path (world_of o2)) = Ok swap.
Proof.
  intros start date o1 o2. split.
  - intros Hin.
    assert (forall ev : list event,
              In EvSwapFace (EvNow start :: events_of o1 ++ ev)%list ->
              In EvSwapFace ev) as Hskip1.
    { intros ev [|Hev]; [done|].
      apply in_app_or in Hev as [Hev|Hev]; [|done].
      by apply resolver_never_swaps in Hev. }
    assert (~ In EvSwapFace
                 (EvNow start :: events_of o1 ++ events_of o2)%list)
      as Hskip2.
    { intros Hev. apply Hskip1 in Hev. by apply resolver_never_swaps in Hev. }
    destruct (result_of o1) as [face_path|e] eqn:H1.
    2:{ rewrite (handler_run_face_fails _ _ _ _ H1) in Hin.
        exfalso. apply (Hskip1 []). fold start o1.
        by rewrite app_nil_r. }
    destruct (result_of o2) as [swap_path|e] eqn:H2.
    2:{ by rewrite (handler_run_swap_fails _ _ _ _ _ H1 H2) in Hin. }
    destruct (result_of (image_open face_path (world_of o2)))
      as [face|e] eqn:H3.
    2:{ rewrite (handler_run_open_fails _ _ _ _ _ e H1 H2) in Hin;
          [done | by left]. }
    destruct (result_of (image_open swap_path (world_of o2)))
      as [swap|e] eqn:H4.
    2:{ rewrite (handler_run_open_fails _ _ _ _ _ e H1 H2) in Hin;
          [done | right; eauto]. }
    by exists face_path, swap_path, face, swap.
  - intros (face_path & swap_path & face & swap & H1 & H2 & H3 & H4).
    rewrite (handler_run _ _ _ _ _ _ _ H1 H2 H3 H4).
    fold start date o1 o2. unfold after_events, events_of. simpl.
    right. rewrite <- !app_assoc.
    apply in_or_app. right. apply in_or_app. right. by left.
Qed.

Lemma face_path_not_swap request d name name' :
  face_folder request (strftime_date d) +:+ "/" +:+ name
  <> swap_folder request (strftime_date d) +:+ "/" +:+ name'.
Proof.
  rewrite face_folder_str, swap_folder_str, !str_app_assoc.
  intros Heq. apply str_app_inv_l in Heq. discriminate.
Qed.

(** X11. When the face source was resolved and the swap source cannot be,
    the request fails with the error of that second resolution and nothing
    is undone: under a task id that is a single path component, the failed
    resolution changed files in the swap folder only, so every file of the
    face folder is as the first resolution left it. *)
Theorem swap_source_failure_keeps_face_file request
    (roop_options : RoopOptions float) w face_path e :
  let start := wall_clock (clock_reads w) in
  let date := strftime_date start in
  let o1 := download_image_if_needed request (source_image roop_options)
              ("face/" +:+ date) (Some (task_id roop_options)) (tick w) in
  let o2 := download_image_if_needed request (swap_image roop_options)
              ("swap/" +:+ date) (Some (task_id roop_options)) (world_of o1) in
  path_component (task_id roop_options) ->
  result_of o1 = Ok face_path ->
  result_of o2 = Raise e ->
  let o := run_roop_on_single_image request roop_options w in
  result_of o = Raise e
  /\ events_of o = (EvNow start :: events_of o1 ++ events_of o2)%list
  /\ (forall p,
        (forall name, p <> swap_folder request date +:+ "/" +:+ name) ->
        files (world_of o) !! p = files (world_of o1) !! p)
  /\ (forall name,
        files (world_of o) !! (face_folder request date +:+ "/" +:+ name)
        = files (world_of o1) !! (face_folder request date +:+ "/" +:+ name)).
Proof.
  intros start date o1 o2 Htask H1 H2 o. subst o.
  rewrite (handler_run_swap_fails _ _ _ _ _ H1 H2). fold start date o1 o2.
  unfold result_of at 1, events_of at 1, world_of at 1 3. simpl.
  assert (forall p,
            (forall name, p <> swap_folder request date +:+ "/" +:+ name) ->
            files (world_of o2) !! p = files (world_of o1) !! p) as Hframe.
  { intros p Hp. unfold o2. apply frames_files_resolver.
    intros ev Hev Hin.
    apply (resolver_footprint _ _ _ _ (world_of o1)) in Hev.
    destruct (resolver_touches_under_folder _ _ "swap/" _ _ _ _ Htask
                ltac:(by rewrite parse_swap_folder) Hev Hin)
      as (name & Heq).
    by apply (Hp name). }
  split_and!; try done.
  intros name. apply Hframe. intros name'. apply face_path_not_swap.
Qed.

(** X12. When both sources were resolved and a stored file cannot be opened
    as an image, the face file first, the request fails with the error of
    the opening, not with an HTTP 400: the error of the filesystem when no
    regular file is at the path, the error of the image library when the
    content is no image.  The swap is not called and the files stay as the
    resolutions left them. *)
Theorem unreadable_source_fails_before_swap request
    (roop_options : RoopOptions float) w face_path swap_path e :
  let start := wall_clock (clock_reads w) in
  let date := strftime_date start in
  let o1 := download_image_if_needed request (source_image roop_options)
              ("face/" +:+ date) (Some (task_id roop_options)) (tick w) in
  let o2 := download_image_if_needed request (swap_image roop_options)
              ("swap/" +:+ date) (Some (task_id roop_options)) (world_of o1) in
  result_of o1 = Ok face_path ->
  result_of o2 = Ok swap_path ->
  result_of (image_open face_path (world_of o2)) = Raise e ->
  run_roop_on_single_image request roop_options w
  = (Raise e, world_of o2, (EvNow start :: events_of o1 ++ events_of o2)%list)
  /\ (files (world_of o2) !! face_path = None -> e = OSError)
  /\ (forall data,
        files (world_of o2) !! face_path = Some data ->
        image_decode data = None /\ e = UnidentifiedImageError).
Proof.
  intros start date o1 o2 H1 H2 H3. split.
  - apply (handler_run_open_fails _ _ _ _ _ e H1 H2). by left.
  - unfold image_open, bind, read_file, result_of in H3.
    destruct (files (world_of o2) !! face_path) as [data|].
    + split; [done|]. intros data' [= <-].
      destruct (image_decode data); simpl in H3; [done|].
      by injection H3 as <-.
    + split; [|done]. intros _. simpl in H3. by injection H3 as <-.
Qed.

(** *** The request handler, when it answers *)

Lemma get_private_path_result request folder filename w p :
  result_of (get_private_path request folder filename w) = Ok p ->
  p = joinpath (private_dir_of request folder) filename.
Proof.
  rewrite get_private_path_run. cbv zeta. unfold result_of.
  destruct (os_path_exists w _); simpl; [congruence|].
  destruct (existsb _ _); simpl; congruence.
Qed.

Lemma image_save_extension img path w :
  result_of (image_save img path w) = Ok tt ->
  (splitext (path_str path)).2 = ".png".
Proof.
  unfold image_save.
  destruct (String.eqb_spec (splitext (path_str path)).2 ".png"); done.
Qed.

(** A request that is answered: the steps it went through, the file it
    saved and the response it built. *)
Lemma handler_success_inv request (roop_options : RoopOptions float) w resp :
  let start := wall_clock (clock_reads w) in
  let date := strftime_date start in
  let o := run_roop_on_single_image request roop_options w in
  result_of o = Ok resp ->
  exists result finish,
    let out := path_str (joinpath (private_dir_of request ("output/" +:+ date))
                           (task_id roop_options +:+ ".png")) in
    (splitext out).2 = ".png"
    /\ files (world_of o) !! out = Some (png_encode result)
    /\ resp = mkRoopResponse (task_id roop_options)
                (pil_image_to_base64 result)
                (strftime_iso start) (strftime_iso finish).
Proof.
  intros start date o Hres. subst o.
  pose proof Hres as Hsteps. unfold run_roop_on_single_image in Hsteps.
  apply bind_result_ok in Hsteps as (start' & Hstart & Hsteps).
  injection Hstart as <-. fold start in Hsteps.
  change (world_of (datetime_now w)) with (tick w) in Hsteps.
  apply bind_result_ok in Hsteps as (face_path & H1 & Hsteps).
  apply bind_result_ok in Hsteps as (swap_path & H2 & Hsteps).
  apply bind_result_ok in Hsteps as (face & H3 & Hsteps).
  apply bind_result_ok in Hsteps as (swap & H4 & _).
  rewrite (image_open_frame face_path) in H4. simpl in H4.
  rewrite (handler_run _ _ _ _ _ _ _ H1 H2 H3 H4) in Hres |- *.
  fold start date in Hres |- *.
  set (o1 := download_image_if_needed request (source_image roop_options)
               ("face/" +:+ date) (Some (task_id roop_options)) (tick w)) in *.
  set (o2 := download_image_if_needed request (swap_image roop_options)
               ("swap/" +:+ date) (Some (task_id roop_options)) (world_of o1))
    in *.
  destruct (result_image _) as [result|] eqn:Hresult; [|done].
  pose proof Hres as Hrest. unfold after_events in Hrest. simpl in Hrest.
  apply bind_result_ok in Hrest as (output_filepath & Hpath & Hrest).
  apply bind_result_ok in Hrest as ([] & Hsave & _).
  destruct (get_private_path_frame _ _ _ _ _ Hpath) as (evp & Epath & _).
  pose proof (get_private_path_result _ _ _ _ _ Hpath) as ->.
  pose proof (image_save_extension _ _ _ Hsave) as Hext.
  rewrite (bind_run _ _ _ _ _ _ Epath) in Hres |- *.
  rewrite (bind_run _ _ _ _ _ _ (image_save_run _ _ _ Hsave)) in Hres |- *.
  match type of Hres with
  | context [bind datetime_now _ ?w4] =>
      rewrite (bind_run _ _ w4 (wall_clock (clock_reads w4)) (tick w4)
                 [EvNow (wall_clock (clock_reads w4))]) in Hres |- * by done;
      exists result, (wall_clock (clock_reads w4))
  end.
  rewrite !after_events_app in Hres |- *.
  unfold after_events, ret, result_of, world_of, events_of in Hres |- *.
  simpl in Hres |- *. injection Hres as <-.
  split_and!; try done. apply lookup_insert_eq.
Qed.

Lemma strftime_iso_date d : str_take 10 (strftime_iso d) = strftime_date d.
Proof.
  unfold strftime_iso. rewrite strftime_date_chars.
  rewrite !str_app_cons. reflexivity.
Qed.

Lemma png_name_component t :
  str_contains "/" t = false ->
  t +:+ ".png" <> EmptyString /\ t +:+ ".png" <> "."
  /\ str_contains "/" (t +:+ ".png") = false.
Proof.
  intros Hslash. split_and!.
  - by destruct t.
  - destruct t as [|a [|b t]]; done.
  - by rewrite str_contains_app, Hslash.
Qed.

Lemma output_path_str request d t :
  str_contains "/" t = false ->
  path_str (joinpath (private_dir_of request ("output/" +:+ strftime_date d))
              (t +:+ ".png"))
  = output_folder request (strftime_date d) +:+ "/" +:+ t +:+ ".png".
Proof.
  intros Hslash. destruct (png_name_component _ Hslash) as (Hne & Hdot & Hno).
  unfold output_folder. apply path_str_joinpath_plain; try done.
  apply private_dir_parts. by rewrite parse_output_folder.
Qed.

(** X13. The response tells where the output is: under a task id without
    [/], the output file of an answered request is
    [<private dir>/roop/output/<date>/<task id>.png], the date being the
    first ten characters of the response's [start_time], and the image of
    the response is the base64 of the very bytes of that file. *)
Theorem output_file_located_by_response request
    (roop_options : RoopOptions float) w resp :
  str_contains "/" (task_id roop_options) = false ->
  let o := run_roop_on_single_image request roop_options w in
  result_of o = Ok resp ->
  exists png,
    files (world_of o)
      !! (path_str (joinpath (private_outdir request) "roop")
          +:+ "/output/" +:+ str_take 10 (start_time resp)
          +:+ "/" +:+ resp_task_id resp +:+ ".png")
    = Some png
    /\ resp_encoded_image resp = "data:image/png;base64," +:+ b64encode png.
Proof.
  intros Hslash o Hres. subst o.
  destruct (handler_success_inv _ _ _ _ Hres)
    as (result & finish & _ & Hfile & ->).
  exists (png_encode result). split; [|done]. simpl.
  rewrite strftime_iso_date.
  rewrite (output_path_str _ _ _ Hslash), output_folder_str in Hfile.
  by rewrite !str_app_assoc in Hfile.
Qed.

(** *** The empty task id *)

Lemma splitext_hidden x :
  splitext (x +:+ "/" +:+ ".png") = (x +:+ "/" +:+ ".png", EmptyString).
Proof.
  unfold splitext, rfind.
  change (x +:+ "/" +:+ ".png") with (x +:+ "/.png").
  rewrite !rfind_from_app. simpl rfind_from.
  replace (0 + Z.of_nat (String.length x) + 1
           - (0 + Z.of_nat (String.length x) + 1)) with 0 by lia.
  simpl. by rewrite andb_false_r.
Qed.

(** X14. A request whose task id is empty is never answered: its sources
    are stored under uuid names, but the output would be named [.png], a
    name in which the image library finds no extension. *)
Theorem empty_task_id_never_answered request
    (roop_options : RoopOptions float) w resp :
  task_id roop_options = EmptyString ->
  result_of (run_roop_on_single_image request roop_options w) <> Ok resp.
Proof.
  intros Hempty Hres.
  destruct (handler_success_inv _ _ _ _ Hres)
    as (result & finish & Hext & _ & _).
  rewrite Hempty in Hext.
  rewrite (output_path_str _ _ EmptyString) in Hext by done.
  change (EmptyString +:+ ".png") with ".png" in Hext.
  by rewrite splitext_hidden in Hext.
Qed.

(** *** The request handler stays in the private directory *)

(** Every file a request of a one-component task id touches is a file of
    one of its three folders. *)
Lemma handler_touches request (roop_options : RoopOptions float) w e p :
  path_component (task_id roop_options) ->
  In e (events_of (run_roop_on_single_image request roop_options w)) ->
  In p (touched_paths e) ->
  let date := strftime_date (wall_clock (clock_reads w)) in
  exists folder name,
    p = folder +:+ "/" +:+ name
    /\ In folder [face_folder request date; swap_folder request date;
                  output_folder request date].
Proof.
  intros Htask He Hp date. revert e He p Hp.
  set (d := wall_clock (clock_reads w)) in *.
  set (t := task_id roop_options) in *.
  unfold run_roop_on_single_image.
  rewrite (bind_run _ _ w d (tick w) [EvNow d]) by done.
  intros e [<-|He]; [done|]. rewrite app_nil_l in He. revert e He. fold t.
  fold date.
  set (P := fun e => forall p, In p (touched_paths e) ->
                     exists folder name,
                       p = folder +:+ "/" +:+ name
                       /\ In folder [face_folder request date;
                                     swap_folder request date;
                                     output_folder request date]).
  match goal with
  | |- forall e, In e ?evs -> _ => change (forall e, In e evs -> P e)
  end.
  apply satisfies_events with (Q := fun _ => True). subst P.
  eapply satisfies_bind with (Q := fun _ => True).
  { eapply satisfies_weaken; [apply resolver_footprint|done|].
    intros e He p Hp.
    destruct (resolver_touches_under_folder _ _ "face/" _ _ _ _ Htask
                ltac:(by rewrite parse_face_folder) He Hp)
      as (name & ->).
    exists (face_folder request date), name. split; [done|]. by left. }
  intros face_image _.
  eapply satisfies_bind with (Q := fun _ => True).
  { eapply satisfies_weaken; [apply resolver_footprint|done|].
    intros e He p Hp.
    destruct (resolver_touches_under_folder _ _ "swap/" _ _ _ _ Htask
                ltac:(by rewrite parse_swap_folder) He Hp)
      as (name & ->).
    exists (swap_folder request date), name. split; [done|]. right. by left. }
  intros swap_image _.
  eapply satisfies_bind; [apply satisfies_image_open|]. intros face _.
  eapply satisfies_bind; [apply satisfies_image_open|]. intros swap _.
  eapply satisfies_bind with (Q := fun _ => True);
    [by apply satisfies_emit|]. intros _ _.
  destruct (result_image _) as [result|]; [|apply satisfies_raise].
  eapply satisfies_bind; [by apply satisfies_get_private_path|].
  intros output_filepath ->.
  eapply satisfies_bind with (Q := fun _ => True).
  { apply satisfies_image_save. intros p [<-|[]].
    destruct Htask as (_ & _ & Hslash).
    exists (output_folder request date), (t +:+ ".png").
    split; [by apply output_path_str|]. right. right. by left. }
  intros _ _.
  eapply satisfies_bind with (Q := fun _ => True);
    [by apply satisfies_datetime_now|].
  intros finish _. by apply satisfies_ret.
Qed.

(** X15. Under a task id that is a single path component, a request
    creates, replaces or removes files in its three folders only (the face,
    the swap and the output folder of its date); whatever it does and
    however it ends, every file outside [<private dir>/roop] is as it was,
    the local files its sources name included. *)
Theorem handler_confined_to_private_dir request
    (roop_options : RoopOptions float) w :
  path_component (task_id roop_options) ->
  let o := run_roop_on_single_image request roop_options w in
  let date := strftime_date (wall_clock (clock_reads w)) in
  (forall e p, In e (events_of o) -> In p (touched_paths e) ->
     exists folder name,
       p = folder +:+ "/" +:+ name
       /\ In folder [face_folder request date; swap_folder request date;
                     output_folder request date])
  /\ (forall p,
        (forall rest,
            p <> path_str (joinpath (private_outdir request) "roop")
                 +:+ "/" +:+ rest) ->
        files (world_of o) !! p = files w !! p).
Proof.
  intros Htask o date. subst o. split.
  - intros e p He Hp. by apply (handler_touches _ _ _ _ _ Htask He Hp).
  - intros p Houtside. apply frames_files_handler. intros e He Hp.
    destruct (handler_touches _ _ _ _ _ Htask He Hp)
      as (folder & name & -> & Hfolder).
    fold date in Hfolder. unfold date in Hfolder.
    rewrite face_folder_str, swap_folder_str, output_folder_str in Hfolder.
    destruct Hfolder as [<-|[<-|[<-|[]]]];
      [apply (Houtside ("source/face/" +:+ date +:+ "/" +:+ name))
      |apply (Houtside ("source/swap/" +:+ date +:+ "/" +:+ name))
      |apply (Houtside ("output/" +:+ date +:+ "/" +:+ name))];
      rewrite !str_app_assoc; reflexivity.
Qed.
End Properties.

(** * The properties at work on the concrete host *)

(** C1 on three sources: a local file that exists beside a payload and a
    URL; a payload beside a URL; a URL alone. *)
Lemma resolver_precedence_witness :
  let both := mkImageSource (Some "http://img.test/cat")
                (Some "iVBORw0KGgpyZWQ=") (Some "/data/local/face.png") in
  let payload := mkImageSource (Some "http://img.test/cat")
                   (Some "iVBORw0KGgpyZWQ=") None in
  let url := mkImageSource (Some "http://img.test/cat") None None in
  let run source w :=
    @download_image_if_needed Demo.host "alice" source "face/2024-01-15"
      (Some "t1") w in
  (os_path_exists Demo.world_local "/data/local/face.png" = true
   /\ run both Demo.world_local
      = (Ok "/data/local/face.png", Demo.world_local, []))
  /\ (local_file Demo.world0 payload = None
      /\ (forall u, ~ In (EvHttpGet u) (events_of (run payload Demo.world0)))
      /\ In (EvB64Decode "iVBORw0KGgpyZWQ=")
            (events_of (run payload Demo.world0)))
  /\ (In (EvHttpGet "http://img.test/cat") (events_of (run url Demo.world0))
      /\ truthy (encoded_image url) = None).
Proof.
  intros both payload url run.
  pose proof (@resolver_precedence Demo.host "alice" both "face/2024-01-15"
                (Some "t1") Demo.world_local) as (Hlocal & _ & _).
  pose proof (@resolver_precedence Demo.host "alice" payload "face/2024-01-15"
                (Some "t1") Demo.world0) as (_ & Hpayload & _).
  pose proof (@resolver_precedence Demo.host "alice" url "face/2024-01-15"
                (Some "t1") Demo.world0) as (_ & _ & Hurl).
  split; [|split].
  - split; [vm_compute; reflexivity|].
    apply Hlocal; [reflexivity | vm_compute; reflexivity].
  - destruct (Hpayload "iVBORw0KGgpyZWQ=") as (_ & Hnone & Hdecode);
      [vm_compute; reflexivity | reflexivity | discriminate |].
    split; [vm_compute; reflexivity|]. split; [exact Hnone|].
    apply Hdecode. vm_compute. reflexivity.
  - assert (In (EvHttpGet "http://img.test/cat")
              (events_of (run url Demo.world0))) as Hin
      by (vm_compute; auto).
    split; [exact Hin|]. apply (Hurl _ Hin).
Defined.

(** C4 as stated fails on a source whose URL is the empty string (the other
    fields missing): its fields are all missing or empty, and the resolver
    answers with the detail "Process image failed", not with the
    "at least one is required" one. *)
Lemma empty_url_gets_other_detail :
  let source := mkImageSource (Some "") None None in
  let o := @download_image_if_needed Demo.host "alice" source
             "face/2024-01-15" (Some "t1") Demo.world0 in
  (image_url source = Some "" /\ encoded_image source = None
   /\ image_filepath source = None)
  /\ result_of o = Raise (HTTPException 400 "Process image failed")
  /\ result_of o
     <> Raise (HTTPException 400
          "image_url, encoded_image, image_filepath at least one is required")
  /\ events_of o = [EvMkdir Demo.face_dir].
Proof.
  intros source o. split; [done|].
  assert (result_of o = Raise (HTTPException 400 "Process image failed"))
    as Hres by (vm_compute; reflexivity).
  split; [exact Hres|]. split; [by rewrite Hres|].
  vm_compute. reflexivity.
Qed.

(** C4 as the code has it, on the empty URL and on the empty source. *)
Lemma unusable_source_rejected_witness :
  let source := mkImageSource (Some "") None None in
  let o := @download_image_if_needed Demo.host "alice" source
             "face/2024-01-15" (Some "t1") Demo.world0 in
  (result_of o = Raise (HTTPException 400 "Process image failed")
   /\ files (world_of o) = files Demo.world0)
  /\ @download_image_if_needed Demo.host "alice" (mkImageSource None None None)
       "face/2024-01-15" (Some "t1") Demo.world0
     = (Raise (HTTPException 400
          "image_url, encoded_image, image_filepath at least one is required"),
        Demo.world0, []).
Proof.
  intros source o. split.
  - destruct (@unusable_source_rejected Demo.host "alice" source
                "face/2024-01-15" (Some "t1") Demo.world0)
      as (_ & Hempty); [by right | by left | by left |].
    destruct Hempty as (Hres & Hfiles & _);
      [by intros (? & _) | vm_compute; reflexivity |].
    by split.
  - destruct (@unusable_source_rejected Demo.host "alice"
                (mkImageSource None None None)
                "face/2024-01-15" (Some "t1") Demo.world0)
      as (Hnone & _); [by left | by left | by left |].
    by apply Hnone.
Defined.

(** C5 on the payload of a PNG: it is stored, byte for byte, under the task
    id with [.png] appended. *)
Lemma encoded_image_stored_witness :
  let o := @download_image_if_needed Demo.host "alice"
             (Demo.encoded "iVBORw0KGgpyZWQ=") "face/2024-01-15" (Some "t1")
             Demo.world0 in
  Demo.b64decode "iVBORw0KGgpyZWQ=" = Some Demo.red_png
  /\ imghdr_what Demo.red_png = Some "png"
  /\ result_of o = Ok (Demo.face_dir +:+ "/t1.png")
  /\ files (world_of o) !! (Demo.face_dir +:+ "/t1.png") = Some Demo.red_png.
Proof.
  intros o. split; [vm_compute; reflexivity|]. split; [vm_compute; reflexivity|].
  destruct (@encoded_image_stored Demo.host "alice"
              (Demo.encoded "iVBORw0KGgpyZWQ=") "face/2024-01-15" (Some "t1")
              Demo.world0 "iVBORw0KGgpyZWQ=" Demo.red_png)
    as (Hres & _ & Hfile & _);
    [vm_compute; reflexivity | reflexivity | discriminate
    | vm_compute; reflexivity | vm_compute; reflexivity
    | vm_compute; reflexivity |].
  split; [exact Hres | exact Hfile].
Defined.

(** C6 on a GIF: sent to [t1.jpg] it ends as [t1.gif]; sent to [t1.gif] it
    stays. *)
Lemma download_image_corrects_extension_witness :
  let gif := "http://img.test/cat" in
  let o := @download_image Demo.host gif (Demo.face_dir +:+ "/t1.jpg")
             Demo.world_faces in
  (splitext (Demo.face_dir +:+ "/t1.jpg") = (Demo.face_dir +:+ "/t1", ".jpg")
   /\ result_of o = Ok (Demo.face_dir +:+ "/t1.gif")
   /\ files (world_of o) !! (Demo.face_dir +:+ "/t1.gif") = Some Demo.a_gif
   /\ files (world_of o) !! (Demo.face_dir +:+ "/t1.jpg") = None)
  /\ result_of (@download_image Demo.host gif (Demo.face_dir +:+ "/t1.gif")
                  Demo.world_faces)
     = Ok (Demo.face_dir +:+ "/t1.gif").
Proof.
  intros gif o. split.
  - split; [vm_compute; reflexivity|].
    destruct (@download_image_corrects_extension Demo.host gif
                (Demo.face_dir +:+ "/t1.jpg") Demo.world_faces 200 Demo.a_gif
                "gif")
      as (Hrename & _);
      [reflexivity | reflexivity | vm_compute; reflexivity
      | vm_compute; reflexivity |].
    destruct Hrename as (Hres & _ & Hnew & Hold & _);
      [vm_compute; discriminate | vm_compute; reflexivity |].
    split; [exact Hres|]. split; [exact Hnew | exact Hold].
  - destruct (@download_image_corrects_extension Demo.host gif
                (Demo.face_dir +:+ "/t1.gif") Demo.world_faces 200 Demo.a_gif
                "gif")
      as (_ & Hsame);
      [reflexivity | reflexivity | vm_compute; reflexivity
      | vm_compute; reflexivity |].
    rewrite Hsame; [reflexivity | vm_compute; reflexivity].
Defined.

(** C10 on a text file: it stays where it was put, and a warning is
    logged. *)
Lemma download_image_unknown_type_witness :
  imghdr_what (firstn 32 (list_byte_of_string "hello")) = None
  /\ @download_image Demo.host "http://img.test/text" (Demo.face_dir +:+ "/t1")
       Demo.world_faces
     = (Ok (Demo.face_dir +:+ "/t1"),
        set_files Demo.world_faces
          (<[Demo.face_dir +:+ "/t1" := list_byte_of_string "hello"]>
             (files Demo.world_faces)),
        [EvHttpGet "http://img.test/text";
         EvWrite (Demo.face_dir +:+ "/t1") (list_byte_of_string "hello");
         EvWarning "Could not determine the image type."]).
Proof.
  split; [vm_compute; reflexivity|].
  apply (@download_image_unknown_type Demo.host "http://img.test/text"
           (Demo.face_dir +:+ "/t1") Demo.world_faces 200
           (list_byte_of_string "hello"));
    [reflexivity | reflexivity | vm_compute; reflexivity
    | vm_compute; reflexivity].
Defined.

(** C7 on the registries of the concrete host: no upscaler is named [""],
    no face restorer [Nobody]; [Lanczos] and [GFPGAN] are the second
    entries of theirs. *)
Lemma upscale_options_lookup_witness :
  let missing :=
    mkRoopOptions "t1" (Demo.encoded "") (Demo.encoded "") 0 "m"
      (mkRequestUpscaleOptions 1 "" 100 "Nobody" 100) in
  let present :=
    mkRoopOptions "t1" (Demo.encoded "") (Demo.encoded "") 0 "m"
      (mkRequestUpscaleOptions 2 "Lanczos" 100 "GFPGAN" 50) in
  (uo_upscaler (@upscale_options Demo.host missing) = None
   /\ uo_face_restorer (@upscale_options Demo.host missing) = None)
  /\ (uo_upscaler (@upscale_options Demo.host present) = Some "Lanczos"
      /\ uo_face_restorer (@upscale_options Demo.host present) = Some "GFPGAN").
Proof.
  intros missing present.
  destruct (@upscale_options_lookup Demo.host missing)
    as (Hup & Hface & _).
  destruct (@upscale_options_lookup Demo.host present)
    as (_ & _ & Hup' & Hface' & _).
  split; [split|split].
  - apply Hup. simpl. intros u [<-|[<-|[<-|[]]]]; discriminate.
  - apply Hface. simpl. intros r [<-|[<-|[]]]; discriminate.
  - destruct Hup' as (u & before & after & _ & _ & _ & Hfound).
    + exists "Lanczos". simpl. auto.
    + rewrite Hfound. vm_compute in Hfound. by injection Hfound as <-.
  - destruct Hface' as (r & before & after & _ & _ & _ & Hfound).
    + exists "GFPGAN". simpl. auto.
    + rewrite Hfound. vm_compute in Hfound. by injection Hfound as <-.
Defined.

(** C2 as stated fails on a task id that is an absolute path into the
    output folder of the day: the face and swap sources are stored under
    that very name, so that when the swap yields nothing and the request
    fails, a file stands at the output path, which did not exist before. *)
Lemma absolute_task_id_fills_output :
  let task := "/data/private/alice/roop/output/2024-01-15/t1" in
  let output_path := "/data/private/alice/roop/output/2024-01-15/t1.png" in
  let request_options :=
    mkRoopOptions task (Demo.encoded "iVBORw0KGgpyZWQ=")
      (Demo.encoded "iVBORw0KGgpibHVl") 0 "roop/unknown.onnx"
      (mkRequestUpscaleOptions 1 "" 100 "CodeFormer" 100) in
  let o := @run_roop_on_single_image Demo.host "alice" request_options
             Demo.world_later in
  strftime_date (Demo.wall_clock (clock_reads Demo.world_later)) = "2024-01-15"
  /\ path_str (joinpath (@private_dir_of Demo.host "alice" "output/2024-01-15")
                        (task +:+ ".png")) = output_path
  /\ result_of o = Raise (HTTPException 400 "Roop process image failed")
  /\ In EvSwapFace (events_of o)
  /\ files Demo.world_later !! output_path = None
  /\ files (world_of o) !! output_path = Some Demo.blue_png.
Proof.
  intros task output_path request_options o.
  split; [vm_compute; reflexivity|]. split; [vm_compute; reflexivity|].
  split; [vm_compute; reflexivity|]. split; [vm_compute; auto 10|].
  split; vm_compute; reflexivity.
Qed.

(** C2 as the code has it, on a request for a model the swap library does
    not know: both sources are stored, the swap yields nothing, the request
    fails and nothing stands at the output path. *)
Lemma swap_without_image_fails_witness :
  let request_options :=
    mkRoopOptions "t1" (Demo.encoded "iVBORw0KGgpyZWQ=")
      (Demo.encoded "iVBORw0KGgpibHVl") 0 "roop/unknown.onnx"
      (mkRequestUpscaleOptions 1 "" 100 "CodeFormer" 100) in
  let o := @run_roop_on_single_image Demo.host "alice" request_options
             Demo.world0 in
  let folder := "/data/private/alice/roop/output/2024-01-15" in
  (path_component "t1"
   /\ @output_folder Demo.host "alice" "2024-01-15" = folder)
  /\ result_of o = Raise (HTTPException 400 "Roop process image failed")
  /\ (forall p, ~ In (EvImageSave p) (events_of o))
  /\ ~ In (EvMkdir folder) (events_of o)
  /\ files (world_of o) !! (folder +:+ "/" +:+ "t1.png") = None.
Proof.
  intros request_options o folder.
  assert (path_component "t1") as Hplain by done.
  split; [split; [exact Hplain | vm_compute; reflexivity]|].
  destruct (@swap_without_image_fails Demo.host "alice" request_options
              Demo.world0
              (Demo.face_dir +:+ "/t1.png")
              "/data/private/alice/roop/source/swap/2024-01-15/t1.png"
              (list_byte_of_string "red") (list_byte_of_string "blue"))
    as (Hres & _ & _ & Hsave & Hmkdir & Hfiles);
    [vm_compute; reflexivity | vm_compute; reflexivity
    | vm_compute; reflexivity | vm_compute; reflexivity
    | vm_compute; reflexivity |].
  split; [exact Hres|]. split; [exact Hsave|]. split; [exact Hmkdir|].
  transitivity (files Demo.world0 !! (folder +:+ "/" +:+ "t1.png"));
    [exact (Hfiles Hplain "t1.png") | reflexivity].
Defined.

(** C8 as stated fails on a machine whose clock is set back between the
    two readings of the handler: the request of the specification's
    end-to-end example is answered, and the [finish_time] of the response
    is earlier than its [start_time]. *)
Lemma clock_set_back_reverses_times :
  let o := @run_roop_on_single_image Demo.host_set_back "alice"
             (Demo.options "t1" (Demo.encoded "iVBORw0KGgpyZWQ=")
                (Demo.encoded "iVBORw0KGgpibHVl"))
             Demo.world0 in
  let resp :=
    mkRoopResponse "t1" "data:image/png;base64,iVBORw0KGgpibHVlK3JlZA=="
      "2024-01-15T10:30:30Z" "2024-01-15T10:30:29Z" in
  result_of o = Ok resp
  /\ dt_leb (Demo.wall_clock_set_back 0) (Demo.wall_clock_set_back 1) = false
  /\ String.leb (start_time resp) (finish_time resp) = false
  /\ String.leb (finish_time resp) (start_time resp) = true.
Proof.
  intros o resp. split_and!; vm_compute; reflexivity.
Qed.

(** C8 as the code has it, on the request of the specification's
    end-to-end example, on a machine whose clock goes on. *)
Lemma successful_response_witness :
  let o := @run_roop_on_single_image Demo.host "alice"
             (Demo.options "t1" (Demo.encoded "iVBORw0KGgpyZWQ=")
                (Demo.encoded "iVBORw0KGgpibHVl"))
             Demo.world0 in
  let resp :=
    mkRoopResponse "t1" "data:image/png;base64,iVBORw0KGgpibHVlK3JlZA=="
      "2024-01-15T10:30:00Z" "2024-01-15T10:30:01Z" in
  (result_of o = Ok resp
   /\ dt_leb (Demo.wall_clock 0) (Demo.wall_clock 1) = true)
  /\ resp_task_id resp = "t1"
  /\ matches_shape "dddd-dd-ddTdd:dd:ddZ" (start_time resp) = true
  /\ matches_shape "dddd-dd-ddTdd:dd:ddZ" (finish_time resp) = true
  /\ String.leb (start_time resp) (finish_time resp) = true.
Proof.
  intros o resp.
  assert (result_of o = Ok resp) as Hres by (vm_compute; reflexivity).
  destruct (@successful_response Demo.host "alice" _ Demo.world0 resp Hres)
    as (Htask & _ & _ & _ & Hstart & Hfinish & Hleb).
  split; [split; [exact Hres | vm_compute; reflexivity]|].
  split; [exact Htask|].
  split; [exact Hstart|]. split; [exact Hfinish|].
  apply Hleb. vm_compute. reflexivity.
Defined.

(** C9 as stated fails on the task ids [a] and [a.png]: the first request
    stores its face image, a PNG, at [.../face/2024-01-15/a.png]; the second,
    whose face payload has no type that can be sniffed, stores its own at
    the same path, over the first. *)
Lemma suffixed_task_id_collides :
  let first := Demo.options "a" (Demo.encoded "iVBORw0KGgpyZWQ=")
                 (Demo.encoded "iVBORw0KGgpibHVl") in
  let second := Demo.options "a.png" (Demo.encoded "aGVsbG8=")
                  (Demo.encoded "iVBORw0KGgpibHVl") in
  let o1 := @run_roop_on_single_image Demo.host "alice" first Demo.world0 in
  let o2 := @run_roop_on_single_image Demo.host "alice" second (world_of o1) in
  task_id first <> task_id second
  /\ In (Demo.face_dir +:+ "/a.png") (written_paths (events_of o1))
  /\ In (Demo.face_dir +:+ "/a.png") (written_paths (events_of o2))
  /\ files (world_of o1) !! (Demo.face_dir +:+ "/a.png") = Some Demo.red_png
  /\ files (world_of o2) !! (Demo.face_dir +:+ "/a.png")
     = Some (list_byte_of_string "hello").
Proof.
  intros first second o1 o2. split; [discriminate|].
  split; [vm_compute; auto|]. split; [vm_compute; auto|].
  split; vm_compute; reflexivity.
Qed.

(** Task ids with a [/] collide as well: pathlib drops the [.] component,
    so the ids [a] and [./a] store their source images at the same paths. *)
Lemma dot_slash_task_id_same_paths :
  let first := Demo.options "a" (Demo.encoded "iVBORw0KGgpyZWQ=")
                 (Demo.encoded "iVBORw0KGgpibHVl") in
  let second := Demo.options "./a" (Demo.encoded "iVBORw0KGgpyZWQ=")
                  (Demo.encoded "iVBORw0KGgpibHVl") in
  let o1 := @run_roop_on_single_image Demo.host "alice" first Demo.world0 in
  let o2 := @run_roop_on_single_image Demo.host "alice" second (world_of o1) in
  task_id first <> task_id second
  /\ In (Demo.face_dir +:+ "/a.png") (written_paths (events_of o1))
  /\ In (Demo.face_dir +:+ "/a.png") (written_paths (events_of o2)).
Proof.
  intros first second o1 o2. split; [discriminate|].
  split; vm_compute; auto.
Qed.

(** C9 as the code has it, on the task ids [t1] and [t2], the second
    request following the first. *)
Lemma plain_task_ids_never_collide_witness :
  let first := Demo.options "t1" (Demo.encoded "iVBORw0KGgpyZWQ=")
                 (Demo.from_url "http://img.test/red") in
  let second := Demo.options "t2" (Demo.from_url "http://img.test/cat")
                  (Demo.encoded "iVBORw0KGgpibHVl") in
  let o1 := @run_roop_on_single_image Demo.host "alice" first Demo.world0 in
  let o2 := @run_roop_on_single_image Demo.host "alice" second (world_of o1) in
  (plain_name "t1" /\ plain_name "t2")
  /\ written_paths (events_of o1)
     = [Demo.face_dir +:+ "/t1.png";
        "/data/private/alice/roop/source/swap/2024-01-15/t1";
        "/data/private/alice/roop/source/swap/2024-01-15/t1.png";
        "/data/private/alice/roop/output/2024-01-15/t1.png"]
  /\ (forall p1 p2,
        In p1 (written_paths (events_of o1)) ->
        In p2 (written_paths (events_of o2)) -> p1 <> p2).
Proof.
  intros first second o1 o2.
  assert (plain_name "t1" /\ plain_name "t2") as [H1 H2] by (by split).
  split; [by split|]. split; [vm_compute; reflexivity|].
  apply (@plain_task_ids_never_collide Demo.host "alice" "alice" first second
           Demo.world0 (world_of o1) H1 H2). discriminate.
Defined.

(** * The further properties at work on the concrete host *)

(** X1 on the output folder of the day.  On a fresh machine the folder is
    made by the first call and found by the second; on a machine where a
    regular file has the name of the folder, the call returns and the path
    is no directory. *)
Lemma get_private_path_prepares_witness :
  let folder := "output/2024-01-15" in
  let dir := "/data/private/alice/roop/output/2024-01-15" in
  let o := @get_private_path Demo.host "alice" folder "t1.png" Demo.world0 in
  let occupied :=
    mkWorld ({[ dir := [] ]} : gmap string bytes) (dirs Demo.world0) 0 0 in
  let o' := @get_private_path Demo.host "alice" folder "t1.png" occupied in
  (path_root (parse_path folder) = EmptyString
   /\ path_str (@private_dir_of Demo.host "alice" folder) = dir
   /\ os_path_exists Demo.world0 dir = false)
  /\ (os_path_exists (world_of o) dir = true
      /\ is_dir (world_of o) dir = true
      /\ files (world_of o) = files Demo.world0
      /\ @get_private_path Demo.host "alice" folder "t2.png" (world_of o)
         = (Ok (joinpath (@private_dir_of Demo.host "alice" folder) "t2.png"),
            world_of o, []))
  /\ (is_file occupied dir = true
      /\ o' = (Ok (joinpath (@private_dir_of Demo.host "alice" folder)
                     "t1.png"), occupied, [])
      /\ is_dir (world_of o') dir = false).
Proof.
  intros folder dir o occupied o'.
  destruct (@get_private_path_prepares Demo.host "alice" folder "t1.png"
              Demo.world0
              (joinpath (@private_dir_of Demo.host "alice" folder) "t1.png"))
    as (_ & Hthere & Hdir & _ & Hfiles & _ & Hagain);
    [reflexivity | vm_compute; reflexivity |].
  destruct (@get_private_path_prepares Demo.host "alice" folder "t1.png"
              occupied
              (joinpath (@private_dir_of Demo.host "alice" folder) "t1.png"))
    as (_ & _ & _ & Hfile & _);
    [reflexivity | vm_compute; reflexivity |].
  assert (is_file occupied dir = true) as Hoccupied
    by (vm_compute; reflexivity).
  destruct (Hfile Hoccupied) as (Hrun & Hsame).
  split; [split_and!; vm_compute; reflexivity|]. split.
  - split; [exact Hthere|].
    split; [apply Hdir; vm_compute; reflexivity|].
    split; [exact Hfiles | exact (Hagain "t2.png")].
  - split; [exact Hoccupied|]. split; [exact Hrun|].
    etransitivity; [exact Hsame | vm_compute; reflexivity].
Defined.

(** X2 on the file name [/tmp/x.png]. *)
Lemma absolute_filename_leaves_private_dir_witness :
  let o := @get_private_path Demo.host "alice" "source/face/2024-01-15"
             "/tmp/x.png" Demo.world0 in
  str_startswith_char "/tmp/x.png" "/" = true
  /\ result_of o = Ok (parse_path "/tmp/x.png")
  /\ path_str (parse_path "/tmp/x.png") = "/tmp/x.png"
  /\ os_path_exists (world_of o) Demo.face_dir = true.
Proof.
  intros o.
  assert (result_of o = Ok (parse_path "/tmp/x.png")) as Hres
    by (vm_compute; reflexivity).
  destruct (@absolute_filename_leaves_private_dir Demo.host "alice"
              "source/face/2024-01-15" "/tmp/x.png" Demo.world0
              (parse_path "/tmp/x.png"))
    as (_ & _ & Hworld); [reflexivity | exact Hres |].
  split; [reflexivity|]. split; [exact Hres|].
  split; [vm_compute; reflexivity|].
  unfold o. rewrite Hworld. vm_compute. reflexivity.
Defined.

(** X3 on a PNG sent to a destination without extension. *)
Lemma download_image_returns_content_witness :
  let o := @download_image Demo.host "http://img.test/red"
             (Demo.face_dir +:+ "/t1") Demo.world_faces in
  result_of o = Ok (Demo.face_dir +:+ "/t1.png")
  /\ files (world_of o) !! (Demo.face_dir +:+ "/t1.png") = Some Demo.red_png
  /\ files (world_of o) !! (Demo.face_dir +:+ "/t1") = None.
Proof.
  intros o.
  assert (result_of o = Ok (Demo.face_dir +:+ "/t1.png")) as Hres
    by (vm_compute; reflexivity).
  destruct (@download_image_returns_content Demo.host "http://img.test/red"
              (Demo.face_dir +:+ "/t1") Demo.world_faces
              (Demo.face_dir +:+ "/t1.png") Hres)
    as (status & content & Hreply & Hfile & Hgone & _).
  vm_compute in Hreply. injection Hreply as _ <-.
  split; [exact Hres|]. split; [exact Hfile|].
  apply Hgone. vm_compute. discriminate.
Defined.

(** X4 on a machine where a regular file is named [roop] in the caller's
    private directory. *)
Lemma blocked_folder_raises_witness :
  let w := mkWorld ({[ "/data/private/alice/roop" := [] ]} : gmap string bytes)
             {[ "/data"; "/data/private"; "/data/private/alice" ]} 0 0 in
  let o := @download_image_if_needed Demo.host "alice"
             (Demo.encoded "iVBORw0KGgpyZWQ=") "face/2024-01-15" (Some "t1")
             w in
  (os_path_exists w Demo.face_dir = false
   /\ is_file w "/data/private/alice/roop" = true)
  /\ result_of o = Raise OSError
  /\ files (world_of o) = files w
  /\ events_of o = [].
Proof.
  intros w o.
  destruct (@blocked_folder_raises Demo.host "alice"
              (Demo.encoded "iVBORw0KGgpyZWQ=") "face/2024-01-15" (Some "t1")
              w "/data/private/alice/roop")
    as (Hres & Hfiles & _ & _);
    [reflexivity | reflexivity | vm_compute; reflexivity
    | vm_compute; auto 10 | vm_compute; reflexivity |].
  split; [split; vm_compute; reflexivity|]. split; [exact Hres|].
  split; [exact Hfiles|]. vm_compute. reflexivity.
Defined.

(** X5 on two payloads the decoder refuses, each beside a URL that would
    answer: [A], a dangling character, and a string that is not ASCII.  A
    payload of characters that are not of the alphabet, [!!!!], is not
    refused: it decodes to no byte at all, which the resolver stores. *)
Lemma malformed_payload_raises_witness :
  let run payload :=
    @download_image_if_needed Demo.host "alice"
      (mkImageSource (Some "http://img.test/red") (Some payload) None)
      "face/2024-01-15" (Some "t1") Demo.world0 in
  let accented := String "233" EmptyString in
  (Demo.b64decode "A" = None /\ str_isascii "A" = true
   /\ result_of (run "A") = Raise BinasciiError
   /\ files (world_of (run "A")) = files Demo.world0
   /\ ~ In (EvHttpGet "http://img.test/red") (events_of (run "A")))
  /\ (Demo.b64decode accented = None /\ str_isascii accented = false
      /\ result_of (run accented)
         = Raise (ValueError
                    "string argument should contain only ASCII characters"))
  /\ (Demo.b64decode "!!!!" = Some []
      /\ result_of (run "!!!!") = Ok (Demo.face_dir +:+ "/t1")).
Proof.
  intros run accented.
  destruct (@malformed_payload_raises Demo.host "alice"
              (mkImageSource (Some "http://img.test/red") (Some "A") None)
              "face/2024-01-15" (Some "t1") Demo.world0 "A")
    as (Hres & Hfiles & _ & _ & Hev);
    [reflexivity | reflexivity | vm_compute; reflexivity
    | vm_compute; reflexivity |].
  destruct (@malformed_payload_raises Demo.host "alice"
              (mkImageSource (Some "http://img.test/red") (Some accented) None)
              "face/2024-01-15" (Some "t1") Demo.world0 accented)
    as (Hres' & _);
    [reflexivity | reflexivity | vm_compute; reflexivity
    | vm_compute; reflexivity |].
  split; [|split].
  - split; [vm_compute; reflexivity|]. split; [reflexivity|].
    split; [exact Hres|]. split; [exact Hfiles|].
    intros Hin. destruct (Hev _ Hin) as [_ Hget].
    by apply (Hget "http://img.test/red").
  - split; [vm_compute; reflexivity|]. split; [reflexivity|]. exact Hres'.
  - split; vm_compute; reflexivity.
Defined.

(** X6 on a URL that answers with a 404. *)
Lemma failed_download_raises_witness :
  let o := @download_image_if_needed Demo.host "alice"
             (Demo.from_url "http://img.test/missing") "face/2024-01-15"
             (Some "t1") Demo.world0 in
  Demo.requests_get "http://img.test/missing" = Response 404 []
  /\ result_of o = Raise RequestException
  /\ files (world_of o) = files Demo.world0
  /\ In (EvHttpGet "http://img.test/missing") (events_of o).
Proof.
  intros o.
  destruct (@failed_download_raises Demo.host "alice"
              (Demo.from_url "http://img.test/missing") "face/2024-01-15"
              (Some "t1") Demo.world0 "http://img.test/missing")
    as (_ & Hres & Hfiles & _ & Hget & _);
    [reflexivity | reflexivity | reflexivity | reflexivity
    | vm_compute; reflexivity |].
  split; [reflexivity|]. split; [exact Hres|]. split; [exact Hfiles|].
  exact Hget.
Defined.

(** X7 on a path that names nothing: beside a URL, the URL is used; alone,
    the request is refused. *)
Lemma missing_local_file_falls_through_witness :
  let with_url := mkImageSource (Some "http://img.test/red") None
                    (Some "/data/local/none.png") in
  let alone := mkImageSource None None (Some "/data/local/none.png") in
  let run source :=
    @download_image_if_needed Demo.host "alice" source "face/2024-01-15"
      (Some "t1") Demo.world0 in
  os_path_exists Demo.world0 "/data/local/none.png" = false
  /\ run with_url = run (Demo.from_url "http://img.test/red")
  /\ result_of (run with_url) = Ok (Demo.face_dir +:+ "/t1.png")
  /\ result_of (run alone) = Raise (HTTPException 400 "Process image failed").
Proof.
  intros with_url alone run.
  destruct (@missing_local_file_falls_through Demo.host "alice" with_url
              "face/2024-01-15" (Some "t1") Demo.world0 "/data/local/none.png")
    as (Hsame & _); [reflexivity | vm_compute; reflexivity |].
  destruct (@missing_local_file_falls_through Demo.host "alice" alone
              "face/2024-01-15" (Some "t1") Demo.world0 "/data/local/none.png")
    as (_ & Hrefused); [reflexivity | vm_compute; reflexivity |].
  destruct Hrefused as (Hres & _);
    [reflexivity | reflexivity | vm_compute; reflexivity |].
  split; [vm_compute; reflexivity|].
  split; [apply Hsame; reflexivity|].
  split; [vm_compute; reflexivity | exact Hres].
Defined.

(** X8 on a GIF fetched from a URL: the file exists under its final name. *)
Lemma resolver_result_exists_witness :
  let o := @download_image_if_needed Demo.host "alice"
             (Demo.from_url "http://img.test/cat") "face/2024-01-15"
             (Some "t1") Demo.world0 in
  result_of o = Ok (Demo.face_dir +:+ "/t1.gif")
  /\ os_path_exists (world_of o) (Demo.face_dir +:+ "/t1.gif") = true.
Proof.
  intros o.
  assert (result_of o = Ok (Demo.face_dir +:+ "/t1.gif")) as Hres
    by (vm_compute; reflexivity).
  split; [exact Hres|].
  exact (@resolver_result_exists Demo.host "alice"
           (Demo.from_url "http://img.test/cat") "face/2024-01-15" (Some "t1")
           Demo.world0 _ Hres).
Defined.

(** X9 on the bytes of a PNG, sent as a payload and served at a URL. *)
Lemma encoded_and_url_store_alike_witness :
  let run source :=
    @download_image_if_needed Demo.host "alice" source "face/2024-01-15"
      (Some "t1") Demo.world0 in
  (plain_name "t1"
   /\ Demo.b64decode "iVBORw0KGgpyZWQ=" = Some Demo.red_png
   /\ Demo.requests_get "http://img.test/red" = Response 200 Demo.red_png)
  /\ result_of (run (Demo.encoded "iVBORw0KGgpyZWQ="))
     = Ok (Demo.face_dir +:+ "/t1.png")
  /\ result_of (run (Demo.from_url "http://img.test/red"))
     = Ok (Demo.face_dir +:+ "/t1.png")
  /\ files (world_of (run (Demo.encoded "iVBORw0KGgpyZWQ=")))
       !! (Demo.face_dir +:+ "/t1.png") = Some Demo.red_png
  /\ files (world_of (run (Demo.from_url "http://img.test/red")))
       !! (Demo.face_dir +:+ "/t1.png") = Some Demo.red_png.
Proof.
  intros run.
  assert (plain_name "t1") as Hplain by done.
  split; [split; [exact Hplain | split; vm_compute; reflexivity]|].
  exact (@encoded_and_url_store_alike Demo.host "alice" "face/2024-01-15"
           "t1" Demo.world0 "iVBORw0KGgpyZWQ=" "http://img.test/red" 200
           Demo.red_png Hplain
           ltac:(vm_compute; reflexivity) ltac:(discriminate)
           ltac:(vm_compute; reflexivity) ltac:(discriminate)
           ltac:(vm_compute; reflexivity) ltac:(reflexivity)
           ltac:(vm_compute; reflexivity)
           ltac:(vm_compute; reflexivity) ltac:(vm_compute; reflexivity)).
Defined.

(** X10 on two requests: the example of the specification, which reaches
    the swap, and a request whose face payload is no base64, which does
    not. *)
Lemma swap_called_only_with_both_images_witness :
  let answered := Demo.options "t1" (Demo.encoded "iVBORw0KGgpyZWQ=")
                    (Demo.encoded "iVBORw0KGgpibHVl") in
  let refused := Demo.options "t1" (Demo.encoded "A")
                   (Demo.encoded "iVBORw0KGgpibHVl") in
  In EvSwapFace
     (events_of (@run_roop_on_single_image Demo.host "alice" answered
                   Demo.world0))
  /\ ~ In EvSwapFace
          (events_of (@run_roop_on_single_image Demo.host "alice" refused
                        Demo.world0)).
Proof.
  intros answered refused. split.
  - apply (proj2 (@swap_called_only_with_both_images Demo.host "alice"
                    answered Demo.world0)).
    exists (Demo.face_dir +:+ "/t1.png"),
      "/data/private/alice/roop/source/swap/2024-01-15/t1.png",
      (list_byte_of_string "red"), (list_byte_of_string "blue").
    split_and!; vm_compute; reflexivity.
  - intros Hin.
    apply (proj1 (@swap_called_only_with_both_images Demo.host "alice"
                    refused Demo.world0)) in Hin
      as (face_path & _ & _ & _ & Hface & _).
    vm_compute in Hface. discriminate.
Defined.

(** X11 on a request whose swap URL answers with a 404: the face image
    stays where it was stored. *)
Lemma swap_source_failure_keeps_face_file_witness :
  let request_options :=
    Demo.options "t1" (Demo.encoded "iVBORw0KGgpyZWQ=")
      (Demo.from_url "http://img.test/missing") in
  let o := @run_roop_on_single_image Demo.host "alice" request_options
             Demo.world0 in
  path_component "t1"
  /\ result_of o = Raise RequestException
  /\ files (world_of o) !! (Demo.face_dir +:+ "/" +:+ "t1.png")
     = Some Demo.red_png.
Proof.
  intros request_options o.
  assert (path_component "t1") as Htask by done.
  destruct (@swap_source_failure_keeps_face_file Demo.host "alice"
              request_options Demo.world0 (Demo.face_dir +:+ "/t1.png")
              RequestException Htask)
    as (Hres & _ & _ & Hface);
    [vm_compute; reflexivity | vm_compute; reflexivity |].
  split; [exact Htask|]. split; [exact Hres|].
  etransitivity; [exact (Hface "t1.png") | vm_compute; reflexivity].
Defined.

(** X12 on a face payload that decodes to a text: it is stored, and the
    request fails when the file is opened. *)
Lemma unreadable_source_fails_before_swap_witness :
  let request_options :=
    Demo.options "t1" (Demo.encoded "aGVsbG8=")
      (Demo.encoded "iVBORw0KGgpibHVl") in
  let o := @run_roop_on_single_image Demo.host "alice" request_options
             Demo.world0 in
  Demo.image_decode (list_byte_of_string "hello") = None
  /\ result_of o = Raise UnidentifiedImageError
  /\ files (world_of o) !! (Demo.face_dir +:+ "/t1")
     = Some (list_byte_of_string "hello").
Proof.
  intros request_options o.
  destruct (@unreadable_source_fails_before_swap Demo.host "alice"
              request_options Demo.world0 (Demo.face_dir +:+ "/t1")
              "/data/private/alice/roop/source/swap/2024-01-15/t1.png"
              UnidentifiedImageError)
    as (Hrun & _ & _);
    [vm_compute; reflexivity | vm_compute; reflexivity
    | vm_compute; reflexivity |].
  split; [vm_compute; reflexivity|].
  split; [exact (f_equal result_of Hrun)|].
  vm_compute. reflexivity.
Defined.

(** X13 on the request of the specification's end-to-end example. *)
Lemma output_file_located_by_response_witness :
  let o := @run_roop_on_single_image Demo.host "alice"
             (Demo.options "t1" (Demo.encoded "iVBORw0KGgpyZWQ=")
                (Demo.encoded "iVBORw0KGgpibHVl"))
             Demo.world0 in
  let resp :=
    mkRoopResponse "t1" "data:image/png;base64,iVBORw0KGgpibHVlK3JlZA=="
      "2024-01-15T10:30:00Z" "2024-01-15T10:30:01Z" in
  result_of o = Ok resp
  /\ exists png,
       files (world_of o)
         !! "/data/private/alice/roop/output/2024-01-15/t1.png" = Some png
       /\ resp_encoded_image resp
          = "data:image/png;base64," +:+ Demo.b64encode png.
Proof.
  intros o resp.
  assert (result_of o = Ok resp) as Hres by (vm_compute; reflexivity).
  split; [exact Hres|].
  destruct (@output_file_located_by_response Demo.host "alice"
              (Demo.options "t1" (Demo.encoded "iVBORw0KGgpyZWQ=")
                 (Demo.encoded "iVBORw0KGgpibHVl"))
              Demo.world0 resp ltac:(reflexivity) Hres)
    as (png & Hfile & Himage).
  exists png. split; [exact Hfile | exact Himage].
Defined.

(** X14 on the example of the specification with its task id emptied. *)
Lemma empty_task_id_never_answered_witness :
  let request_options :=
    Demo.options "" (Demo.encoded "iVBORw0KGgpyZWQ=")
      (Demo.encoded "iVBORw0KGgpibHVl") in
  let o := @run_roop_on_single_image Demo.host "alice" request_options
             Demo.world0 in
  task_id request_options = EmptyString
  /\ result_of o = Raise (ValueError "unknown file extension")
  /\ result_of o <> Ok (mkRoopResponse "" "" "" "").
Proof.
  intros request_options o. split; [reflexivity|].
  split; [vm_compute; reflexivity|].
  apply (@empty_task_id_never_answered Demo.host "alice" request_options
           Demo.world0). reflexivity.
Defined.

(** X15 on a request whose face is a file of the caller's own: the request
    is answered and the file is as it was. *)
Lemma handler_confined_to_private_dir_witness :
  let request_options :=
    Demo.options "t1" (mkImageSource None None (Some "/data/local/face.png"))
      (Demo.encoded "iVBORw0KGgpibHVl") in
  let o := @run_roop_on_single_image Demo.host "alice" request_options
             Demo.world_local in
  path_component "t1"
  /\ (exists resp, result_of o = Ok resp)
  /\ files (world_of o) !! "/data/local/face.png" = Some Demo.red_png.
Proof.
  intros request_options o.
  assert (path_component "t1") as Htask by done.
  destruct (@handler_confined_to_private_dir Demo.host "alice"
              request_options Demo.world_local Htask) as (_ & Houtside).
  split; [exact Htask|].
  split; [eexists; vm_compute; reflexivity|].
  unfold o. rewrite (Houtside "/data/local/face.png");
    [vm_compute; reflexivity | intros rest; vm_compute; discriminate].
Defined.
